(** * Render3 definition compiler: a shallow embedding of
      packages/compiler/src/render3/view/compiler.ts

    The development follows the source file function by function.  Code that
    compiler.ts imports from other files (the constant pool, the binding
    parser, the expression converters, the template builder, the styling
    builder, ...) is not part of the file: it is either taken as a parameter of
    the section [Compiler] or, where said so, modelled from the specification.

    Conventions.
    - A JavaScript string is a [string]; characters are code units in the
      ASCII range.
    - A JavaScript object used as a string-keyed dictionary is the
      association list of its own properties in the order in which
      [Object.keys] enumerates them (keys are non-index property names);
      [Js.set] is the assignment [o[k] = v] of a string to an object made by
      [{}], which stores nothing under the name ['__proto__'].
    - [null]/[undefined] are [None].
    - [error(msg)] throws: compilation runs in the monad [M], which threads
      the constant pool and stops at the first error. *)

From Stdlib Require Import String Ascii List ZArith Bool Lia Arith.
Import ListNotations.
Local Open Scope string_scope.
Local Open Scope list_scope.
Set Warnings "-register-all".

(* ===================================================================== *)
(** ** JavaScript strings *)
(* ===================================================================== *)

Module Js.

Definition lowerChar (c : ascii) : ascii :=
  let n := nat_of_ascii c in
  if (65 <=? n)%nat && (n <=? 90)%nat then ascii_of_nat (n + 32) else c.

(** [String.prototype.toLowerCase] *)
Fixpoint toLowerCase (s : string) : string :=
  match s with
  | EmptyString => EmptyString
  | String c r => String (lowerChar c) (toLowerCase r)
  end.

Definition len (s : string) : Z := Z.of_nat (String.length s).

Definition clamp (s : string) (i : Z) : Z := Z.max 0 (Z.min i (len s)).

(** [String.prototype.substring(start, end)]: both indices are clamped to
    [0 .. length] and swapped when [start > end]. *)
Definition substring (s : string) (a b : Z) : string :=
  let a' := clamp s a in
  let b' := clamp s b in
  let lo := Z.min a' b' in
  let hi := Z.max a' b' in
  String.substring (Z.to_nat lo) (Z.to_nat (hi - lo)) s.

Fixpoint indexOfFrom (c : ascii) (s : string) (i : Z) : Z :=
  match s with
  | EmptyString => (-1)%Z
  | String a r => if Ascii.eqb a c then i else indexOfFrom c r (i + 1)%Z
  end.

(** [s.indexOf(c)] for a one-character needle *)
Definition indexOf (s : string) (c : ascii) : Z := indexOfFrom c s 0.

Fixpoint lastIndexOfFrom (c : ascii) (s : string) (i : Z) (found : Z) : Z :=
  match s with
  | EmptyString => found
  | String a r =>
      lastIndexOfFrom c r (i + 1)%Z (if Ascii.eqb a c then i else found)
  end.

(** [s.lastIndexOf(c)] for a one-character needle *)
Definition lastIndexOf (s : string) (c : ascii) : Z :=
  lastIndexOfFrom c s 0 (-1)%Z.

(** truthiness of a string: the empty string is falsy *)
Definition truthy (s : string) : bool :=
  match s with EmptyString => false | _ => true end.

(** truthiness of [string | null | undefined] *)
Definition truthyOpt (s : option string) : bool :=
  match s with Some s => truthy s | None => false end.

(** [s.replace(/\n/g, '')] *)
Fixpoint stripNewlines (s : string) : string :=
  match s with
  | EmptyString => EmptyString
  | String c r =>
      if Ascii.eqb c "010"%char then stripNewlines r
      else String c (stripNewlines r)
  end.

(** *** String-keyed objects *)

Definition Obj (V : Type) : Type := list (string * V).

Definition keys {V} (o : Obj V) : list string := map fst o.

Fixpoint get {V} (o : Obj V) (k : string) : option V :=
  match o with
  | [] => None
  | (k', v) :: r => if String.eqb k' k then Some v else get r k
  end.

(** the definition or the update of the own property [k]: an existing
    property keeps its place, a new one is added last *)
Fixpoint define {V} (o : Obj V) (k : string) (v : V) : Obj V :=
  match o with
  | [] => [(k, v)]
  | (k', v') :: r =>
      if String.eqb k' k then (k', v) :: r else (k', v') :: define r k v
  end.

(** [o[k] = v] for an object [o] made by [{}] and a value [v] that is a
    string, which is what compiler.ts assigns this way.  The name
    ['__proto__'] is not an own property of such an object: the assignment
    reaches the accessor of [Object.prototype], whose setter does nothing
    with a value that is neither an object nor [null], so nothing is
    stored. *)
Definition set {V} (o : Obj V) (k : string) (v : V) : Obj V :=
  if String.eqb k "__proto__" then o else define o k v.

Definition has {V} (o : Obj V) (k : string) : bool :=
  match get o k with Some _ => true | None => false end.

End Js.

(* ===================================================================== *)
(** ** Enumerations of core.ts and the instruction identifiers *)
(* ===================================================================== *)

Inductive ViewEncapsulation := Emulated | Native | EncNone | ShadowDom.

Inductive ChangeDetectionStrategy := OnPush | Default.

Inductive RenderFlags := Create | Update.

Definition ViewEncapsulation_eqb (a b : ViewEncapsulation) : bool :=
  match a, b with
  | Emulated, Emulated | Native, Native
  | EncNone, EncNone | ShadowDom, ShadowDom => true
  | _, _ => false
  end.

(** The members of [Identifiers] (imported as [R3]) that compiler.ts names,
    and the styling instructions a [StylingInstruction] may refer to. *)
Module R3.
Inductive ExternalReference :=
| directiveInject | ProvidersFeature | InheritDefinitionFeature
| NgOnChangesFeature | defineDirective | defineBase | BaseDef
| defineComponent | DirectiveDefWithMeta | ComponentDefWithMeta
| query | registerContentQuery | load | loadQueryList | queryRefresh
| bind | allocHostVars | elementAttribute | elementProperty | listener
| namespaceHTML
| elementStyling | elementStylingMap | elementStyleProp
| elementClassProp | elementStylingApply.
End R3.

(* ===================================================================== *)
(** ** Helpers of compiler.ts that depend on nothing else *)
(* ===================================================================== *)

(** [function getStylingPrefix(propName)] *)
Definition getStylingPrefix (propName : string) : string :=
  Js.toLowerCase (Js.substring propName 0 5).

(** The filter of [baseDirectiveFields], lines 73-76: a host property name
    allocates a host-variable slot unless its prefix is 'style' or 'class'. *)
Definition allocatesHostVar (name : string) : bool :=
  let prefix := getStylingPrefix name in
  negb (String.eqb prefix "style") && negb (String.eqb prefix "class").

Definition isStylingName (name : string) : bool := negb (allocatesHostVar name).

Record NamedProperty := { np_propertyName : string; np_unit : string }.

(** [function parseNamedProperty(name)] *)
Definition parseNamedProperty (name : string) : NamedProperty :=
  let index := Js.indexOf name "."%char in
  if (0 <? index)%Z then
    let unitIndex := Js.lastIndexOf name "."%char in
    if negb (unitIndex =? index)%Z then
      {| np_propertyName := Js.substring name (index + 1) unitIndex;
         np_unit := Js.substring name (unitIndex + 1) (Js.len name) |}
    else
      {| np_propertyName := Js.substring name (index + 1) (Js.len name);
         np_unit := "" |}
  else {| np_propertyName := ""; np_unit := "" |}.

(** *** HOST_REG_EXP

    [/^(?:(?:\[([^\]]+)\])|(?:\(([^\)]+)\)))|(\@[-\w]+)$/]

    The top-level alternation has two branches: the first is anchored at the
    start of the key only, the second at its end only.  [key.match] tries the
    positions from left to right and, at each, the branches in order. *)

Record RegExpMatch := {
  group1 : option string;   (* HostBindingGroup.Binding *)
  group2 : option string;   (* HostBindingGroup.Event *)
  group3 : option string    (* HostBindingGroup.Animation *)
}.

(** the longest prefix without [c], and what follows it: the greedy [[^c]*] *)
Fixpoint spanNot (c : ascii) (s : string) : string * string :=
  match s with
  | EmptyString => (EmptyString, EmptyString)
  | String a r =>
      if Ascii.eqb a c then (EmptyString, s)
      else let (body, rest) := spanNot c r in (String a body, rest)
  end.

(** [\o([^\c]+)\c] matched at the start of [s]; the captured group *)
Definition delimited (o c : ascii) (s : string) : option string :=
  match s with
  | String a r =>
      if Ascii.eqb a o then
        match spanNot c r with
        | (String b body, String x _) =>
            if Ascii.eqb x c then Some (String b body) else None
        | _ => None
        end
      else None
  | EmptyString => None
  end.

(** the class [[-\w]] *)
Definition isWordOrHyphen (c : ascii) : bool :=
  let n := nat_of_ascii c in
  ((48 <=? n) && (n <=? 57) || (65 <=? n) && (n <=? 90)
   || (97 <=? n) && (n <=? 122) || (n =? 95) || (n =? 45))%nat.

Fixpoint allWordOrHyphen (s : string) : bool :=
  match s with
  | EmptyString => true
  | String c r => isWordOrHyphen c && allWordOrHyphen r
  end.

(** [(\@[-\w]+)$] matched at the start of [s] *)
Definition animationHere (s : string) : option string :=
  match s with
  | String c r =>
      if Ascii.eqb c "@"%char && Js.truthy r && allWordOrHyphen r
      then Some s else None
  | EmptyString => None
  end.

(** the leftmost position at which the second branch matches *)
Fixpoint searchAnimation (s : string) : option string :=
  match animationHere s with
  | Some g => Some g
  | None =>
      match s with
      | EmptyString => None
      | String _ r => searchAnimation r
      end
  end.

(** [key.match(HOST_REG_EXP)] *)
Definition HOST_REG_EXP_match (key : string) : option RegExpMatch :=
  match delimited "["%char "]"%char key with
  | Some g => Some {| group1 := Some g; group2 := None; group3 := None |}
  | None =>
      match delimited "("%char ")"%char key with
      | Some g => Some {| group1 := None; group2 := Some g; group3 := None |}
      | None =>
          match searchAnimation key with
          | Some g =>
              Some {| group1 := None; group2 := None; group3 := Some g |}
          | None => None
          end
      end
  end.

Record HostBindings := {
  hb_attributes : Js.Obj string;
  hb_listeners : Js.Obj string;
  hb_properties : Js.Obj string;
  hb_animations : Js.Obj string
}.

(** the body of the [forEach] of [parseHostBindings] *)
Definition parseHostBinding (acc : HostBindings) (entry : string * string)
  : HostBindings :=
  let (key, value) := entry in
  match HOST_REG_EXP_match key with
  | None =>
      {| hb_attributes := Js.set (hb_attributes acc) key value;
         hb_listeners := hb_listeners acc;
         hb_properties := hb_properties acc;
         hb_animations := hb_animations acc |}
  | Some matches =>
      match group1 matches with
      | Some name =>
          {| hb_attributes := hb_attributes acc;
             hb_listeners := hb_listeners acc;
             hb_properties := Js.set (hb_properties acc) name value;
             hb_animations := hb_animations acc |}
      | None =>
          match group2 matches with
          | Some name =>
              {| hb_attributes := hb_attributes acc;
                 hb_listeners := Js.set (hb_listeners acc) name value;
                 hb_properties := hb_properties acc;
                 hb_animations := hb_animations acc |}
          | None =>
              match group3 matches with
              | Some name =>
                  {| hb_attributes := hb_attributes acc;
                     hb_listeners := hb_listeners acc;
                     hb_properties := hb_properties acc;
                     hb_animations := Js.set (hb_animations acc) name value |}
              | None => acc
              end
          end
      end
  end.

(** [export function parseHostBindings(host)] *)
Definition parseHostBindings (host : Js.Obj string) : HostBindings :=
  fold_left parseHostBinding host
    {| hb_attributes := []; hb_listeners := [];
       hb_properties := []; hb_animations := [] |}.

(* ===================================================================== *)
(** ** The output AST (output/output_ast.ts), as far as compiler.ts builds it *)
(* ===================================================================== *)

Inductive BuiltinTypeName := DYNAMIC_TYPE | INFERRED_TYPE | NUMBER_TYPE | NONE_TYPE.

Inductive StmtModifier := Final | Static.

Inductive BinaryOperator := And | Plus | BitwiseAnd.

(** the argument of [o.literal] *)
Inductive Literal :=
| LNull
| LUndefined
| LBool (b : bool)
| LNum (n : Z)
| LStr (s : string)
| LEncapsulation (e : ViewEncapsulation)
| LChangeDetection (c : ChangeDetectionStrategy).

(** The outcome of a call that may throw. *)
Inductive Result (A : Type) :=
| Ok (a : A)
| Thrown (message : string).
Arguments Ok {A} a.
Arguments Thrown {A} message.

Section Compiler.

(** Data of other files that the compiler only passes along. *)
Context {AST : Type}            (* a parsed binding expression *)
        {SourceSpan : Type}     (* ParseSourceSpan *)
        {Dep : Type}            (* R3DependencyMetadata *)
        {TemplateNodes : Type}  (* the nodes of a Render3 template *)
        {CssSelector : Type}    (* a parsed CSS selector *)
        {R3Selector : Type}     (* the result of parseSelectorToR3Selector *)
        {Reference : Type}      (* the reference of a static symbol *)
        {Pool : Type}.          (* the contents of a ConstantPool *)

Inductive Expr :=
| ReadVarExpr (name : string)
| LiteralExpr (value : Literal) (type : option OType)
| LiteralArrayExpr (entries : list Expr)
| LiteralMapExpr (entries : list (string * bool * Expr))
| ExternalExpr (value : R3.ExternalReference)
               (typeParams : option (list OType))
               (sourceSpan : option SourceSpan)
| InvokeFunctionExpr (fn : Expr) (args : list Expr)
                     (sourceSpan : option SourceSpan)
| ReadPropExpr (receiver : Expr) (name : string)
| WriteVarExpr (name : string) (value : Expr)
| WritePropExpr (receiver : Expr) (name : string) (value : Expr)
| BinaryOperatorExpr (operator : BinaryOperator) (lhs rhs : Expr)
| FunctionExpr (params : list FnParam) (statements : list Stmt)
               (type : option OType) (name : option string)
with OType :=
| BuiltinType (name : BuiltinTypeName)
| ExpressionType (value : Expr)
with FnParam :=
| mkFnParam (name : string) (type : option OType)
with Stmt :=
| ExpressionStatement (expr : Expr)
| DeclareVarStmt (name : string) (value : option Expr)
                 (type : option OType) (modifiers : list StmtModifier)
| IfStmt (condition : Expr) (trueCase : list Stmt)
| ReturnStatement (value : Expr).

(** The builders of output_ast.ts. *)
Definition variable (name : string) : Expr := ReadVarExpr name.
Definition literal (v : Literal) : Expr := LiteralExpr v None.
Definition literalArr (es : list Expr) : Expr := LiteralArrayExpr es.
Definition literalMap (es : list (string * bool * Expr)) : Expr :=
  LiteralMapExpr es.
Definition importExpr (r : R3.ExternalReference) : Expr :=
  ExternalExpr r None None.
Definition callFn (f : Expr) (args : list Expr) : Expr :=
  InvokeFunctionExpr f args None.
Definition toStmt (e : Expr) : Stmt := ExpressionStatement e.
Definition prop (e : Expr) (name : string) : Expr := ReadPropExpr e name.
Definition and (l r : Expr) : Expr := BinaryOperatorExpr And l r.
Definition plus (l r : Expr) : Expr := BinaryOperatorExpr Plus l r.
Definition fn (params : list FnParam) (stmts : list Stmt)
           (type : option OType) (name : option string) : Expr :=
  FunctionExpr params stmts type name.
Definition expressionType (e : Expr) : OType := ExpressionType e.

(** [ReadVarExpr.set] and [ReadPropExpr.set]; compiler.ts calls [set] on
    nothing else. *)
Definition set (target value : Expr) : Expr :=
  match target with
  | ReadPropExpr receiver name => WritePropExpr receiver name value
  | ReadVarExpr name => WriteVarExpr name value
  | _ => target
  end.

(** [WriteVarExpr.toDeclStmt(type, modifiers)] *)
Definition toDeclStmt (e : Expr) (type : OType)
           (modifiers : list StmtModifier) : Stmt :=
  match e with
  | WriteVarExpr name value => DeclareVarStmt name (Some value) (Some type) modifiers
  | _ => ExpressionStatement e
  end.

Definition strLit (s : string) : Expr := literal (LStr s).

(* =================================================================== *)
(** ** Errors and the constant pool *)
(* =================================================================== *)

(** a computation that reads and extends the constant pool and may throw *)
Definition M (A : Type) : Type := Pool -> Result (A * Pool).

Definition ret {A} (a : A) : M A := fun pool => Ok (a, pool).

Definition bind {A B} (c : M A) (k : A -> M B) : M B :=
  fun pool =>
    match c pool with
    | Ok (a, pool') => k a pool'
    | Thrown msg => Thrown msg
    end.

(** [error(msg)] of util.ts: [throw new Error(...)] *)
Definition error {A} (msg : string) : M A := fun _ => Thrown msg.

Definition liftResult {A} (r : Result A) : M A :=
  fun pool =>
    match r with
    | Ok a => Ok (a, pool)
    | Thrown msg => Thrown msg
    end.

Fixpoint mapM {A B} (f : A -> M B) (l : list A) : M (list B) :=
  match l with
  | [] => ret []
  | a :: r => bind (f a) (fun b => bind (mapM f r) (fun bs => ret (b :: bs)))
  end.

Notation "x <- c ;; k" := (bind c (fun x => k))
  (at level 61, c at next level, right associativity).
Notation "' pat <- c ;; k" := (bind c (fun x => match x with pat => k end))
  (at level 61, pat pattern, c at next level, right associativity).

(* =================================================================== *)
(** ** Metadata (api.ts), as far as compiler.ts reads it *)
(* =================================================================== *)

(** [predicate: o.Expression|string[]] *)
Inductive QueryPredicate :=
| PredicateExpr (e : Expr)
| PredicateStrings (selectors : list string).

Record R3QueryMetadata := {
  q_propertyName : string;
  q_first : bool;
  q_predicate : QueryPredicate;
  q_descendants : bool;
  q_read : option Expr
}.

Record R3HostMetadata := {
  h_attributes : Js.Obj string;
  h_listeners : Js.Obj string;
  h_properties : Js.Obj string
}.

(** [string | [string, string]] *)
Inductive InputValue :=
| Plain (s : string)
| Renamed (bindingName propName : string).

Record R3DirectiveMetadata := {
  m_name : string;
  m_type : Expr;
  m_typeArgumentCount : nat;
  m_typeSourceSpan : SourceSpan;
  m_deps : option (list Dep);
  m_selector : option string;
  m_queries : list R3QueryMetadata;
  m_usesOnChanges : bool;           (* lifecycle.usesOnChanges *)
  m_host : R3HostMetadata;
  m_inputs : Js.Obj InputValue;
  m_outputs : Js.Obj string;
  m_usesInheritance : bool;
  m_exportAs : option string;
  m_providers : option Expr
}.

(** [R3ComponentMetadata extends R3DirectiveMetadata] *)
Record R3ComponentMetadata := {
  c_directive : R3DirectiveMetadata;
  c_template : TemplateNodes;                       (* template.nodes *)
  c_viewQueries : list R3QueryMetadata;
  c_directives : list (string * Expr);              (* selector, expression *)
  c_pipes : Js.Obj Expr;
  c_wrapDirectivesAndPipesInClosure : bool;
  c_styles : list string;
  c_encapsulation : option ViewEncapsulation;
  c_animations : option Expr;
  c_viewProviders : option Expr;
  c_relativeContextFilePath : string;
  c_i18nUseExternalIds : bool;
  c_changeDetection : option ChangeDetectionStrategy
}.

(** [meta: R3DirectiveMetadata | R3ComponentMetadata] *)
Inductive AnyMetadata :=
| OfDirective (meta : R3DirectiveMetadata)
| OfComponent (meta : R3ComponentMetadata).

Definition directivePart (meta : AnyMetadata) : R3DirectiveMetadata :=
  match meta with
  | OfDirective d => d
  | OfComponent c => c_directive c
  end.

(** [(meta as R3ComponentMetadata).viewProviders]: undefined on a directive *)
Definition viewProvidersOf (meta : AnyMetadata) : option Expr :=
  match meta with
  | OfDirective _ => None
  | OfComponent c => c_viewProviders c
  end.

Definition set_encapsulation (meta : R3ComponentMetadata)
           (e : option ViewEncapsulation) : R3ComponentMetadata :=
  {| c_directive := c_directive meta;
     c_template := c_template meta;
     c_viewQueries := c_viewQueries meta;
     c_directives := c_directives meta;
     c_pipes := c_pipes meta;
     c_wrapDirectivesAndPipesInClosure := c_wrapDirectivesAndPipesInClosure meta;
     c_styles := c_styles meta;
     c_encapsulation := e;
     c_animations := c_animations meta;
     c_viewProviders := c_viewProviders meta;
     c_relativeContextFilePath := c_relativeContextFilePath meta;
     c_i18nUseExternalIds := c_i18nUseExternalIds meta;
     c_changeDetection := c_changeDetection meta |}.

(** The part of [CompileDirectiveSummary] that [metadataAsSummary] fills. *)
Record CompileDirectiveSummary := {
  hostAttributes : Js.Obj string;
  hostListeners : Js.Obj string;
  hostProperties : Js.Obj string
}.

(** [ParsedEvent] and [ParsedProperty] of expression_parser/ast.ts *)
Record ParsedEvent := { ev_name : string; ev_handler : AST }.

Record ParsedProperty := {
  pp_name : string;
  pp_expression : AST;
  pp_sourceSpan : SourceSpan
}.

(** [CompileTokenMetadata] of compile_metadata.ts: [value] is a string
    selector, [identifier.reference] a type. *)
Record CompileTokenMetadata := {
  tok_value : option string;
  tok_identifier : option Reference
}.

(* =================================================================== *)
(** ** The definition map and the styling builder *)
(* =================================================================== *)

(** Modelled from the spec: [DefinitionMap] of ./util (section 3): an
    ordered mapping from field names to expressions, serialized verbatim in
    insertion order; a field whose value is absent is omitted. *)
Definition DefinitionMap : Type := list (string * bool * Expr).

Definition DefinitionMap_set (dm : DefinitionMap) (key : string)
           (value : option Expr) : DefinitionMap :=
  match value with
  | Some v => dm ++ [(key, false, v)]
  | None => dm
  end.

Definition toLiteralMap (dm : DefinitionMap) : Expr := literalMap dm.

(** the value stored under a field, if the field is present *)
Fixpoint field (dm : DefinitionMap) (key : string) : option Expr :=
  match dm with
  | [] => None
  | (k, _, v) :: r => if String.eqb k key then Some v else field r key
  end.

(** [StylingInstruction] of ./styling: [buildParams] receives the function
    that converts a bound value to an output expression. *)
Record StylingInstruction := {
  si_reference : R3.ExternalReference;
  si_sourceSpan : option SourceSpan;
  si_buildParams : (AST -> Result Expr) -> Result (list Expr)
}.

Record StyleInput := {
  sty_propertyName : string;
  sty_value : AST;
  sty_unit : string;
  sty_sourceSpan : SourceSpan
}.

Record ClassInput := {
  cls_className : string;
  cls_value : AST;
  cls_sourceSpan : SourceSpan
}.

(** Modelled from the spec: the state of [StylingBuilder] of ./styling
    (section 4.2): the static style string, the static class string, the
    dynamic style bindings and the dynamic class bindings, in the order in
    which they were registered. *)
Record StylingBuilder := {
  sb_elementIndex : Expr;
  sb_context : Expr;
  sb_styleAttr : option string;
  sb_classAttr : option string;
  sb_styleInputs : list StyleInput;
  sb_classInputs : list ClassInput
}.

Definition newStylingBuilder (elementIndex context : Expr) : StylingBuilder :=
  {| sb_elementIndex := elementIndex; sb_context := context;
     sb_styleAttr := None; sb_classAttr := None;
     sb_styleInputs := []; sb_classInputs := [] |}.

Definition registerStyleAttr (sb : StylingBuilder) (value : string) :=
  {| sb_elementIndex := sb_elementIndex sb; sb_context := sb_context sb;
     sb_styleAttr := Some value; sb_classAttr := sb_classAttr sb;
     sb_styleInputs := sb_styleInputs sb;
     sb_classInputs := sb_classInputs sb |}.

Definition registerClassAttr (sb : StylingBuilder) (value : string) :=
  {| sb_elementIndex := sb_elementIndex sb; sb_context := sb_context sb;
     sb_styleAttr := sb_styleAttr sb; sb_classAttr := Some value;
     sb_styleInputs := sb_styleInputs sb;
     sb_classInputs := sb_classInputs sb |}.

Definition registerStyleInput (sb : StylingBuilder) (propertyName : string)
           (value : AST) (unit : string) (span : SourceSpan) :=
  {| sb_elementIndex := sb_elementIndex sb; sb_context := sb_context sb;
     sb_styleAttr := sb_styleAttr sb; sb_classAttr := sb_classAttr sb;
     sb_styleInputs :=
       sb_styleInputs sb
       ++ [{| sty_propertyName := propertyName; sty_value := value;
              sty_unit := unit; sty_sourceSpan := span |}];
     sb_classInputs := sb_classInputs sb |}.

Definition registerClassInput (sb : StylingBuilder) (className : string)
           (value : AST) (span : SourceSpan) :=
  {| sb_elementIndex := sb_elementIndex sb; sb_context := sb_context sb;
     sb_styleAttr := sb_styleAttr sb; sb_classAttr := sb_classAttr sb;
     sb_styleInputs := sb_styleInputs sb;
     sb_classInputs :=
       sb_classInputs sb
       ++ [{| cls_className := className; cls_value := value;
              cls_sourceSpan := span |}] |}.

(** whether any styling work exists *)
Definition hasBindingsOrInitialValues (sb : StylingBuilder) : bool :=
  match sb_styleAttr sb, sb_classAttr sb, sb_styleInputs sb, sb_classInputs sb with
  | None, None, [], [] => false
  | _, _, _, _ => true
  end.

(* =================================================================== *)
(** ** The collaborators of compiler.ts *)
(* =================================================================== *)

(** the argument of [compileFactoryFunction] *)
Record R3FactoryMetadata := {
  f_name : string;
  f_type : Expr;
  f_deps : option (list Dep);
  f_injectFn : R3.ExternalReference
}.

(** the operations performed on a [SelectorMatcher]: one [addSelectables]
    per directive *)
Definition SelectorMatcher : Type := list (list CssSelector * Expr).

(** the arguments with which [TemplateDefinitionBuilder] is constructed *)
Record TemplateBuilderArgs := {
  tb_contextName : string;
  tb_templateName : option string;
  tb_viewQueries : list R3QueryMetadata;
  tb_directiveMatcher : option SelectorMatcher;
  tb_pipes : Js.Obj Expr;
  tb_namespace : R3.ExternalReference;
  tb_relativeContextFilePath : string;
  tb_i18nUseExternalIds : bool
}.

(** what is read back from the template builder when it is done *)
Record TemplateResult := {
  tr_template : Expr;
  tr_constCount : Z;
  tr_varCount : Z;
  tr_directivesUsed : list Expr;
  tr_pipesUsed : list Expr
}.

Record Collaborators := {
  (* constants of ./util and ../../style_compiler *)
  CONTEXT_NAME : string;
  RENDER_FLAGS : string;
  TEMPORARY_NAME : string;
  CONTENT_ATTR : string;
  HOST_ATTR : string;
  (* ConstantPool.getConstLiteral(literal, forceShared) *)
  getConstLiteral : Expr -> bool -> M Expr;
  (* ../r3_factory *)
  compileFactoryFunction : R3FactoryMetadata -> Expr * list Stmt;
  (* core.parseSelectorToR3Selector and asLiteral of ./util *)
  parseSelectorToR3Selector : option string -> R3Selector;
  asLiteral : R3Selector -> Expr;
  (* CssSelector.parse and CssSelector.getAttrs *)
  CssSelector_parse : string -> list CssSelector;
  getAttrs : CssSelector -> list (option string);
  (* new TemplateDefinitionBuilder(...).buildTemplateFunction(nodes, []) *)
  buildTemplateFunction : TemplateBuilderArgs -> TemplateNodes -> M TemplateResult;
  (* ShadowCss.shimCssText *)
  shimCssText : string -> string -> string -> string;
  (* BindingParser *)
  createDirectiveHostEventAsts :
    CompileDirectiveSummary -> SourceSpan -> option (list ParsedEvent);
  createBoundHostProperties :
    CompileDirectiveSummary -> SourceSpan -> option (list ParsedProperty);
  (* convertActionBinding(null, ctx, handler, id, onInterpolation):
     its render3Stmts *)
  convertActionBinding : Expr -> AST -> string -> Result (list Stmt);
  (* convertPropertyBinding(null, ctx, value, id, TrySimple, onInterpolation):
     its stmts and currValExpr *)
  convertPropertyBinding : Expr -> AST -> string -> Result (list Stmt * Expr);
  (* expression.visit(valueConverter), the converter being built on
     hostVarsCountFn: given the current total of host variables, the
     converted value and the number of slots the visit asked for *)
  visit : AST -> nat -> M (AST * nat);
  (* StylingBuilder.buildCreateLevelInstruction(null, constantPool) *)
  buildCreateLevelInstruction : StylingBuilder -> M (option StylingInstruction);
  (* StylingBuilder.buildUpdateLevelInstructions(valueConverter): the
     instructions and the number of slots the conversions asked for *)
  buildUpdateLevelInstructions :
    StylingBuilder -> nat -> M (list StylingInstruction * nat);
  (* ./template *)
  renderFlagCheckIfStmt : RenderFlags -> list Stmt -> Stmt;
  (* ./util *)
  getQueryPredicate : R3QueryMetadata -> M Expr;
  mapToExpression : Js.Obj InputValue -> bool -> Expr;
  (* ../util *)
  typeWithParameters : Expr -> nat -> OType;
  (* ../../compile_metadata *)
  sanitizeIdentifier : string -> string;
  (* OutputContext.importExpr *)
  outputCtx_importExpr : Reference -> Expr
}.

Variable ext : Collaborators.

(** Modelled from the spec: [conditionallyCreateMapObjectLiteral] of ./util
    (section 4.5): "literal object map, omitted if empty"; that the inputs map
    is always emitted even when empty "is false".  The second argument, set
    for [inputs] only, is handed to the construction of the map, which for
    inputs "additionally supports a tuple form". *)
Definition conditionallyCreateMapObjectLiteral (keys : Js.Obj InputValue)
           (keepDeclared : bool) : option Expr :=
  match keys with
  | [] => None
  | _ => Some (mapToExpression ext keys keepDeclared)
  end.

(** Modelled from the spec and from the comments at its call sites
    ([var $tmp$: any], [(r3.qR(tmp = r3.load(0)) && (ctx.someDir = tmp))]):
    [temporaryAllocator(statements, name)] of ./util.  The allocator returns
    the one variable [name] at every call and declares it in [statements]
    when it is first asked for.  The state of the closure is the statement
    list and whether the variable exists. *)
Definition temporary (name : string) (st : list Stmt * bool)
  : Expr * (list Stmt * bool) :=
  let (statements, declared) := st in
  if declared then (variable name, st)
  else (variable name,
        (statements
           ++ [DeclareVarStmt name None (Some (BuiltinType DYNAMIC_TYPE)) []],
         true)).

(* =================================================================== *)
(** ** compiler.ts *)
(* =================================================================== *)

(** [name ? `${name}suffix` : null] *)
Definition suffixedName (name suffix : string) : option string :=
  if Js.truthy name then Some (name ++ suffix)%string else None.

(** [function createDirectiveSelector(selector)] *)
Definition createDirectiveSelector (selector : option string) : Expr :=
  asLiteral ext (parseSelectorToR3Selector ext selector).

(** [function createHostAttributesArray(attributes)] *)
Definition createHostAttributesArray (attributes : Js.Obj string)
  : option Expr :=
  let values :=
    fold_left (fun values kv => values ++ [strLit (fst kv); strLit (snd kv)])
              attributes [] in
  if (0 <? length values)%nat then Some (literalArr values) else None.

(** [function createQueryDefinition(query, constantPool, idx)] *)
Definition createQueryDefinition (query : R3QueryMetadata) (idx : option nat)
  : M Expr :=
  predicate <- getQueryPredicate ext query ;;
  let parameters :=
    [ LiteralExpr (match idx with
                   | Some i => LNum (Z.of_nat i)
                   | None => LNull
                   end) (Some (BuiltinType INFERRED_TYPE));
      predicate;
      literal (LBool (q_descendants query)) ] in
  let parameters :=
    match q_read query with
    | Some read => parameters ++ [read]
    | None => parameters
    end in
  ret (callFn (importExpr R3.query) parameters).

(** [function createContentQueriesFunction(meta, constantPool)] *)
Definition createContentQueriesFunction (meta : R3DirectiveMetadata)
  : M (option Expr) :=
  match m_queries meta with
  | [] => ret None
  | queries =>
      statements <-
        mapM (fun query =>
                queryDefinition <- createQueryDefinition query None ;;
                ret (toStmt (callFn (importExpr R3.registerContentQuery)
                                    [queryDefinition; variable "dirIndex"])))
             queries ;;
      let typeName := m_name meta in
      let parameters :=
        [mkFnParam "dirIndex" (Some (BuiltinType NUMBER_TYPE))] in
      ret (Some (fn parameters statements (Some (BuiltinType INFERRED_TYPE))
                    (suffixedName typeName "_ContentQueries")))
  end.

(** the argument of [loadQueryList] for the query at position [idx] *)
Definition queryListIndex (idx : nat) : Expr :=
  let loadQLArg := variable "queryStartIndex" in
  if (0 <? idx)%nat then plus loadQLArg (literal (LNum (Z.of_nat idx)))
  else loadQLArg.

(** the body of the [forEach] of [createContentQueriesRefreshFunction] *)
Definition refreshQuery (directiveInstanceVar : Expr)
           (query : R3QueryMetadata) (idx : nat) (st : list Stmt * bool)
  : list Stmt * bool :=
  let getQueryList :=
    callFn (importExpr R3.loadQueryList) [queryListIndex idx] in
  let (t1, st) := temporary (TEMPORARY_NAME ext) st in
  let assignToTemporary := set t1 getQueryList in
  let callQueryRefresh :=
    callFn (importExpr R3.queryRefresh) [assignToTemporary] in
  let (t2, st) := temporary (TEMPORARY_NAME ext) st in
  let updateDirective :=
    set (prop directiveInstanceVar (q_propertyName query))
        (if q_first query then prop t2 "first" else t2) in
  let refreshQueryAndUpdateDirective := and callQueryRefresh updateDirective in
  let (statements, declared) := st in
  (statements ++ [toStmt refreshQueryAndUpdateDirective], declared).

(** [meta.queries.forEach((query, idx) => ...)] from position [idx] on *)
Fixpoint refreshQueries (directiveInstanceVar : Expr)
         (queries : list R3QueryMetadata) (idx : nat)
         (st : list Stmt * bool) : list Stmt * bool :=
  match queries with
  | [] => st
  | query :: rest =>
      refreshQueries directiveInstanceVar rest (S idx)
                     (refreshQuery directiveInstanceVar query idx st)
  end.

(** [function createContentQueriesRefreshFunction(meta)] *)
Definition createContentQueriesRefreshFunction (meta : R3DirectiveMetadata)
  : option Expr :=
  if (0 <? length (m_queries meta))%nat then
    let typeName := m_name meta in
    let parameters :=
      [ mkFnParam "dirIndex" (Some (BuiltinType NUMBER_TYPE));
        mkFnParam "queryStartIndex" (Some (BuiltinType NUMBER_TYPE)) ] in
    let directiveInstanceVar := variable "instance" in
    let statements :=
      [ toDeclStmt
          (set directiveInstanceVar
               (callFn (importExpr R3.load) [variable "dirIndex"]))
          (BuiltinType INFERRED_TYPE) [Final] ] in
    let (statements, _) :=
      refreshQueries directiveInstanceVar (m_queries meta) 0
                     (statements, false) in
    Some (fn parameters statements (Some (BuiltinType INFERRED_TYPE))
             (suffixedName typeName "_ContentQueriesRefresh"))
  else None.

Fixpoint foldM {A B} (f : A -> B -> M A) (l : list B) (a : A) : M A :=
  match l with
  | [] => ret a
  | b :: r => a' <- f a b ;; foldM f r a'
  end.

(** [s] without the prefix [p], when it has it *)
Fixpoint stripPrefix (p s : string) : option string :=
  match p, s with
  | EmptyString, _ => Some s
  | String a p', String b s' =>
      if Ascii.eqb a b then stripPrefix p' s' else None
  | String _ _, EmptyString => None
  end.

(** [attr\.([^\]]+)] matched at the start of [s] *)
Definition attrHere (s : string) : option string :=
  match stripPrefix "attr." s with
  | Some rest =>
      match spanNot "]"%char rest with
      | (String b body, _) => Some (String b body)
      | _ => None
      end
  | None => None
  end.

(** [bindingName.match(ATTR_REGEX)], group 1: [/attr\.([^\]]+)/] is not
    anchored, the leftmost match wins. *)
Fixpoint ATTR_REGEX_match (s : string) : option string :=
  match attrHere s with
  | Some g => Some g
  | None =>
      match s with
      | EmptyString => None
      | String _ r => ATTR_REGEX_match r
      end
  end.

(** [function getBindingNameAndInstruction(bindingName)] *)
Definition getBindingNameAndInstruction (bindingName : string)
  : string * R3.ExternalReference * list Expr :=
  match ATTR_REGEX_match bindingName with
  | Some attrName => (attrName, R3.elementAttribute, [])
  | None =>
      (bindingName, R3.elementProperty,
       [literal LNull; literal (LBool true)])
  end.

(** [function metadataAsSummary(meta)] *)
Definition metadataAsSummary (meta : R3DirectiveMetadata)
  : CompileDirectiveSummary :=
  {| hostAttributes := h_attributes (m_host meta);
     hostListeners := h_listeners (m_host meta);
     hostProperties := h_properties (m_host meta) |}.

(** [function createHostListeners(bindingContext, eventBindings, meta)] *)
Definition createHostListeners (bindingContext : Expr)
           (eventBindings : list ParsedEvent) (meta : R3DirectiveMetadata)
  : M (list Stmt) :=
  mapM (fun binding =>
          render3Stmts <-
            liftResult (convertActionBinding ext bindingContext
                                             (ev_handler binding) "b") ;;
          let bindingName :=
            if Js.truthy (ev_name binding)
            then sanitizeIdentifier ext (ev_name binding)
            else ev_name binding in
          let typeName := m_name meta in
          let functionName :=
            if Js.truthy typeName && Js.truthy bindingName
            then Some (typeName ++ "_" ++ bindingName
                         ++ "_HostBindingHandler")%string
            else None in
          let handler :=
            fn [mkFnParam "$event" (Some (BuiltinType DYNAMIC_TYPE))]
               render3Stmts (Some (BuiltinType INFERRED_TYPE)) functionName in
          ret (toStmt (callFn (importExpr R3.listener)
                              [strLit (ev_name binding); handler])))
       eventBindings.

(** [bindingFn] of [createHostBindingsFunction] *)
Definition bindingFn (implicit : Expr) (value : AST)
  : Result (list Stmt * Expr) :=
  convertPropertyBinding ext implicit value "b".

(** [function createStylingStmt(instruction, bindingContext, bindingFn)] *)
Definition createStylingStmt (instruction : StylingInstruction)
           (bindingContext : Expr) : Result Stmt :=
  match si_buildParams instruction
          (fun value =>
             match bindingFn bindingContext value with
             | Ok (_, currValExpr) => Ok currValExpr
             | Thrown msg => Thrown msg
             end) with
  | Ok params =>
      Ok (toStmt (InvokeFunctionExpr
                    (ExternalExpr (si_reference instruction) None
                                  (si_sourceSpan instruction))
                    params (si_sourceSpan instruction)))
  | Thrown msg => Thrown msg
  end.

(** What the loops of [createHostBindingsFunction] carry along: the styling
    builder, the update statements and [totalHostVarsCount]. *)
Record HostBindingsState := {
  hs_styleBuilder : StylingBuilder;
  hs_updateStatements : list Stmt;
  hs_totalHostVarsCount : nat
}.

(** the body of [for (const binding of bindings)] *)
Definition compileHostBinding (elVarExp bindingContext : Expr)
           (st : HostBindingsState) (binding : ParsedProperty)
  : M HostBindingsState :=
  let name := pp_name binding in
  let stylePrefix := getStylingPrefix name in
  if String.eqb stylePrefix "style" then
    let np := parseNamedProperty name in
    ret {| hs_styleBuilder :=
             registerStyleInput (hs_styleBuilder st) (np_propertyName np)
                                (pp_expression binding) (np_unit np)
                                (pp_sourceSpan binding);
           hs_updateStatements := hs_updateStatements st;
           hs_totalHostVarsCount := hs_totalHostVarsCount st |}
  else if String.eqb stylePrefix "class" then
    ret {| hs_styleBuilder :=
             registerClassInput (hs_styleBuilder st)
                                (np_propertyName (parseNamedProperty name))
                                (pp_expression binding)
                                (pp_sourceSpan binding);
           hs_updateStatements := hs_updateStatements st;
           hs_totalHostVarsCount := hs_totalHostVarsCount st |}
  else
    '(value, numSlots) <-
      visit ext (pp_expression binding) (hs_totalHostVarsCount st) ;;
    '(stmts, currValExpr) <- liftResult (bindingFn bindingContext value) ;;
    let '(bindingName, instruction, extraParams) :=
      getBindingNameAndInstruction name in
    let instructionParams :=
      [ elVarExp; strLit bindingName;
        callFn (importExpr R3.bind) [currValExpr] ] in
    ret {| hs_styleBuilder := hs_styleBuilder st;
           hs_updateStatements :=
             hs_updateStatements st ++ stmts
             ++ [toStmt (callFn (importExpr instruction)
                                (instructionParams ++ extraParams))];
           hs_totalHostVarsCount := hs_totalHostVarsCount st + numSlots |}.

(** Lines 653-724 of [createHostBindingsFunction]: the create statements,
    the update statements and [totalHostVarsCount] before the allocation
    instruction is added. *)
Definition hostBindingsStatements (meta : R3DirectiveMetadata)
           (elVarExp bindingContext : Expr) (styleBuilder : StylingBuilder)
           (hostVarsCount : nat) : M (list Stmt * list Stmt * nat) :=
  let hostBindingSourceSpan := m_typeSourceSpan meta in
  let directiveSummary := metadataAsSummary meta in
  let eventBindings :=
    createDirectiveHostEventAsts ext directiveSummary hostBindingSourceSpan in
  createStatements <-
    match eventBindings with
    | Some (e :: es) => createHostListeners bindingContext (e :: es) meta
    | _ => ret []
    end ;;
  let bindings :=
    createBoundHostProperties ext directiveSummary hostBindingSourceSpan in
  match bindings with
  | None => ret (createStatements, [], hostVarsCount)
  | Some bindings =>
      st <- foldM (compileHostBinding elVarExp bindingContext) bindings
                  {| hs_styleBuilder := styleBuilder;
                     hs_updateStatements := [];
                     hs_totalHostVarsCount := hostVarsCount |} ;;
      if hasBindingsOrInitialValues (hs_styleBuilder st) then
        createInstruction <-
          buildCreateLevelInstruction ext (hs_styleBuilder st) ;;
        createStatements <-
          match createInstruction with
          | Some instruction =>
              createStmt <-
                liftResult (createStylingStmt instruction bindingContext) ;;
              ret (createStatements ++ [createStmt])
          | None => ret createStatements
          end ;;
        '(instructions, numSlots) <-
          buildUpdateLevelInstructions ext (hs_styleBuilder st)
                                       (hs_totalHostVarsCount st) ;;
        updateStmts <-
          mapM (fun instruction =>
                  liftResult (createStylingStmt instruction bindingContext))
               instructions ;;
        ret (createStatements, hs_updateStatements st ++ updateStmts,
             hs_totalHostVarsCount st + numSlots)
      else
        ret (createStatements, hs_updateStatements st,
             hs_totalHostVarsCount st)
  end.

(** the statement [allocHostVars(totalHostVarsCount)] *)
Definition allocHostVarsStmt (totalHostVarsCount : nat) : Stmt :=
  toStmt (callFn (importExpr R3.allocHostVars)
                 [literal (LNum (Z.of_nat totalHostVarsCount))]).

(** Lines 726-748 of [createHostBindingsFunction] *)
Definition hostBindingsFunction (meta : R3DirectiveMetadata) (elVarName : string)
           (createStatements updateStatements : list Stmt)
           (totalHostVarsCount : nat) : option Expr :=
  let createStatements :=
    if (0 <? totalHostVarsCount)%nat
    then allocHostVarsStmt totalHostVarsCount :: createStatements
    else createStatements in
  if (0 <? length createStatements)%nat || (0 <? length updateStatements)%nat
  then
    let hostBindingsFnName := suffixedName (m_name meta) "_HostBindings" in
    let statements :=
      if (0 <? length createStatements)%nat
      then [renderFlagCheckIfStmt ext Create createStatements] else [] in
    let statements :=
      if (0 <? length updateStatements)%nat
      then statements ++ [renderFlagCheckIfStmt ext Update updateStatements]
      else statements in
    Some (fn [ mkFnParam (RENDER_FLAGS ext) (Some (BuiltinType NUMBER_TYPE));
               mkFnParam (CONTEXT_NAME ext) None;
               mkFnParam elVarName (Some (BuiltinType NUMBER_TYPE)) ]
             statements (Some (BuiltinType INFERRED_TYPE)) hostBindingsFnName)
  else None.

(** [function createHostBindingsFunction(meta, elVarExp, bindingContext,
    styleBuilder, bindingParser, constantPool, hostVarsCount)];
    [elVarExp] is the variable [elVarName]. *)
Definition createHostBindingsFunction (meta : R3DirectiveMetadata)
           (elVarName : string) (bindingContext : Expr)
           (styleBuilder : StylingBuilder) (hostVarsCount : nat)
  : M (option Expr) :=
  '(createStatements, updateStatements, totalHostVarsCount) <-
    hostBindingsStatements meta (variable elVarName) bindingContext
                           styleBuilder hostVarsCount ;;
  ret (hostBindingsFunction meta elVarName createStatements updateStatements
                            totalHostVarsCount).

(** Lines 72-77 of [baseDirectiveFields]: the initial [hostVarsCount] *)
Definition hostVarsCountOf (meta : R3DirectiveMetadata) : nat :=
  length (filter allocatesHostVar (Js.keys (h_properties (m_host meta)))).

(** the body of the loop over [attrNames] in [baseDirectiveFields] *)
Definition registerHostAttribute (acc : StylingBuilder * Js.Obj string)
           (entry : string * string) : StylingBuilder * Js.Obj string :=
  let (styleBuilder, allOtherAttributes) := acc in
  let (attr, value) := entry in
  if String.eqb attr "style" then
    (registerStyleAttr styleBuilder value, allOtherAttributes)
  else if String.eqb attr "class" then
    (registerClassAttr styleBuilder value, allOtherAttributes)
  else (styleBuilder, Js.set allOtherAttributes attr value).

(** Lines 79-101 of [baseDirectiveFields]: the styling builder with the
    static style and class values, and [allOtherAttributes] *)
Definition splitHostAttributes (meta : R3DirectiveMetadata)
  : StylingBuilder * Js.Obj string :=
  let elVarExp := variable "elIndex" in
  let contextVarExp := variable (CONTEXT_NAME ext) in
  fold_left registerHostAttribute (h_attributes (m_host meta))
            (newStylingBuilder elVarExp contextVarExp, []).

(** [function baseDirectiveFields(meta, constantPool, bindingParser)] *)
Definition baseDirectiveFields (meta : R3DirectiveMetadata)
  : M (DefinitionMap * list Stmt) :=
  let definitionMap : DefinitionMap := [] in
  let definitionMap := DefinitionMap_set definitionMap "type" (Some (m_type meta)) in
  let definitionMap :=
    DefinitionMap_set definitionMap "selectors"
                      (Some (createDirectiveSelector (m_selector meta))) in
  let result :=
    compileFactoryFunction ext
      {| f_name := m_name meta; f_type := m_type meta;
         f_deps := m_deps meta; f_injectFn := R3.directiveInject |} in
  let definitionMap := DefinitionMap_set definitionMap "factory" (Some (fst result)) in
  contentQueries <- createContentQueriesFunction meta ;;
  let definitionMap := DefinitionMap_set definitionMap "contentQueries" contentQueries in
  let definitionMap :=
    DefinitionMap_set definitionMap "contentQueriesRefresh"
                      (createContentQueriesRefreshFunction meta) in
  let hostVarsCount := hostVarsCountOf meta in
  let contextVarExp := variable (CONTEXT_NAME ext) in
  let (styleBuilder, allOtherAttributes) := splitHostAttributes meta in
  let definitionMap :=
    DefinitionMap_set definitionMap "attributes"
                      (createHostAttributesArray allOtherAttributes) in
  hostBindings <-
    createHostBindingsFunction meta "elIndex" contextVarExp styleBuilder
                               hostVarsCount ;;
  let definitionMap := DefinitionMap_set definitionMap "hostBindings" hostBindings in
  let definitionMap :=
    DefinitionMap_set definitionMap "inputs"
      (conditionallyCreateMapObjectLiteral (m_inputs meta) true) in
  let definitionMap :=
    DefinitionMap_set definitionMap "outputs"
      (conditionallyCreateMapObjectLiteral
         (map (fun kv => (fst kv, Plain (snd kv))) (m_outputs meta)) false) in
  let definitionMap :=
    match m_exportAs meta with
    | Some exportAs => DefinitionMap_set definitionMap "exportAs" (Some (strLit exportAs))
    | None => definitionMap
    end in
  ret (definitionMap, snd result).

(** the [features] list that [addFeatures] builds *)
Definition featuresOf (meta : AnyMetadata) : list Expr :=
  let providers := m_providers (directivePart meta) in
  let viewProviders := viewProvidersOf meta in
  let features :=
    match providers, viewProviders with
    | None, None => []
    | _, _ =>
        let args :=
          [match providers with
           | Some p => p
           | None => LiteralArrayExpr []
           end] in
        let args :=
          match viewProviders with
          | Some vp => args ++ [vp]
          | None => args
          end in
        [callFn (importExpr R3.ProvidersFeature) args]
    end in
  let features :=
    if m_usesInheritance (directivePart meta)
    then features ++ [importExpr R3.InheritDefinitionFeature] else features in
  let features :=
    if m_usesOnChanges (directivePart meta)
    then features ++ [importExpr R3.NgOnChangesFeature] else features in
  features.

(** [function addFeatures(definitionMap, meta)] *)
Definition addFeatures (definitionMap : DefinitionMap) (meta : AnyMetadata)
  : DefinitionMap :=
  let features := featuresOf meta in
  if (0 <? length features)%nat
  then DefinitionMap_set definitionMap "features" (Some (literalArr features))
  else definitionMap.

(** [function stringAsType(str)] *)
Definition stringAsType (str : string) : OType :=
  expressionType (strLit str).

(** [function stringMapAsType(map)] *)
Definition stringMapAsType (m : Js.Obj InputValue) : OType :=
  let mapValues :=
    map (fun kv =>
           let value :=
             match snd kv with
             | Plain s => s
             | Renamed bindingName _ => bindingName
             end in
           (fst kv, true, strLit value)) m in
  expressionType (literalMap mapValues).

(** [function stringArrayAsType(arr)] *)
Definition stringArrayAsType (arr : list string) : OType :=
  if (0 <? length arr)%nat
  then expressionType (literalArr (map strLit arr))
  else BuiltinType NONE_TYPE.

(** [(selector || '').replace(/\n/g, '')] *)
Definition selectorForType (selector : option string) : string :=
  Js.stripNewlines
    (match selector with
     | Some s => s
     | None => ""
     end).

(** [function createTypeForDef(meta, typeBase)] *)
Definition createTypeForDef (meta : R3DirectiveMetadata)
           (typeBase : R3.ExternalReference) : OType :=
  expressionType
    (ExternalExpr typeBase
       (Some [ typeWithParameters ext (m_type meta) (m_typeArgumentCount meta);
               stringAsType (selectorForType (m_selector meta));
               match m_exportAs meta with
               | Some exportAs => stringAsType exportAs
               | None => BuiltinType NONE_TYPE
               end;
               stringMapAsType (m_inputs meta);
               stringMapAsType
                 (map (fun kv => (fst kv, Plain (snd kv))) (m_outputs meta));
               stringArrayAsType (map q_propertyName (m_queries meta)) ])
       None).

(** [R3DirectiveDef] and [R3ComponentDef] *)
Record R3Def := {
  def_expression : Expr;
  def_type : OType;
  def_statements : list Stmt
}.

(** the entries of the literal map passed to [defineDirective] or
    [defineComponent] *)
Definition definitionOf (def : R3Def) : option (list (string * bool * Expr)) :=
  match def_expression def with
  | InvokeFunctionExpr _ [LiteralMapExpr entries] _ => Some entries
  | _ => None
  end.

(** [export function compileDirectiveFromMetadata(meta, constantPool,
    bindingParser)] *)
Definition compileDirectiveFromMetadata (meta : R3DirectiveMetadata)
  : M R3Def :=
  '(definitionMap, statements) <- baseDirectiveFields meta ;;
  let definitionMap := addFeatures definitionMap (OfDirective meta) in
  let expression :=
    callFn (importExpr R3.defineDirective) [toLiteralMap definitionMap] in
  let type := createTypeForDef meta R3.DirectiveDefWithMeta in
  ret {| def_expression := expression; def_type := type;
         def_statements := statements |}.

(** the body of the loop of [createViewQueriesFunction] *)
Definition compileViewQuery
           (acc : list Stmt * (list Stmt * bool) * nat)
           (query : R3QueryMetadata)
  : M (list Stmt * (list Stmt * bool) * nat) :=
  let '(createStatements, updateState, i) := acc in
  queryDefinition <- createQueryDefinition query (Some i) ;;
  let createStatements := createStatements ++ [toStmt queryDefinition] in
  let (temp, updateState) := temporary (TEMPORARY_NAME ext) updateState in
  let getQueryList :=
    callFn (importExpr R3.load) [literal (LNum (Z.of_nat i))] in
  let refresh :=
    callFn (importExpr R3.queryRefresh) [set temp getQueryList] in
  let updateDirective :=
    set (prop (variable (CONTEXT_NAME ext)) (q_propertyName query))
        (if q_first query then prop temp "first" else temp) in
  let (updateStatements, declared) := updateState in
  ret (createStatements,
       (updateStatements ++ [toStmt (and refresh updateDirective)], declared),
       S i).

(** [function createViewQueriesFunction(meta, constantPool)] *)
Definition createViewQueriesFunction (meta : R3ComponentMetadata) : M Expr :=
  '(createStatements, updateState, _) <-
    foldM compileViewQuery (c_viewQueries meta) ([], ([], false), 0) ;;
  let viewQueryFnName := suffixedName (m_name (c_directive meta)) "_Query" in
  ret (fn [ mkFnParam (RENDER_FLAGS ext) (Some (BuiltinType NUMBER_TYPE));
            mkFnParam (CONTEXT_NAME ext) None ]
          [ renderFlagCheckIfStmt ext Create createStatements;
            renderFlagCheckIfStmt ext Update (fst updateState) ]
          (Some (BuiltinType INFERRED_TYPE)) viewQueryFnName).

(** [function compileStyles(styles, selector, hostSelector)] *)
Definition compileStyles (styles : list string) (selector hostSelector : string)
  : list string :=
  map (fun style => shimCssText ext style selector hostSelector) styles.

(** [meta.encapsulation === mode] *)
Definition encapsulationIs (meta : R3ComponentMetadata)
           (mode : ViewEncapsulation) : bool :=
  match c_encapsulation meta with
  | Some e => ViewEncapsulation_eqb e mode
  | None => false
  end.

(** [o.literal(meta.encapsulation)] *)
Definition encapsulationLiteral (meta : R3ComponentMetadata) : Expr :=
  match c_encapsulation meta with
  | Some e => literal (LEncapsulation e)
  | None => literal LNull
  end.

(** Lines 290-309 of [compileComponentFromMetadata]: the fields [styles] and
    [encapsulation].  The two assignments to [meta.encapsulation] write into
    the caller's metadata object, which is therefore returned. *)
Definition compileStylesAndEncapsulation (definitionMap : DefinitionMap)
           (meta : R3ComponentMetadata)
  : DefinitionMap * R3ComponentMetadata :=
  let meta :=
    match c_encapsulation meta with
    | None => set_encapsulation meta (Some Emulated)
    | Some _ => meta
    end in
  let (definitionMap, meta) :=
    if (0 <? length (c_styles meta))%nat then
      let styleValues :=
        if encapsulationIs meta Emulated
        then compileStyles (c_styles meta) (CONTENT_ATTR ext) (HOST_ATTR ext)
        else c_styles meta in
      let strings := map strLit styleValues in
      (DefinitionMap_set definitionMap "styles" (Some (literalArr strings)), meta)
    else if encapsulationIs meta Emulated then
      (definitionMap, set_encapsulation meta (Some EncNone))
    else (definitionMap, meta) in
  let definitionMap :=
    if negb (encapsulationIs meta Emulated)
    then DefinitionMap_set definitionMap "encapsulation"
                           (Some (encapsulationLiteral meta))
    else definitionMap in
  (definitionMap, meta).

(** [directivesExpr] and [pipesExpr] *)
Definition usedExpr (wrapInClosure : bool) (used : list Expr) : Expr :=
  let expr := literalArr used in
  if wrapInClosure then fn [] [ReturnStatement expr] None None else expr.

(** Lines 214-288 of [compileComponentFromMetadata]: the fields up to
    [pipes], and the statements of the factory. *)
Definition componentFieldsBeforeStyles (meta : R3ComponentMetadata)
  : M (DefinitionMap * list Stmt) :=
  let dmeta := c_directive meta in
  '(definitionMap, statements) <- baseDirectiveFields dmeta ;;
  let definitionMap := addFeatures definitionMap (OfComponent meta) in
  let selector :=
    match m_selector dmeta with
    | Some s => if Js.truthy s then Some (CssSelector_parse ext s) else None
    | None => None
    end in
  let firstSelector :=
    match selector with
    | Some (first :: _) => Some first
    | _ => None
    end in
  definitionMap <-
    match firstSelector with
    | Some firstSelector =>
        match getAttrs ext firstSelector with
        | [] => ret definitionMap
        | selectorAttributes =>
            attrs <-
              getConstLiteral ext
                (literalArr
                   (map (fun value =>
                           match value with
                           | Some v => strLit v
                           | None => literal LUndefined
                           end) selectorAttributes))
                true ;;
            ret (DefinitionMap_set definitionMap "attrs" (Some attrs))
        end
    | None => ret definitionMap
    end ;;
  let directiveMatcher : option SelectorMatcher :=
    match c_directives meta with
    | [] => None
    | directives =>
        Some (map (fun d => (CssSelector_parse ext (fst d), snd d)) directives)
    end in
  definitionMap <-
    match c_viewQueries meta with
    | [] => ret definitionMap
    | _ =>
        viewQuery <- createViewQueriesFunction meta ;;
        ret (DefinitionMap_set definitionMap "viewQuery" (Some viewQuery))
    end ;;
  let templateTypeName := m_name dmeta in
  let templateName := suffixedName templateTypeName "_Template" in
  built <-
    buildTemplateFunction ext
      {| tb_contextName := templateTypeName;
         tb_templateName := templateName;
         tb_viewQueries := c_viewQueries meta;
         tb_directiveMatcher := directiveMatcher;
         tb_pipes := c_pipes meta;
         tb_namespace := R3.namespaceHTML;
         tb_relativeContextFilePath := c_relativeContextFilePath meta;
         tb_i18nUseExternalIds := c_i18nUseExternalIds meta |}
      (c_template meta) ;;
  let definitionMap :=
    DefinitionMap_set definitionMap "consts"
                      (Some (literal (LNum (tr_constCount built)))) in
  let definitionMap :=
    DefinitionMap_set definitionMap "vars"
                      (Some (literal (LNum (tr_varCount built)))) in
  let definitionMap :=
    DefinitionMap_set definitionMap "template" (Some (tr_template built)) in
  let definitionMap :=
    match tr_directivesUsed built with
    | [] => definitionMap
    | used =>
        DefinitionMap_set definitionMap "directives"
          (Some (usedExpr (c_wrapDirectivesAndPipesInClosure meta) used))
    end in
  let definitionMap :=
    match tr_pipesUsed built with
    | [] => definitionMap
    | used =>
        DefinitionMap_set definitionMap "pipes"
          (Some (usedExpr (c_wrapDirectivesAndPipesInClosure meta) used))
    end in
  ret (definitionMap, statements).

(** Lines 311-320 of [compileComponentFromMetadata]: the fields [data] and
    [changeDetection]; [changeDetection] was read at line 254. *)
Definition componentFieldsAfterStyles (definitionMap : DefinitionMap)
           (meta : R3ComponentMetadata)
           (changeDetection : option ChangeDetectionStrategy)
  : DefinitionMap :=
  let definitionMap :=
    match c_animations meta with
    | Some animations =>
        DefinitionMap_set definitionMap "data"
          (Some (literalMap [("animation", false, animations)]))
    | None => definitionMap
    end in
  match changeDetection with
  | Some OnPush =>
      DefinitionMap_set definitionMap "changeDetection"
                        (Some (literal (LChangeDetection OnPush)))
  | _ => definitionMap
  end.

(** [export function compileComponentFromMetadata(meta, constantPool,
    bindingParser)]: the definition, and the metadata object as the call
    leaves it. *)
Definition compileComponentFromMetadata (meta : R3ComponentMetadata)
  : M (R3Def * R3ComponentMetadata) :=
  let changeDetection := c_changeDetection meta in
  '(definitionMap, statements) <- componentFieldsBeforeStyles meta ;;
  let (definitionMap, meta) := compileStylesAndEncapsulation definitionMap meta in
  let definitionMap :=
    componentFieldsAfterStyles definitionMap meta changeDetection in
  let expression :=
    callFn (importExpr R3.defineComponent) [toLiteralMap definitionMap] in
  let type := createTypeForDef (c_directive meta) R3.ComponentDefWithMeta in
  ret ({| def_expression := expression; def_type := type;
          def_statements := statements |}, meta).

(** [function selectorsFromGlobalMetadata(selectors, outputCtx)] *)
Definition selectorsFromGlobalMetadata (selectors : list CompileTokenMetadata)
  : M Expr :=
  if (1 <? length selectors)%nat
     || match selectors with
        | [first] => Js.truthyOpt (tok_value first)
        | _ => false
        end
  then
    let selectorStrings := map tok_value selectors in
    if existsb (fun value => negb (Js.truthyOpt value)) selectorStrings
    then error "Found a type among the string selectors expected"
    else
      getConstLiteral ext
        (literalArr
           (map (fun value =>
                   match value with
                   | Some s => strLit s
                   | None => literal LUndefined
                   end) selectorStrings))
        false
  else
    match selectors with
    | [first] =>
        match tok_identifier first with
        | Some reference => ret (outputCtx_importExpr ext reference)
        | None => error "Unexpected query form"
        end
    | _ => error "Unexpected query form"
    end.

(** [CompileQueryMetadata] of compile_metadata.ts *)
Record CompileQueryMetadata := {
  cq_selectors : list CompileTokenMetadata;
  cq_descendants : bool;
  cq_first : bool;
  cq_propertyName : string;
  cq_read : option CompileTokenMetadata
}.

(** [function queriesFromGlobalMetadata(queries, outputCtx)] *)
Definition queriesFromGlobalMetadata (queries : list CompileQueryMetadata)
  : M (list R3QueryMetadata) :=
  mapM (fun query =>
          let read :=
            match cq_read query with
            | Some token =>
                match tok_identifier token with
                | Some reference => Some (outputCtx_importExpr ext reference)
                | None => None
                end
            | None => None
            end in
          predicate <- selectorsFromGlobalMetadata (cq_selectors query) ;;
          ret {| q_propertyName := cq_propertyName query;
                 q_first := cq_first query;
                 q_predicate := PredicateExpr predicate;
                 q_descendants := cq_descendants query;
                 q_read := read |})
       queries.

End Compiler.

(* ===================================================================== *)
(** ** compiler.ts, continued: the base definition and the wrappers that
       start from render2 global analysis data *)
(* ===================================================================== *)

Section Render2.

(** Data of other files, as in the section [Compiler], and three more. *)
Context {AST SourceSpan Dep TemplateNodes CssSelector R3Selector Reference
         Pool : Type}
        {CompileType : Type}     (* CompileTypeMetadata, [directive.type] *)
        {Provider : Type}        (* CompileProviderMetadata *)
        {LifecycleHook : Type}.  (* LifecycleHooks *)

Variable ext : @Collaborators AST SourceSpan Dep TemplateNodes CssSelector
                              R3Selector Reference Pool.

Local Notation "x <- c ;; k" := (bind c (fun x => k))
  (at level 61, c at next level, right associativity).
Local Notation "' pat <- c ;; k" :=
  (bind c (fun x => match x with pat => k end))
  (at level 61, pat pattern, c at next level, right associativity).

(** [export interface R3BaseRefMetaData]: both maps are optional *)
Record R3BaseRefMetaData := {
  b_inputs : option (Js.Obj InputValue);
  b_outputs : option (Js.Obj string)
}.

(** what [compileBaseDefFromMetadata] returns *)
Record R3BaseDef := {
  base_expression : @Expr SourceSpan;
  base_type : @OType SourceSpan
}.

(** [export function compileBaseDefFromMetadata(meta)] *)
Definition compileBaseDefFromMetadata (meta : R3BaseRefMetaData) : R3BaseDef :=
  let definitionMap : @DefinitionMap SourceSpan := [] in
  let definitionMap :=
    match b_inputs meta with
    | Some inputs =>
        let inputsMap :=
          map (fun kv =>
                 let value :=
                   match snd kv with
                   | Renamed a b => literalArr [strLit a; strLit b]
                   | Plain v => strLit v
                   end in
                 (fst kv, false, value)) inputs in
        DefinitionMap_set definitionMap "inputs" (Some (literalMap inputsMap))
    | None => definitionMap
    end in
  let definitionMap :=
    match b_outputs meta with
    | Some outputs =>
        let outputsMap :=
          map (fun kv => (fst kv, false, strLit (snd kv))) outputs in
        DefinitionMap_set definitionMap "outputs" (Some (literalMap outputsMap))
    | None => definitionMap
    end in
  let expression :=
    callFn (importExpr R3.defineBase) [toLiteralMap definitionMap] in
  let type := ExpressionType (importExpr R3.BaseDef) in
  {| base_expression := expression; base_type := type |}.

(** [DefinitionKind] of constant_pool.ts, the two members used here *)
Inductive DefinitionKind := DirectiveKind | ComponentKind.

(** [CompileTemplateSummary], as far as [compileComponentFromRender2] reads
    it *)
Record TemplateSummary := {
  ts_styles : list string;
  ts_encapsulation : option ViewEncapsulation
}.

(** [CompileDirectiveMetadata] of compile_metadata.ts, as far as the wrappers
    read it; [cd_summary...] are the fields of [directive.toSummary()] *)
Record CompileDirectiveMetadata := {
  cd_type : CompileType;
  cd_isComponent : bool;
  cd_selector : option string;
  cd_queries : list (@CompileQueryMetadata Reference);
  cd_viewQueries : list (@CompileQueryMetadata Reference);
  cd_hostAttributes : Js.Obj string;
  cd_inputs : Js.Obj string;
  cd_outputs : Js.Obj string;
  cd_providers : list Provider;
  cd_viewProviders : list Provider;
  cd_summaryHostListeners : Js.Obj string;
  cd_summaryHostProperties : Js.Obj string;
  cd_summaryTemplate : option TemplateSummary
}.

(** What the wrappers use of other files. *)
Record Render2Collaborators := {
  (* identifierName of compile_metadata.ts: string|null *)
  identifierName : CompileType -> option string;
  (* the text of [directive.type] inside a template literal *)
  typeText : CompileType -> string;
  (* directive.type.reference *)
  typeReference : CompileType -> Reference;
  (* directive.type.lifecycleHooks *)
  lifecycleHooks : CompileType -> list LifecycleHook;
  (* lifecycle == LifecycleHooks.OnChanges *)
  isOnChanges : LifecycleHook -> bool;
  (* typeSourceSpan(kind, type) of parse_util.ts *)
  typeSourceSpan : string -> CompileType -> SourceSpan;
  (* dependenciesFromGlobalMetadata(type, outputCtx, reflector) *)
  dependenciesFromGlobalMetadata : CompileType -> @M Pool (list Dep);
  (* ConstantPool.propertyNameOf(kind) *)
  propertyNameOf : DefinitionKind -> string;
  (* new o.WrappedNodeExpr(providers) *)
  wrappedNodeExpr : list Provider -> @Expr SourceSpan;
  (* new o.ClassStmt(name, null, [new o.ClassField(field, INFERRED_TYPE,
     [Static], expression)], [], new o.ClassMethod(null, [], []), []) *)
  partialClassStmt : string -> string -> @Expr SourceSpan -> @Stmt SourceSpan;
  (* whether a member of ViewEncapsulation is truthy: the numeric values are
     in core.ts *)
  encapsulationTruthy : ViewEncapsulation -> bool
}.

Variable r2 : Render2Collaborators.

(** [const name = identifierName(type)!; name || error(...)]: the name when
    it is a non-empty string *)
Definition resolveName (type : CompileType) : @M Pool string :=
  match identifierName r2 type with
  | Some name =>
      if Js.truthy name then ret name
      else error ("Cannot resolver the name of " ++ typeText r2 type)%string
  | None => error ("Cannot resolver the name of " ++ typeText r2 type)%string
  end.

(** [providers.length > 0 ? new o.WrappedNodeExpr(providers) : null] *)
Definition wrapProviders (providers : list Provider) : option (@Expr SourceSpan) :=
  match providers with
  | [] => None
  | _ => Some (wrappedNodeExpr r2 providers)
  end.

(** [function directiveMetadataFromGlobalMetadata(directive, outputCtx,
    reflector)] *)
Definition directiveMetadataFromGlobalMetadata
           (directive : CompileDirectiveMetadata)
  : @M Pool (@R3DirectiveMetadata SourceSpan Dep) :=
  name <- resolveName (cd_type directive) ;;
  let type := outputCtx_importExpr ext (typeReference r2 (cd_type directive)) in
  let span :=
    typeSourceSpan r2
      (if cd_isComponent directive then "Component" else "Directive")
      (cd_type directive) in
  deps <- dependenciesFromGlobalMetadata r2 (cd_type directive) ;;
  queries <- queriesFromGlobalMetadata ext (cd_queries directive) ;;
  ret {| m_name := name;
         m_type := type;
         m_typeArgumentCount := 0;
         m_typeSourceSpan := span;
         m_deps := Some deps;
         m_selector := cd_selector directive;
         m_queries := queries;
         m_usesOnChanges :=
           existsb (isOnChanges r2) (lifecycleHooks r2 (cd_type directive));
         m_host :=
           {| h_attributes := cd_hostAttributes directive;
              h_listeners := cd_summaryHostListeners directive;
              h_properties := cd_summaryHostProperties directive |};
         m_inputs := map (fun kv => (fst kv, Plain (snd kv)))
                         (cd_inputs directive);
         m_outputs := cd_outputs directive;
         m_usesInheritance := false;
         m_exportAs := None;
         m_providers := wrapProviders (cd_providers directive) |}.

(** [export function compileDirectiveFromRender2(outputCtx, directive,
    reflector, bindingParser)]: [outputCtx.statements] before and after *)
Definition compileDirectiveFromRender2 (statements : list (@Stmt SourceSpan))
           (directive : CompileDirectiveMetadata)
  : @M Pool (list (@Stmt SourceSpan)) :=
  name <- resolveName (cd_type directive) ;;
  let definitionField := propertyNameOf r2 DirectiveKind in
  meta <- directiveMetadataFromGlobalMetadata directive ;;
  res <- compileDirectiveFromMetadata ext meta ;;
  ret (statements
         ++ [partialClassStmt r2 name definitionField (def_expression res)]).

(** [function typeMapToExpressionMap(map, outputCtx)]: a [Map] is the list of
    its entries in insertion order *)
Definition typeMapToExpressionMap (m : list (string * Reference))
  : Js.Obj (@Expr SourceSpan) :=
  map (fun entry => (fst entry, outputCtx_importExpr ext (snd entry))) m.

(** [(summary.template && summary.template.encapsulation)
     || core.ViewEncapsulation.Emulated] *)
Definition render2Encapsulation (template : option TemplateSummary)
  : ViewEncapsulation :=
  match template with
  | Some t =>
      match ts_encapsulation t with
      | Some e => if encapsulationTruthy r2 e then e else Emulated
      | None => Emulated
      end
  | None => Emulated
  end.

(** the metadata that [compileComponentFromRender2] builds *)
Definition componentMetadataFromRender2 (component : CompileDirectiveMetadata)
           (nodes : TemplateNodes) (pipeTypeByName : list (string * Reference))
  : @M Pool (@R3ComponentMetadata SourceSpan Dep TemplateNodes) :=
  dmeta <- directiveMetadataFromGlobalMetadata component ;;
  let pipes := typeMapToExpressionMap pipeTypeByName in
  viewQueries <- queriesFromGlobalMetadata ext (cd_viewQueries component) ;;
  ret {| c_directive :=
           {| m_name := m_name dmeta;
              m_type := m_type dmeta;
              m_typeArgumentCount := m_typeArgumentCount dmeta;
              m_typeSourceSpan := m_typeSourceSpan dmeta;
              m_deps := m_deps dmeta;
              m_selector := cd_selector component;
              m_queries := m_queries dmeta;
              m_usesOnChanges := m_usesOnChanges dmeta;
              m_host := m_host dmeta;
              m_inputs := m_inputs dmeta;
              m_outputs := m_outputs dmeta;
              m_usesInheritance := m_usesInheritance dmeta;
              m_exportAs := m_exportAs dmeta;
              m_providers := m_providers dmeta |};
         c_template := nodes;
         c_viewQueries := viewQueries;
         c_directives := [];
         c_pipes := pipes;
         c_wrapDirectivesAndPipesInClosure := false;
         c_styles :=
           match cd_summaryTemplate component with
           | Some t => ts_styles t
           | None => []
           end;
         c_encapsulation :=
           Some (render2Encapsulation (cd_summaryTemplate component));
         c_animations := None;
         c_viewProviders := wrapProviders (cd_viewProviders component);
         c_relativeContextFilePath := "";
         c_i18nUseExternalIds := true;
         c_changeDetection := None |}.

(** [export function compileComponentFromRender2(outputCtx, component,
    render3Ast, reflector, bindingParser, directiveTypeBySel,
    pipeTypeByName)]: [outputCtx.statements] before and after *)
Definition compileComponentFromRender2 (statements : list (@Stmt SourceSpan))
           (component : CompileDirectiveMetadata) (nodes : TemplateNodes)
           (pipeTypeByName : list (string * Reference))
  : @M Pool (list (@Stmt SourceSpan)) :=
  name <- resolveName (cd_type component) ;;
  let definitionField := propertyNameOf r2 ComponentKind in
  meta <- componentMetadataFromRender2 component nodes pipeTypeByName ;;
  '(res, _) <- compileComponentFromMetadata ext meta ;;
  ret (statements
         ++ [partialClassStmt r2 name definitionField (def_expression res)]).

End Render2.

(* ===================================================================== *)
(** ** A small instance of the collaborators, to run the compiler on examples

    Binding expressions are property names read off the context; the binding
    parser turns every host entry into one binding, in key order; the value
    converter asks for no slot (the expressions contain no literal array or
    map); the constant pool records the literals it is given. *)
(* ===================================================================== *)

Module Sample.

Definition E : Type := @Expr Datatypes.unit.
Definition pool : Type := list E.

Definition styleInstruction (sb : @StylingBuilder string Datatypes.unit)
           (input : @StyleInput string Datatypes.unit)
  : @StylingInstruction string Datatypes.unit :=
  {| si_reference := R3.elementStyleProp;
     si_sourceSpan := Some (sty_sourceSpan input);
     si_buildParams := fun convertFn =>
       match convertFn (sty_value input) with
       | Ok v =>
           Ok ([sb_elementIndex sb; strLit (sty_propertyName input); v]
                 ++ (if Js.truthy (sty_unit input)
                     then [strLit (sty_unit input)] else []))
       | Thrown msg => Thrown msg
       end |}.

Definition classInstruction (sb : @StylingBuilder string Datatypes.unit)
           (input : @ClassInput string Datatypes.unit)
  : @StylingInstruction string Datatypes.unit :=
  {| si_reference := R3.elementClassProp;
     si_sourceSpan := Some (cls_sourceSpan input);
     si_buildParams := fun convertFn =>
       match convertFn (cls_value input) with
       | Ok v => Ok [sb_elementIndex sb; strLit (cls_className input); v]
       | Thrown msg => Thrown msg
       end |}.

Definition ext
  : @Collaborators string Datatypes.unit Datatypes.unit Datatypes.unit
                   string (option string) string pool :=
  {| CONTEXT_NAME := "ctx";
     RENDER_FLAGS := "rf";
     TEMPORARY_NAME := "_t";
     CONTENT_ATTR := "_ngcontent-%COMP%";
     HOST_ATTR := "_nghost-%COMP%";
     getConstLiteral := fun e _ p => Ok (e, p ++ [e]);
     compileFactoryFunction := fun f =>
       (fn [] [ReturnStatement (callFn (f_type f) [])] None
           (suffixedName (f_name f) "_Factory"), []);
     parseSelectorToR3Selector := fun s => s;
     asLiteral := fun s =>
       match s with
       | Some s => strLit s
       | None => literal LNull
       end;
     CssSelector_parse := fun s => [s];
     getAttrs := fun _ => [];
     buildTemplateFunction := fun args _ =>
       ret {| tr_template := fn [] [] None (tb_templateName args);
              tr_constCount := 0; tr_varCount := 0;
              tr_directivesUsed := []; tr_pipesUsed := [] |};
     shimCssText := fun style _ _ => style;
     createDirectiveHostEventAsts := fun summary _ =>
       Some (map (fun kv => {| ev_name := fst kv; ev_handler := snd kv |})
                 (hostListeners summary));
     createBoundHostProperties := fun summary span =>
       Some (map (fun kv => {| pp_name := fst kv; pp_expression := snd kv;
                               pp_sourceSpan := span |})
                 (hostProperties summary));
     convertActionBinding := fun ctx handler _ =>
       Ok [ReturnStatement (callFn (prop ctx handler) [])];
     convertPropertyBinding := fun ctx value _ => Ok ([], prop ctx value);
     visit := fun value _ => ret (value, 0);
     buildCreateLevelInstruction := fun sb =>
       ret (Some {| si_reference := R3.elementStyling;
                    si_sourceSpan := None;
                    si_buildParams := fun _ => Ok [] |});
     buildUpdateLevelInstructions := fun sb _ =>
       ret (map (styleInstruction sb) (sb_styleInputs sb)
              ++ map (classInstruction sb) (sb_classInputs sb), 0);
     renderFlagCheckIfStmt := fun flags stmts =>
       IfStmt (BinaryOperatorExpr BitwiseAnd (variable "rf")
                 (literal (LNum (match flags with
                                 | Create => 1
                                 | Update => 2
                                 end))))
              stmts;
     getQueryPredicate := fun q p =>
       match q_predicate q with
       | PredicateExpr e => Ok (e, p)
       | PredicateStrings l =>
           let e := literalArr (map strLit l) in Ok (e, p ++ [e])
       end;
     mapToExpression := fun keys _ =>
       literalMap
         (map (fun kv =>
                 (fst kv, false,
                  match snd kv with
                  | Plain s => strLit s
                  | Renamed a b => literalArr [strLit a; strLit b]
                  end)) keys);
     typeWithParameters := fun e _ => expressionType e;
     sanitizeIdentifier := fun s => s;
     outputCtx_importExpr := fun r => variable r |}.

(** a directive that declares nothing *)
Definition emptyDirective : @R3DirectiveMetadata Datatypes.unit Datatypes.unit :=
  {| m_name := "Dir";
     m_type := variable "Dir";
     m_typeArgumentCount := 0;
     m_typeSourceSpan := tt;
     m_deps := None;
     m_selector := Some "[dir]";
     m_queries := [];
     m_usesOnChanges := false;
     m_host := {| h_attributes := []; h_listeners := []; h_properties := [] |};
     m_inputs := [];
     m_outputs := [];
     m_usesInheritance := false;
     m_exportAs := None;
     m_providers := None |}.

Definition withHost (meta : @R3DirectiveMetadata Datatypes.unit Datatypes.unit)
           (host : R3HostMetadata)
  : @R3DirectiveMetadata Datatypes.unit Datatypes.unit :=
  {| m_name := m_name meta; m_type := m_type meta;
     m_typeArgumentCount := m_typeArgumentCount meta;
     m_typeSourceSpan := m_typeSourceSpan meta;
     m_deps := m_deps meta; m_selector := m_selector meta;
     m_queries := m_queries meta; m_usesOnChanges := m_usesOnChanges meta;
     m_host := host;
     m_inputs := m_inputs meta; m_outputs := m_outputs meta;
     m_usesInheritance := m_usesInheritance meta;
     m_exportAs := m_exportAs meta; m_providers := m_providers meta |}.

(** a component around a directive, with a mode and a style list *)
Definition component (d : @R3DirectiveMetadata Datatypes.unit Datatypes.unit)
           (encapsulation : option ViewEncapsulation) (styles : list string)
  : @R3ComponentMetadata Datatypes.unit Datatypes.unit Datatypes.unit :=
  {| c_directive := d;
     c_template := tt;
     c_viewQueries := [];
     c_directives := [];
     c_pipes := [];
     c_wrapDirectivesAndPipesInClosure := false;
     c_styles := styles;
     c_encapsulation := encapsulation;
     c_animations := None;
     c_viewProviders := None;
     c_relativeContextFilePath := "";
     c_i18nUseExternalIds := true;
     c_changeDetection := None |}.

(** one property binding followed by one style binding *)
Definition titledDirective :=
  withHost emptyDirective
           {| h_attributes := []; h_listeners := [];
              h_properties := [("title", "t"); ("style.width.px", "w")] |}.

(** one style binding and nothing else *)
Definition styledDirective :=
  withHost emptyDirective
           {| h_attributes := []; h_listeners := [];
              h_properties := [("style.width.px", "w")] |}.

(** a component with view providers and no providers *)
Definition componentWithViewProviders
  : @R3ComponentMetadata Datatypes.unit Datatypes.unit Datatypes.unit :=
  {| c_directive := emptyDirective;
     c_template := tt;
     c_viewQueries := [];
     c_directives := [];
     c_pipes := [];
     c_wrapDirectivesAndPipesInClosure := false;
     c_styles := [];
     c_encapsulation := Some EncNone;
     c_animations := None;
     c_viewProviders := Some (variable "vp");
     c_relativeContextFilePath := "";
     c_i18nUseExternalIds := true;
     c_changeDetection := None |}.

(** the content query [{propertyName: "items", first: false,
    predicate: ["app-item"], descendants: true}] *)
Definition itemsQuery : @R3QueryMetadata Datatypes.unit :=
  {| q_propertyName := "items"; q_first := false;
     q_predicate := PredicateStrings ["app-item"];
     q_descendants := true; q_read := None |}.

Definition itemsDirective : @R3DirectiveMetadata Datatypes.unit Datatypes.unit :=
  {| m_name := "Dir";
     m_type := variable "Dir";
     m_typeArgumentCount := 0;
     m_typeSourceSpan := tt;
     m_deps := None;
     m_selector := Some "[dir]";
     m_queries := [itemsQuery];
     m_usesOnChanges := false;
     m_host := {| h_attributes := []; h_listeners := []; h_properties := [] |};
     m_inputs := [];
     m_outputs := [];
     m_usesInheritance := false;
     m_exportAs := None;
     m_providers := None |}.

(** the metadata [{inputs: {foo: "foo"}, outputs: {}}] *)
Definition fooDirective : @R3DirectiveMetadata Datatypes.unit Datatypes.unit :=
  {| m_name := "Dir";
     m_type := variable "Dir";
     m_typeArgumentCount := 0;
     m_typeSourceSpan := tt;
     m_deps := None;
     m_selector := Some "[dir]";
     m_queries := [];
     m_usesOnChanges := false;
     m_host := {| h_attributes := []; h_listeners := []; h_properties := [] |};
     m_inputs := [("foo", Plain "foo")];
     m_outputs := [];
     m_usesInheritance := false;
     m_exportAs := None;
     m_providers := None |}.


End Sample.

(* ===================================================================== *)
(** ** Further sample inputs *)
(* ===================================================================== *)

(** the number of slots that the counting conversion asks for: two for an
    expression written as a literal array, none for any other *)
Definition sampleSlots (value : string) : nat :=
  match value with
  | String "[" _ => 2
  | _ => 0
  end.

(** the attributes of a selector [[name]]: the name and the empty value *)
Definition sampleAttrs (selector : string) : list (option string) :=
  match delimited "[" "]" selector with
  | Some name => [Some name; Some ""]
  | None => []
  end.

(** [Sample.ext] with a value conversion that asks for slots, in the host
    property bindings and in the styling builder alike, and with selectors
    that have attributes *)
Definition countingExt
  : @Collaborators string Datatypes.unit Datatypes.unit Datatypes.unit
                   string (option string) string Sample.pool :=
  {| CONTEXT_NAME := CONTEXT_NAME Sample.ext;
     RENDER_FLAGS := RENDER_FLAGS Sample.ext;
     TEMPORARY_NAME := TEMPORARY_NAME Sample.ext;
     CONTENT_ATTR := CONTENT_ATTR Sample.ext;
     HOST_ATTR := HOST_ATTR Sample.ext;
     getConstLiteral := getConstLiteral Sample.ext;
     compileFactoryFunction := compileFactoryFunction Sample.ext;
     parseSelectorToR3Selector := parseSelectorToR3Selector Sample.ext;
     asLiteral := asLiteral Sample.ext;
     CssSelector_parse := CssSelector_parse Sample.ext;
     getAttrs := sampleAttrs;
     buildTemplateFunction := buildTemplateFunction Sample.ext;
     shimCssText := shimCssText Sample.ext;
     createDirectiveHostEventAsts := createDirectiveHostEventAsts Sample.ext;
     createBoundHostProperties := createBoundHostProperties Sample.ext;
     convertActionBinding := convertActionBinding Sample.ext;
     convertPropertyBinding := convertPropertyBinding Sample.ext;
     visit := fun value _ => ret (value, sampleSlots value);
     buildCreateLevelInstruction := buildCreateLevelInstruction Sample.ext;
     buildUpdateLevelInstructions := fun sb _ =>
       ret (map (Sample.styleInstruction sb) (sb_styleInputs sb)
              ++ map (Sample.classInstruction sb) (sb_classInputs sb),
            list_sum (map (fun input => sampleSlots (sty_value input))
                          (sb_styleInputs sb))
            + list_sum (map (fun input => sampleSlots (cls_value input))
                            (sb_classInputs sb)));
     renderFlagCheckIfStmt := renderFlagCheckIfStmt Sample.ext;
     getQueryPredicate := getQueryPredicate Sample.ext;
     mapToExpression := mapToExpression Sample.ext;
     typeWithParameters := typeWithParameters Sample.ext;
     sanitizeIdentifier := sanitizeIdentifier Sample.ext;
     outputCtx_importExpr := outputCtx_importExpr Sample.ext |}.


(** a directive with one host listener and a static class *)
Definition clickDirective :=
  Sample.withHost Sample.emptyDirective
                  {| h_attributes := [("class", "on")];
                     h_listeners := [("click", "onClick")];
                     h_properties := [] |}.

(** the query [{propertyName: "header", first: true, predicate: ["app-head"],
    descendants: false, read: Header}] *)
Definition headerQuery : @R3QueryMetadata Datatypes.unit :=
  {| q_propertyName := "header"; q_first := true;
     q_predicate := PredicateStrings ["app-head"];
     q_descendants := false; q_read := Some (variable "Header") |}.

(** a component with two view queries *)
Definition queryComponent
  : @R3ComponentMetadata Datatypes.unit Datatypes.unit Datatypes.unit :=
  {| c_directive := Sample.emptyDirective;
     c_template := tt;
     c_viewQueries := [Sample.itemsQuery; headerQuery];
     c_directives := [];
     c_pipes := [];
     c_wrapDirectivesAndPipesInClosure := false;
     c_styles := [];
     c_encapsulation := None;
     c_animations := None;
     c_viewProviders := None;
     c_relativeContextFilePath := "";
     c_i18nUseExternalIds := true;
     c_changeDetection := None |}.

(** a component with styles, animations and the OnPush strategy, in the mode
    Native *)
Definition nativeComponent
  : @R3ComponentMetadata Datatypes.unit Datatypes.unit Datatypes.unit :=
  {| c_directive := Sample.emptyDirective;
     c_template := tt;
     c_viewQueries := [];
     c_directives := [];
     c_pipes := [];
     c_wrapDirectivesAndPipesInClosure := false;
     c_styles := ["a { color: red }"];
     c_encapsulation := Some Native;
     c_animations := Some (variable "anims");
     c_viewProviders := None;
     c_relativeContextFilePath := "";
     c_i18nUseExternalIds := true;
     c_changeDetection := Some OnPush |}.

(** A small instance of what the render2 wrappers use: a type is its name
    (the empty string for a type without a name), a provider is a name, and
    a lifecycle hook is the flag that tells whether it is OnChanges. *)
Module Render2Sample.

Definition r2
  : @Render2Collaborators Datatypes.unit Datatypes.unit string Sample.pool
                          string string bool :=
  {| identifierName := fun type => if Js.truthy type then Some type else None;
     typeText := fun _ => "[object Object]";
     typeReference := fun type => type;
     lifecycleHooks := fun _ => [true];
     isOnChanges := fun hook => hook;
     typeSourceSpan := fun _ _ => tt;
     dependenciesFromGlobalMetadata := fun _ => ret [];
     propertyNameOf := fun kind =>
       match kind with
       | DirectiveKind => "ngDirectiveDef"
       | ComponentKind => "ngComponentDef"
       end;
     wrappedNodeExpr := fun providers => literalArr (map variable providers);
     partialClassStmt := fun name definitionField expression =>
       DeclareVarStmt (name ++ "." ++ definitionField)%string
                      (Some expression) None [Static];
     encapsulationTruthy := fun mode =>
       negb (ViewEncapsulation_eqb mode Emulated) |}.

(** the query [{propertyName: "items", selectors: [{value: "app-item"}],
    read: {identifier: Item}}] *)
Definition itemsQuery : @CompileQueryMetadata string :=
  {| cq_selectors := [{| tok_value := Some "app-item";
                         tok_identifier := None |}];
     cq_descendants := true;
     cq_first := false;
     cq_propertyName := "items";
     cq_read := Some {| tok_value := None; tok_identifier := Some "Item" |} |}.

Definition directive (type : string)
  : @CompileDirectiveMetadata string string string :=
  {| cd_type := type;
     cd_isComponent := false;
     cd_selector := Some "[dir]";
     cd_queries := [itemsQuery];
     cd_viewQueries := [];
     cd_hostAttributes := [("role", "listbox")];
     cd_inputs := [("value", "value")];
     cd_outputs := [];
     cd_providers := ["Service"];
     cd_viewProviders := [];
     cd_summaryHostListeners := [];
     cd_summaryHostProperties := [];
     cd_summaryTemplate := None |}.

End Render2Sample.


(* ===================================================================== *)
(** ** Vocabulary of the properties *)
(* ===================================================================== *)

(** the dot-separated segments of a name: ["a.b.c"] has the three segments
    ["a"], ["b"], ["c"]; a name without a dot is its own only segment *)
Fixpoint segments (s : string) : list string :=
  match s with
  | EmptyString => [EmptyString]
  | String c r =>
      if Ascii.eqb c "."%char then EmptyString :: segments r
      else
        match segments r with
        | h :: t => String c h :: t
        | [] => [String c EmptyString]
        end
  end.

Fixpoint noDot (s : string) : bool :=
  match s with
  | EmptyString => true
  | String c r => negb (Ascii.eqb c "."%char) && noDot r
  end.

(** the four outputs of [parseHostBindings] *)
Inductive Bucket := Attributes | Listeners | Properties | Animations.

Definition bucket (b : Bucket) (r : HostBindings) : Js.Obj string :=
  match b with
  | Attributes => hb_attributes r
  | Listeners => hb_listeners r
  | Properties => hb_properties r
  | Animations => hb_animations r
  end.

(** the output a key is written to and the name it is written under, read off
    the branches of [parseHostBindings]; [None] is the case in which the
    pattern matches with no group set, where nothing is written *)
Definition classifyKey (key : string) : option (Bucket * string) :=
  match HOST_REG_EXP_match key with
  | None => Some (Attributes, key)
  | Some matches =>
      match group1 matches, group2 matches, group3 matches with
      | Some name, _, _ => Some (Properties, name)
      | None, Some name, _ => Some (Listeners, name)
      | None, None, Some name => Some (Animations, name)
      | None, None, None => None
      end
  end.

(** writing [value] where [classifyKey] says *)
Definition store (target : option (Bucket * string)) (value : string)
           (acc : HostBindings) : HostBindings :=
  match target with
  | Some (Attributes, name) =>
      {| hb_attributes := Js.set (hb_attributes acc) name value;
         hb_listeners := hb_listeners acc;
         hb_properties := hb_properties acc;
         hb_animations := hb_animations acc |}
  | Some (Listeners, name) =>
      {| hb_attributes := hb_attributes acc;
         hb_listeners := Js.set (hb_listeners acc) name value;
         hb_properties := hb_properties acc;
         hb_animations := hb_animations acc |}
  | Some (Properties, name) =>
      {| hb_attributes := hb_attributes acc;
         hb_listeners := hb_listeners acc;
         hb_properties := Js.set (hb_properties acc) name value;
         hb_animations := hb_animations acc |}
  | Some (Animations, name) =>
      {| hb_attributes := hb_attributes acc;
         hb_listeners := hb_listeners acc;
         hb_properties := hb_properties acc;
         hb_animations := Js.set (hb_animations acc) name value |}
  | None => acc
  end.

(** two objects have no property name in common *)
Definition disjointKeys {V W} (o1 : Js.Obj V) (o2 : Js.Obj W) : Prop :=
  forall k, ~ (Js.has o1 k = true /\ Js.has o2 k = true).

(** [s] does not contain the character [c] *)
Fixpoint lacks (c : ascii) (s : string) : bool :=
  match s with
  | EmptyString => true
  | String a r => negb (Ascii.eqb a c) && lacks c r
  end.

(** the entry that [DefinitionMap.set] adds for a field, if any *)
Definition entry {SourceSpan} (key : string) (value : option (@Expr SourceSpan))
  : list (string * bool * @Expr SourceSpan) :=
  match value with
  | Some v => [(key, false, v)]
  | None => []
  end.

(** The [features] list in the words of the specification: the providers
    feature, the inheritance feature and the on-changes feature, each only
    when it applies, in this order.  The providers feature is called with the
    providers argument first ([providers], or an empty array literal when only
    [viewProviders] is given) and [viewProviders], when given, second. *)
Definition providersFeature {SourceSpan}
           (providers viewProviders : option (@Expr SourceSpan))
  : list (@Expr SourceSpan) :=
  let providersArgument :=
    match providers with
    | Some p => p
    | None => LiteralArrayExpr []
    end in
  match providers, viewProviders with
  | None, None => []
  | _, Some vp =>
      [callFn (importExpr R3.ProvidersFeature) [providersArgument; vp]]
  | _, None => [callFn (importExpr R3.ProvidersFeature) [providersArgument]]
  end.

Definition expectedFeatures {SourceSpan}
           (providers viewProviders : option (@Expr SourceSpan))
           (usesInheritance usesOnChanges : bool) : list (@Expr SourceSpan) :=
  providersFeature providers viewProviders
  ++ (if usesInheritance then [importExpr R3.InheritDefinitionFeature] else [])
  ++ (if usesOnChanges then [importExpr R3.NgOnChangesFeature] else []).

(** the value of the field [features], if the field is set *)
Definition featuresField {SourceSpan Dep TemplateNodes}
           (meta : @AnyMetadata SourceSpan Dep TemplateNodes)
  : option (@Expr SourceSpan) :=
  match featuresOf meta with
  | [] => None
  | features => Some (literalArr features)
  end.

(** every field of a definition map is one of [names] *)
Definition fieldsAmong {SourceSpan} (names : list string)
           (dm : list (string * bool * @Expr SourceSpan)) : Prop :=
  Forall (fun e => In (fst (fst e)) names) dm.

(** the fields that [baseDirectiveFields] may set *)
Definition baseFieldNames : list string :=
  ["type"; "selectors"; "factory"; "contentQueries"; "contentQueriesRefresh";
   "attributes"; "hostBindings"; "inputs"; "outputs"; "exportAs"].

(** the fields that [compileComponentFromMetadata] may add between [features]
    and [styles] *)
Definition componentFieldNames : list string :=
  ["attrs"; "viewQuery"; "consts"; "vars"; "template"; "directives"; "pipes"].

(** the expression statements of a function body, declarations left out *)
Fixpoint expressionStatements {SourceSpan} (stmts : list (@Stmt SourceSpan))
  : list (@Expr SourceSpan) :=
  match stmts with
  | [] => []
  | ExpressionStatement e :: r => e :: expressionStatements r
  | _ :: r => expressionStatements r
  end.

(** the run-time value of an index expression when [queryStartIndex] holds
    [start] *)
Fixpoint indexValue {SourceSpan} (start : Z) (e : @Expr SourceSpan) : option Z :=
  match e with
  | ReadVarExpr name =>
      if String.eqb name "queryStartIndex" then Some start else None
  | LiteralExpr (LNum n) _ => Some n
  | BinaryOperatorExpr Plus l r =>
      match indexValue start l, indexValue start r with
      | Some a, Some b => Some (a + b)%Z
      | _, _ => None
      end
  | _ => None
  end.

(** the expression of the refresh statement for a query at position [idx]:
    [queryRefresh(tmp = loadQueryList(index)) && (instance.name = value)] *)
Definition refreshExpression {SourceSpan} (temporaryName : string)
           (propertyName : string) (first : bool) (idx : nat)
  : @Expr SourceSpan :=
  BinaryOperatorExpr And
    (InvokeFunctionExpr
       (ExternalExpr R3.queryRefresh None None)
       [WriteVarExpr temporaryName
          (InvokeFunctionExpr (ExternalExpr R3.loadQueryList None None)
                              [queryListIndex idx] None)]
       None)
    (WritePropExpr (ReadVarExpr "instance") propertyName
       (if first then ReadPropExpr (ReadVarExpr temporaryName) "first"
        else ReadVarExpr temporaryName)).

(** the expressions of the refresh statements of [queries], the first query
    being at position [idx] *)
Fixpoint refreshExpressions {SourceSpan} (temporaryName : string)
         (queries : list (@R3QueryMetadata SourceSpan)) (idx : nat)
  : list (@Expr SourceSpan) :=
  match queries with
  | [] => []
  | query :: rest =>
      refreshExpression temporaryName (q_propertyName query) (q_first query) idx
      :: refreshExpressions temporaryName rest (S idx)
  end.

(** the mode [compileComponentFromMetadata] settles on: Emulated when none is
    set, and None instead of Emulated when there is no style *)
Definition resolvedEncapsulation (mode : option ViewEncapsulation)
           (styles : list string) : ViewEncapsulation :=
  let mode :=
    match mode with
    | Some m => m
    | None => Emulated
    end in
  match mode, styles with
  | Emulated, [] => EncNone
  | _, _ => mode
  end.

(** the value conversion asks for no host-variable slot, as it does on
    expressions without literal arrays and maps *)
Definition requestsNoSlots {AST SourceSpan Dep TemplateNodes CssSelector
                            R3Selector Reference Pool}
           (ext : @Collaborators AST SourceSpan Dep TemplateNodes CssSelector
                                 R3Selector Reference Pool) : Prop :=
  (forall value total pool r pool',
      visit ext value total pool = Ok (r, pool') -> snd r = 0)
  /\ (forall styleBuilder total pool r pool',
         buildUpdateLevelInstructions ext styleBuilder total pool
         = Ok (r, pool') -> snd r = 0).

(** the statement that [createStylingStmt] makes of a styling instruction
    and its parameters: the call of the instruction's reference *)
Definition stylingStatement {AST SourceSpan}
           (instruction : @StylingInstruction AST SourceSpan)
           (params : list (@Expr SourceSpan)) : @Stmt SourceSpan :=
  ExpressionStatement
    (InvokeFunctionExpr
       (ExternalExpr (si_reference instruction) None
                     (si_sourceSpan instruction))
       params (si_sourceSpan instruction)).

(** the conversion that [createStylingStmt] hands to [buildParams]: the
    current-value expression of the converted binding *)
Definition currentValueOf {AST SourceSpan Dep TemplateNodes CssSelector
                           R3Selector Reference Pool}
           (ext : @Collaborators AST SourceSpan Dep TemplateNodes CssSelector
                                 R3Selector Reference Pool)
           (bindingContext : @Expr SourceSpan) (value : AST)
  : Result (@Expr SourceSpan) :=
  match convertPropertyBinding ext bindingContext value "b" with
  | Ok (_, currValExpr) => Ok currValExpr
  | Thrown msg => Thrown msg
  end.




(** whether a key begins with one of the two opening delimiters of
    [HOST_REG_EXP] *)
Definition startsWithDelimiter (key : string) : bool :=
  match key with
  | String c _ => Ascii.eqb c "["%char || Ascii.eqb c "("%char
  | EmptyString => false
  end.


(** the style input that the loop of [createHostBindingsFunction] registers
    for a binding whose prefix is 'style' *)
Definition styleInputOf {AST SourceSpan}
           (binding : @ParsedProperty AST SourceSpan)
  : @StyleInput AST SourceSpan :=
  let np := parseNamedProperty (pp_name binding) in
  {| sty_propertyName := np_propertyName np;
     sty_value := pp_expression binding;
     sty_unit := np_unit np;
     sty_sourceSpan := pp_sourceSpan binding |}.

(** and the class input for a binding whose prefix is 'class' *)
Definition classInputOf {AST SourceSpan}
           (binding : @ParsedProperty AST SourceSpan)
  : @ClassInput AST SourceSpan :=
  {| cls_className := np_propertyName (parseNamedProperty (pp_name binding));
     cls_value := pp_expression binding;
     cls_sourceSpan := pp_sourceSpan binding |}.

Definition hasPrefix {AST SourceSpan} (prefix : string)
           (binding : @ParsedProperty AST SourceSpan) : bool :=
  String.eqb (getStylingPrefix (pp_name binding)) prefix.

(** the event name of a statement [listener(name, handler)] *)
Definition listenerEventName {SourceSpan} (s : @Stmt SourceSpan)
  : option string :=
  match s with
  | ExpressionStatement
      (InvokeFunctionExpr (ExternalExpr R3.listener _ _)
                          (LiteralExpr (LStr name) _ :: _) _) => Some name
  | _ => None
  end.

(** the events and the bound properties that the binding parser finds for
    the host of a directive *)
Definition hostEventAsts {AST SourceSpan Dep TemplateNodes CssSelector R3Selector
                       Reference Pool}
           (ext : @Collaborators AST SourceSpan Dep TemplateNodes CssSelector
                                 R3Selector Reference Pool)
           (meta : @R3DirectiveMetadata SourceSpan Dep) :=
  createDirectiveHostEventAsts ext (metadataAsSummary meta)
                               (m_typeSourceSpan meta).

Definition boundHostProperties {AST SourceSpan Dep TemplateNodes CssSelector
                            R3Selector Reference Pool}
           (ext : @Collaborators AST SourceSpan Dep TemplateNodes CssSelector
                                 R3Selector Reference Pool)
           (meta : @R3DirectiveMetadata SourceSpan Dep) :=
  createBoundHostProperties ext (metadataAsSummary meta)
                            (m_typeSourceSpan meta).

(** the call [query(idx, predicate, descendants)] or
    [query(idx, predicate, descendants, read)]; [idx] is [null] for a content
    query *)
Definition queryCall {SourceSpan} (idx : option nat)
           (query : @R3QueryMetadata SourceSpan)
           (predicate : @Expr SourceSpan) : @Expr SourceSpan :=
  InvokeFunctionExpr
    (ExternalExpr R3.query None None)
    ([ LiteralExpr (match idx with
                    | Some i => LNum (Z.of_nat i)
                    | None => LNull
                    end) (Some (BuiltinType INFERRED_TYPE));
       predicate;
       LiteralExpr (LBool (q_descendants query)) None ]
       ++ match q_read query with
          | Some read => [read]
          | None => []
          end)
    None.

(** the update statement of the view query in slot [i]:
    [queryRefresh(tmp = load(i)) && (ctx.name = tmp)], with [tmp.first] for a
    query that asks for the first result *)
Definition viewRefreshStatement {SourceSpan} (temporaryName contextName : string)
           (query : @R3QueryMetadata SourceSpan) (i : nat) : @Stmt SourceSpan :=
  ExpressionStatement
    (BinaryOperatorExpr And
       (InvokeFunctionExpr
          (ExternalExpr R3.queryRefresh None None)
          [WriteVarExpr temporaryName
             (InvokeFunctionExpr (ExternalExpr R3.load None None)
                                 [LiteralExpr (LNum (Z.of_nat i)) None] None)]
          None)
       (WritePropExpr (ReadVarExpr contextName) (q_propertyName query)
          (if q_first query
           then ReadPropExpr (ReadVarExpr temporaryName) "first"
           else ReadVarExpr temporaryName))).

Fixpoint viewRefreshStatements {SourceSpan} (temporaryName contextName : string)
         (queries : list (@R3QueryMetadata SourceSpan)) (i : nat)
  : list (@Stmt SourceSpan) :=
  match queries with
  | [] => []
  | query :: rest =>
      viewRefreshStatement temporaryName contextName query i
      :: viewRefreshStatements temporaryName contextName rest (S i)
  end.

(** the names of the fields of a definition, in the order of emission *)
Definition fieldNames {SourceSpan}
           (dm : list (string * bool * @Expr SourceSpan)) : list string :=
  map (fun e => fst (fst e)) dm.

(** [l] is [canon] with some elements left out *)
Fixpoint isSubsequence (l canon : list string) : bool :=
  match l, canon with
  | [], _ => true
  | _ :: _, [] => false
  | x :: l', c :: canon' =>
      if String.eqb x c then isSubsequence l' canon' else isSubsequence l canon'
  end.

Fixpoint distinct (l : list string) : bool :=
  match l with
  | [] => true
  | x :: r => negb (existsb (String.eqb x) r) && distinct r
  end.

(** the fields of a directive definition and of a component definition, in
    the order in which compiler.ts sets them *)
Definition directiveFieldOrder : list string :=
  baseFieldNames ++ ["features"].

Definition componentFieldOrder : list string :=
  directiveFieldOrder ++ componentFieldNames
  ++ ["styles"; "encapsulation"; "data"; "changeDetection"].

(** the value of the field [styles]: absent without styles; the styles are
    shimmed in the mode Emulated and verbatim in every other mode *)
Definition stylesField {AST SourceSpan Dep TemplateNodes CssSelector R3Selector
                        Reference Pool}
           (ext : @Collaborators AST SourceSpan Dep TemplateNodes CssSelector
                                 R3Selector Reference Pool)
           (meta : @R3ComponentMetadata SourceSpan Dep TemplateNodes)
  : option (@Expr SourceSpan) :=
  match c_styles meta with
  | [] => None
  | styles =>
      Some (literalArr
              (map strLit
                   (match resolvedEncapsulation (c_encapsulation meta) styles with
                    | Emulated =>
                        map (fun style =>
                               shimCssText ext style (CONTENT_ATTR ext)
                                           (HOST_ATTR ext)) styles
                    | _ => styles
                    end)))
  end.

(** the value of the field [encapsulation]: absent in the mode Emulated *)
Definition encapsulationField {SourceSpan Dep TemplateNodes}
           (meta : @R3ComponentMetadata SourceSpan Dep TemplateNodes)
  : option (@Expr SourceSpan) :=
  match resolvedEncapsulation (c_encapsulation meta) (c_styles meta) with
  | Emulated => None
  | mode => Some (literal (LEncapsulation mode))
  end.


(** the attributes of the first selector of a component: none when the
    selector is null or empty, or parses to no selector *)
Definition selectorAttributes {AST SourceSpan Dep TemplateNodes CssSelector
                               R3Selector Reference Pool}
           (ext : @Collaborators AST SourceSpan Dep TemplateNodes CssSelector
                                 R3Selector Reference Pool)
           (selector : option string) : list (option string) :=
  match selector with
  | Some s =>
      if Js.truthy s then
        match CssSelector_parse ext s with
        | first :: _ => getAttrs ext first
        | [] => []
        end
      else []
  | None => []
  end.

(** [attrs] is the shared constant made of the selector attributes, and is
    absent when there are none *)
Definition attrsResolved {AST SourceSpan Dep TemplateNodes CssSelector
                          R3Selector Reference Pool}
           (ext : @Collaborators AST SourceSpan Dep TemplateNodes CssSelector
                                 R3Selector Reference Pool)
           (selector : option string) (attrs : option (@Expr SourceSpan))
  : Prop :=
  match selectorAttributes ext selector with
  | [] => attrs = None
  | values =>
      exists a p p',
        attrs = Some a
        /\ getConstLiteral ext
             (literalArr
                (map (fun value =>
                        match value with
                        | Some v => strLit v
                        | None => literal LUndefined
                        end) values))
             true p
           = Ok (a, p')
  end.

(** the name of the handler of a host listener *)
Definition handlerName {AST SourceSpan Dep TemplateNodes CssSelector
                        R3Selector Reference Pool}
           (ext : @Collaborators AST SourceSpan Dep TemplateNodes CssSelector
                                 R3Selector Reference Pool)
           (typeName eventName : string) : option string :=
  match typeName, eventName with
  | EmptyString, _ => None
  | _, EmptyString => None
  | _, _ =>
      match sanitizeIdentifier ext eventName with
      | EmptyString => None
      | sanitized =>
          Some (typeName ++ "_" ++ sanitized ++ "_HostBindingHandler")%string
      end
  end.

(* ===================================================================== *)
(** ** Properties of the string helpers *)
(* ===================================================================== *)

Example parseHostBindings_sample :
  parseHostBindings
    [("[style.width.px]", "w"); ("(click)", "go()"); ("@fade", "st");
     ("role", "listbox"); ("[attr.x]tail", "a"); ("pre@fade", "b")]
  = {| hb_attributes := [("role", "listbox")];
       hb_listeners := [("click", "go()")];
       hb_properties := [("style.width.px", "w"); ("attr.x", "a")];
       hb_animations := [("@fade", "b")] |}.
Proof. reflexivity. Qed.

Example parseNamedProperty_samples :
  parseNamedProperty "style.width.px"
    = {| np_propertyName := "width"; np_unit := "px" |}
  /\ parseNamedProperty "class.active"
    = {| np_propertyName := "active"; np_unit := "" |}
  /\ parseNamedProperty "style" = {| np_propertyName := ""; np_unit := "" |}
  /\ parseNamedProperty ".a.b" = {| np_propertyName := ""; np_unit := "" |}.
Proof. repeat split; reflexivity. Qed.

Lemma segments_inv s : forall h t, segments s = h :: t ->
  noDot h = true /\
  ((t = [] /\ s = h) \/
   (exists r, s = (h ++ String "."%char r)%string /\ segments r = t)).
Proof.
  induction s as [|c r IH]; simpl; intros h t H.
  - inversion H; subst. split; [reflexivity|left; auto].
  - destruct (Ascii.eqb c ".") eqn:E.
    + apply Ascii.eqb_eq in E; subst c. inversion H; subst.
      split; [reflexivity|]. right. exists r. split; reflexivity.
    + destruct (segments r) as [|h' t'] eqn:S.
      * inversion H; subst. simpl. rewrite E. split; [reflexivity|left;split;auto].
        exfalso. destruct r; simpl in S; try discriminate.
        destruct (Ascii.eqb a "."); try discriminate. destruct (segments r); discriminate.
      * inversion H; subst. destruct (IH h' t eq_refl) as [Hn [[Ht Hs]|[r' [Hs Hr]]]].
        -- split; [simpl; rewrite E, Hn; reflexivity|]. left. subst. auto.
        -- split; [simpl; rewrite E, Hn; reflexivity|]. right. exists r'. subst. auto.
Qed.

Lemma segments_nonempty s : segments s <> [].
Proof.
  destruct s; simpl; try discriminate.
  destruct (Ascii.eqb a "."); try discriminate. destruct (segments s); discriminate.
Qed.

Lemma length_app a b :
  String.length (a ++ b) = (String.length a + String.length b)%nat.
Proof. induction a as [|c a IH]; simpl; [reflexivity|rewrite IH; reflexivity]. Qed.

Lemma app_assoc_str a b c : ((a ++ b) ++ c)%string = (a ++ (b ++ c))%string.
Proof. induction a as [|x a IH]; simpl; [reflexivity|rewrite IH; reflexivity]. Qed.

Lemma len_append a b : Js.len (a ++ b) = (Js.len a + Js.len b)%Z.
Proof.
  unfold Js.len. rewrite length_app. lia.
Qed.

Lemma len_cons c s : Js.len (String c s) = (1 + Js.len s)%Z.
Proof. unfold Js.len. simpl String.length. lia. Qed.

Lemma len_nonneg s : (0 <= Js.len s)%Z.
Proof. unfold Js.len. lia. Qed.

Lemma indexOfFrom_noDot a : forall i,
  noDot a = true -> Js.indexOfFrom "." a i = (-1)%Z.
Proof.
  induction a as [|c r IH]; simpl; intros i H; [reflexivity|].
  apply andb_true_iff in H as [H1 H2]. apply negb_true_iff in H1.
  rewrite H1. apply IH, H2.
Qed.

Lemma indexOfFrom_first a : forall r i,
  noDot a = true ->
  Js.indexOfFrom "." (a ++ String "." r) i = (i + Js.len a)%Z.
Proof.
  induction a as [|c a IH]; simpl; intros r i H.
  - unfold Js.len; simpl. lia.
  - apply andb_true_iff in H as [H1 H2]. apply negb_true_iff in H1.
    rewrite H1, IH by assumption. rewrite len_cons. lia.
Qed.

Lemma lastIndexOfFrom_noDot u : forall i found,
  noDot u = true -> Js.lastIndexOfFrom "." u i found = found.
Proof.
  induction u as [|c r IH]; simpl; intros i found H; [reflexivity|].
  apply andb_true_iff in H as [H1 H2]. apply negb_true_iff in H1.
  rewrite H1. apply IH, H2.
Qed.

Lemma lastIndexOfFrom_last a : forall u i found,
  noDot u = true ->
  Js.lastIndexOfFrom "." (a ++ String "." u) i found = (i + Js.len a)%Z.
Proof.
  induction a as [|c a IH]; simpl; intros u i found H.
  - rewrite lastIndexOfFrom_noDot by assumption. unfold Js.len; simpl; lia.
  - rewrite IH by assumption. rewrite len_cons. lia.
Qed.

Lemma substring_skip a : forall n m s,
  String.substring (String.length a + n) m (a ++ s) = String.substring n m s.
Proof.
  induction a as [|c a IH]; simpl; intros; [reflexivity|apply IH].
Qed.

Lemma substring_take b : forall s,
  String.substring 0 (String.length b) (b ++ s) = b.
Proof.
  induction b as [|c b IH]; simpl; intros.
  - destruct s; reflexivity.
  - rewrite IH. reflexivity.
Qed.

Lemma substring_all b : String.substring 0 (String.length b) b = b.
Proof.
  induction b as [|c b IH]; simpl; [reflexivity|rewrite IH; reflexivity].
Qed.

(** [a ++ "." ++ rest]: the characters from [len a + 1] to the end *)
Lemma js_substring_tail a rest :
  Js.substring (a ++ String "." rest) (Js.len a + 1) (Js.len (a ++ String "." rest)) = rest.
Proof.
  unfold Js.substring, Js.clamp. rewrite len_append, len_cons.
  pose proof (len_nonneg a). pose proof (len_nonneg rest).
  replace (Z.min _ _) with (Js.len a + 1)%Z by lia.
  replace (Z.max (Z.max 0 (Z.min (Js.len a + 1) (Js.len a + (1 + Js.len rest)))) _)
    with (Js.len a + 1 + Js.len rest)%Z by lia.
  replace (Z.to_nat (Js.len a + 1)) with (String.length (a ++ ".") + 0)%nat
    by (rewrite length_app; unfold Js.len; simpl; lia).
  replace (a ++ String "." rest)%string with ((a ++ ".") ++ rest)%string
    by (rewrite app_assoc_str; reflexivity).
  rewrite substring_skip.
  replace (Z.to_nat _) with (String.length rest) by (unfold Js.len; lia).
  apply substring_all.
Qed.

Lemma js_substring_middle a p u :
  Js.substring (a ++ String "." (p ++ String "." u)) (Js.len a + 1)
               (Js.len a + 1 + Js.len p) = p.
Proof.
  unfold Js.substring, Js.clamp. rewrite len_append, len_cons, len_append, len_cons.
  pose proof (len_nonneg a). pose proof (len_nonneg p). pose proof (len_nonneg u).
  replace (Z.min (Z.max 0 (Z.min (Js.len a + 1) _)) _) with (Js.len a + 1)%Z by lia.
  replace (Z.max (Z.max 0 (Z.min (Js.len a + 1) _)) _)
    with (Js.len a + 1 + Js.len p)%Z by lia.
  replace (Z.to_nat (Js.len a + 1)) with (String.length (a ++ ".") + 0)%nat
    by (rewrite length_app; unfold Js.len; simpl; lia).
  replace (a ++ String "." (p ++ String "." u))%string
    with ((a ++ ".") ++ (p ++ String "." u))%string
    by (rewrite app_assoc_str; reflexivity).
  rewrite substring_skip.
  replace (Z.to_nat _) with (String.length p) by (unfold Js.len; lia).
  apply substring_take.
Qed.

Lemma parseNamedProperty_noDot name :
  noDot name = true ->
  parseNamedProperty name = {| np_propertyName := ""; np_unit := "" |}.
Proof.
  intros H. unfold parseNamedProperty, Js.indexOf.
  rewrite indexOfFrom_noDot by assumption. reflexivity.
Qed.

Lemma parseNamedProperty_two a p :
  a <> EmptyString -> noDot a = true -> noDot p = true ->
  parseNamedProperty (a ++ String "." p)
  = {| np_propertyName := p; np_unit := "" |}.
Proof.
  intros Ha Hna Hnp. unfold parseNamedProperty, Js.indexOf, Js.lastIndexOf.
  rewrite indexOfFrom_first by assumption.
  rewrite lastIndexOfFrom_last by assumption.
  assert (0 < Js.len a)%Z
    by (destruct a as [|x a']; [congruence|rewrite len_cons; pose proof (len_nonneg a'); lia]).
  replace (0 <? 0 + Js.len a)%Z with true by (symmetry; apply Z.ltb_lt; lia).
  rewrite Z.eqb_refl. simpl negb. cbv iota.
  replace (0 + Js.len a + 1)%Z with (Js.len a + 1)%Z by lia.
  rewrite js_substring_tail. reflexivity.
Qed.

Lemma parseNamedProperty_three a p u :
  a <> EmptyString -> noDot a = true -> noDot p = true -> noDot u = true ->
  parseNamedProperty (a ++ String "." (p ++ String "." u))
  = {| np_propertyName := p; np_unit := u |}.
Proof.
  intros Ha Hna Hnp Hnu. unfold parseNamedProperty, Js.indexOf, Js.lastIndexOf.
  rewrite indexOfFrom_first by assumption.
  replace (a ++ String "." (p ++ String "." u))%string
    with ((a ++ String "." p) ++ String "." u)%string
    by (rewrite app_assoc_str; reflexivity).
  rewrite lastIndexOfFrom_last by assumption.
  assert (0 < Js.len a)%Z
    by (destruct a as [|x a']; [congruence|rewrite len_cons; pose proof (len_nonneg a'); lia]).
  pose proof (len_nonneg p).
  replace (0 <? 0 + Js.len a)%Z with true by (symmetry; apply Z.ltb_lt; lia).
  rewrite len_append, len_cons.
  replace (0 + (Js.len a + (1 + Js.len p)) =? 0 + Js.len a)%Z with false
    by (symmetry; apply Z.eqb_neq; lia).
  simpl negb. cbv iota.
  f_equal.
  - rewrite app_assoc_str. simpl String.append.
    replace (0 + Js.len a + 1)%Z with (Js.len a + 1)%Z by lia.
    replace (0 + (Js.len a + (1 + Js.len p)))%Z with (Js.len a + 1 + Js.len p)%Z by lia.
    apply js_substring_middle.
  - replace (0 + (Js.len a + (1 + Js.len p)) + 1)%Z
      with (Js.len (a ++ String "." p) + 1)%Z
      by (rewrite len_append, len_cons; lia).
    apply js_substring_tail.
Qed.

Lemma stylingName_first name :
  isStylingName name = true ->
  exists c r, name = String c r /\ Ascii.eqb c "." = false.
Proof.
  destruct name as [|c r]; [discriminate|].
  intros H. exists c, r. split; [reflexivity|].
  destruct (Ascii.eqb c ".") eqn:E; [|reflexivity].
  apply Ascii.eqb_eq in E; subst c. exfalso.
  unfold isStylingName, allocatesHostVar, getStylingPrefix in H.
  assert (exists k, Js.substring (String "." r) 0 5
                    = String "." (String.substring 0 k r)) as [k Hk].
  { unfold Js.substring, Js.clamp. rewrite len_cons. pose proof (len_nonneg r).
    replace (Z.min (Z.max 0 (Z.min 0 _)) _) with 0%Z by lia.
    replace (Z.max (Z.max 0 (Z.min 0 (1 + Js.len r))) (Z.max 0 (Z.min 5 (1 + Js.len r))) - 0)%Z
      with (1 + (Z.min 4 (Js.len r)))%Z by lia.
    rewrite Z2Nat.inj_add by lia. simpl Z.to_nat.
    exists (Z.to_nat (Z.min 4 (Js.len r))). reflexivity. }
  rewrite Hk in H. simpl in H. discriminate.
Qed.

(* ===================================================================== *)
(** ** Styling names: property and unit *)
(* ===================================================================== *)

Section StylingNames.

Context {AST SourceSpan Dep TemplateNodes CssSelector R3Selector Reference
         Pool : Type}.
Variable ext : @Collaborators AST SourceSpan Dep TemplateNodes CssSelector
                              R3Selector Reference Pool.

Lemma styleInput_is_styling_work
      (sb : @StylingBuilder AST SourceSpan) propertyName value unit span :
  hasBindingsOrInitialValues (registerStyleInput sb propertyName value unit span)
  = true.
Proof.
  unfold hasBindingsOrInitialValues, registerStyleInput; cbn.
  destruct (sb_styleAttr sb), (sb_classAttr sb), (sb_styleInputs sb);
    reflexivity.
Qed.

(** C6.  For the name of a styling host binding (prefix 'style' or 'class'):
    with three dot-separated segments the middle one is the property and the
    last one the unit; with two segments the second is the property and the
    unit is empty; without a dot both are empty.  Consequently the host key
    "[style.width.px]" is the property binding "style.width.px", for which
    the host-bindings compiler registers with the styling builder a dynamic
    style binding of property "width" with unit "px", reserves no host
    variable, and, when there is no host event, returns the hostBindings
    function whose update block is the update instruction that the builder
    emits for that binding: the call of the instruction's reference with the
    parameters that the instruction builds. *)
Theorem styling_name_property_and_unit (name : string)
        (Hstyling : isStylingName name = true) :
  match segments name with
  | [_] =>
      parseNamedProperty name = {| np_propertyName := ""; np_unit := "" |}
  | [_; p] =>
      parseNamedProperty name = {| np_propertyName := p; np_unit := "" |}
  | [_; p; u] =>
      parseNamedProperty name = {| np_propertyName := p; np_unit := u |}
  | _ => True
  end
  /\ (forall value,
        hb_properties (parseHostBindings [("[style.width.px]", value)])
        = [("style.width.px", value)])
  /\ (forall elVarExp bindingContext st expression span pool,
        compileHostBinding ext elVarExp bindingContext st
          {| pp_name := "style.width.px"; pp_expression := expression;
             pp_sourceSpan := span |} pool
        = Ok ({| hs_styleBuilder :=
                   registerStyleInput (hs_styleBuilder st) "width"
                                      expression "px" span;
                 hs_updateStatements := hs_updateStatements st;
                 hs_totalHostVarsCount := hs_totalHostVarsCount st |},
              pool))
  /\ (forall (meta : R3DirectiveMetadata) value expression span elVarName
             bindingContext create createStmts instruction slots params
             pool pool1 pool2,
        let styleBuilder := fst (splitHostAttributes ext meta) in
        let registered :=
          registerStyleInput styleBuilder "width" expression "px" span in
        h_properties (m_host meta)
        = hb_properties (parseHostBindings [("[style.width.px]", value)]) ->
        hostEventAsts ext meta = None \/ hostEventAsts ext meta = Some [] ->
        boundHostProperties ext meta
        = Some [{| pp_name := "style.width.px"; pp_expression := expression;
                   pp_sourceSpan := span |}] ->
        buildCreateLevelInstruction ext registered pool = Ok (create, pool1) ->
        match create with
        | Some instruction =>
            exists createParams,
              si_buildParams instruction (currentValueOf ext bindingContext)
              = Ok createParams
              /\ createStmts = [stylingStatement instruction createParams]
        | None => createStmts = []
        end ->
        buildUpdateLevelInstructions ext registered 0 pool1
        = Ok (([instruction], slots), pool2) ->
        si_buildParams instruction (currentValueOf ext bindingContext)
        = Ok params ->
        hostVarsCountOf meta = 0
        /\ createHostBindingsFunction ext meta elVarName bindingContext
                                      styleBuilder (hostVarsCountOf meta) pool
           = Ok (Some (fn [ mkFnParam (RENDER_FLAGS ext)
                                      (Some (BuiltinType NUMBER_TYPE));
                            mkFnParam (CONTEXT_NAME ext) None;
                            mkFnParam elVarName
                                      (Some (BuiltinType NUMBER_TYPE)) ]
                          (match (if (0 <? slots)%nat
                                  then [allocHostVarsStmt slots] else [])
                                 ++ createStmts with
                           | [] => []
                           | block =>
                               [renderFlagCheckIfStmt ext Create block]
                           end
                           ++ [renderFlagCheckIfStmt ext Update
                                 [stylingStatement instruction params]])
                          (Some (BuiltinType INFERRED_TYPE))
                          (suffixedName (m_name meta) "_HostBindings")),
                 pool2)).
Proof.
  split; [|split; [intros; reflexivity|split; [intros; reflexivity|]]].
  2:{ intros meta value expression span elVarName bindingContext create
             createStmts instruction slots params pool pool1 pool2
             styleBuilder registered Hhost Hevents Hparser Hcreate Hstmts
             Hupdate Hparams.
      assert (Hcount : hostVarsCountOf meta = 0).
      { unfold hostVarsCountOf. rewrite Hhost. reflexivity. }
      split; [exact Hcount|]. rewrite Hcount.
      unfold createHostBindingsFunction, hostBindingsStatements, bind.
      unfold hostEventAsts in Hevents. unfold boundHostProperties in Hparser.
      assert (Hlisteners :
                match createDirectiveHostEventAsts
                        ext (metadataAsSummary meta) (m_typeSourceSpan meta)
                with
                | Some (e :: es) =>
                    createHostListeners ext bindingContext (e :: es) meta
                | _ => ret []
                end pool = Ok ([], pool)).
      { destruct Hevents as [-> | ->]; reflexivity. }
      rewrite Hlisteners, Hparser. cbn [foldM]. unfold bind.
      change (compileHostBinding ext (variable elVarName) bindingContext
                {| hs_styleBuilder := styleBuilder;
                   hs_updateStatements := [];
                   hs_totalHostVarsCount := 0 |}
                {| pp_name := "style.width.px"; pp_expression := expression;
                   pp_sourceSpan := span |} pool)
        with (Ok ({| hs_styleBuilder := registered;
                     hs_updateStatements := @nil Stmt;
                     hs_totalHostVarsCount := 0 |}, pool)).
      cbn [ret hs_styleBuilder hs_updateStatements hs_totalHostVarsCount].
      unfold registered at 1. rewrite styleInput_is_styling_work.
      fold registered. rewrite Hcreate.
      assert (Hconv : (fun value =>
                         match bindingFn ext bindingContext value with
                         | Ok (_, currValExpr) => Ok currValExpr
                         | Thrown msg => Thrown msg
                         end) = currentValueOf ext bindingContext)
        by reflexivity.
      destruct create as [ci|].
      - destruct Hstmts as (createParams & Hcp & ->).
        unfold liftResult at 1. unfold createStylingStmt at 1.
        rewrite Hconv, Hcp. cbn [ret app]. rewrite Hupdate.
        cbn [mapM]. unfold bind, liftResult, createStylingStmt.
        rewrite Hconv, Hparams. cbn [ret app Nat.add].
        unfold hostBindingsFunction.
        destruct (0 <? slots)%nat; reflexivity.
      - subst createStmts. cbn [ret]. rewrite Hupdate.
        cbn [mapM]. unfold bind, liftResult, createStylingStmt.
        rewrite Hconv, Hparams. cbn [ret app Nat.add].
        unfold hostBindingsFunction.
        destruct (0 <? slots)%nat; reflexivity. }
  destruct (stylingName_first name Hstyling) as (c & r & Hname & Hc).
  destruct (segments name) as [|a t] eqn:Hseg;
    [exact I|].
  destruct (segments_inv name a t Hseg) as [Ha [[Ht Hs]|[r1 [Hs Hr1]]]].
  - subst t. rewrite Hs. apply parseNamedProperty_noDot, Ha.
  - assert (Hne : a <> EmptyString).
    { intros ->. simpl in Hs. rewrite Hname in Hs. inversion Hs; subst.
      vm_compute in Hc. discriminate. }
    destruct t as [|p t]; [exfalso; eapply segments_nonempty; eauto|].
    destruct (segments_inv r1 p t Hr1) as [Hp [[Ht Hs1]|[r2 [Hs1 Hr2]]]].
    + subst t r1. rewrite Hs. apply parseNamedProperty_two; assumption.
    + destruct t as [|u t]; [exfalso; eapply segments_nonempty; eauto|].
      destruct (segments_inv r2 u t Hr2) as [Hu [[Ht Hs2]|[r3 [Hs2 Hr3]]]].
      * subst t r2 r1. rewrite Hs. apply parseNamedProperty_three; assumption.
      * destruct t; [exfalso; eapply segments_nonempty; eauto|exact I].
Qed.

End StylingNames.

Lemma styling_name_property_and_unit_witness :
  isStylingName "style.width.px" = true
  /\ parseNamedProperty "style.width.px"
     = {| np_propertyName := "width"; np_unit := "px" |}
  /\ createHostBindingsFunction
       Sample.ext Sample.styledDirective "elIndex" (variable "ctx")
       (fst (splitHostAttributes Sample.ext Sample.styledDirective))
       (hostVarsCountOf Sample.styledDirective) []
     = Ok (Some (fn [ mkFnParam "rf" (Some (BuiltinType NUMBER_TYPE));
                      mkFnParam "ctx" None;
                      mkFnParam "elIndex" (Some (BuiltinType NUMBER_TYPE)) ]
                    [ renderFlagCheckIfStmt Sample.ext Create
                        [toStmt (InvokeFunctionExpr
                                   (ExternalExpr R3.elementStyling None None)
                                   [] None)];
                      renderFlagCheckIfStmt Sample.ext Update
                        [toStmt (InvokeFunctionExpr
                                   (ExternalExpr R3.elementStyleProp None
                                                 (Some tt))
                                   [ variable "elIndex"; strLit "width";
                                     prop (variable "ctx") "w"; strLit "px" ]
                                   (Some tt))] ]
                    (Some (BuiltinType INFERRED_TYPE))
                    (Some "Dir_HostBindings")),
           []).
Proof.
  split; [reflexivity|].
  destruct (styling_name_property_and_unit Sample.ext "style.width.px"
                                           eq_refl)
    as (Hparse & _ & _ & Hfunction).
  split; [exact Hparse|].
  destruct (Hfunction Sample.styledDirective "w" "w" tt "elIndex"
                      (variable "ctx") _ _ _ _ _ [] _ _
                      eq_refl (or_intror eq_refl) eq_refl eq_refl
                      (ex_intro _ _ (conj eq_refl eq_refl))
                      eq_refl eq_refl) as [_ Hf].
  exact Hf.
Defined.

(* ===================================================================== *)
(** ** Classification of host binding keys *)
(* ===================================================================== *)

Lemma spanNot_lacks c body : forall rest,
  lacks c body = true ->
  spanNot c (body ++ String c rest) = (body, String c rest).
Proof.
  induction body as [|a body IH]; simpl; intros rest H.
  - rewrite Ascii.eqb_refl. reflexivity.
  - apply andb_true_iff in H as [H1 H2]. apply negb_true_iff in H1.
    rewrite H1, IH by assumption. reflexivity.
Qed.

Lemma delimited_exact o c name rest :
  name <> EmptyString -> lacks c name = true ->
  delimited o c (String o (name ++ String c rest)) = Some name.
Proof.
  intros Hne Hl. unfold delimited. rewrite Ascii.eqb_refl.
  rewrite spanNot_lacks by assumption.
  destruct name; [congruence|]. rewrite Ascii.eqb_refl. reflexivity.
Qed.

Lemma delimited_first o c s g :
  delimited o c s = Some g -> exists r, s = String o r.
Proof.
  destruct s as [|a r]; simpl; [discriminate|].
  destruct (Ascii.eqb a o) eqn:E; [|discriminate].
  apply Ascii.eqb_eq in E; subst. eauto.
Qed.

Lemma allWordOrHyphen_no_at s :
  allWordOrHyphen s = true -> searchAnimation s = None.
Proof.
  induction s as [|a s IH]; simpl; intros H; [reflexivity|].
  apply andb_true_iff in H as [H1 H2].
  destruct (Ascii.eqb a "@") eqn:E.
  - apply Ascii.eqb_eq in E; subst. discriminate.
  - simpl. apply IH, H2.
Qed.

(** Every key is written to one of the four outputs. *)
Lemma classifyKey_total key : classifyKey key <> None.
Proof.
  unfold classifyKey, HOST_REG_EXP_match.
  destruct (delimited "[" "]" key); [discriminate|].
  destruct (delimited "(" ")" key); [discriminate|].
  destruct (searchAnimation key); discriminate.
Qed.

Lemma parseHostBinding_store acc key value :
  parseHostBinding acc (key, value) = store (classifyKey key) value acc.
Proof.
  unfold parseHostBinding, classifyKey.
  destruct (HOST_REG_EXP_match key) as [m|]; [|reflexivity].
  destruct (group1 m); [reflexivity|].
  destruct (group2 m); [reflexivity|].
  destruct (group3 m); reflexivity.
Qed.

Lemma has_define {V} (o : Js.Obj V) k v k' :
  Js.has (Js.define o k v) k' = String.eqb k k' || Js.has o k'.
Proof.
  unfold Js.has. induction o as [|[k0 v0] o IH]; simpl.
  - destruct (String.eqb k k'); reflexivity.
  - destruct (String.eqb k0 k) eqn:E0; simpl.
    + apply String.eqb_eq in E0; subst k0.
      destruct (String.eqb k k'); reflexivity.
    + destruct (String.eqb k0 k') eqn:E1; simpl.
      * destruct (String.eqb k k'); reflexivity.
      * exact IH.
Qed.

Lemma has_set {V} (o : Js.Obj V) k v k' :
  Js.has (Js.set o k v) k' = true <->
  Js.has o k' = true \/ (k = k' /\ k' <> "__proto__").
Proof.
  unfold Js.set. destruct (String.eqb k "__proto__") eqn:Ep.
  - apply String.eqb_eq in Ep. subst k. split; [now left|].
    intros [H|[<- H]]; [exact H|congruence].
  - apply String.eqb_neq in Ep.
    rewrite has_define, orb_true_iff, String.eqb_eq. split.
    + intros [<-|H]; [right; split; [reflexivity|exact Ep]|now left].
    + intros [H|[H _]]; [now right|now left].
Qed.

Lemma has_bucket_store b target value acc name :
  Js.has (bucket b (store target value acc)) name = true <->
  Js.has (bucket b acc) name = true
  \/ (target = Some (b, name) /\ name <> "__proto__").
Proof.
  destruct target as [[b' n]|]; simpl.
  - destruct b, b'; simpl; rewrite ?has_set; split; intros H;
      try (destruct H as [H|[H Hp]];
           [now left | right; split; [subst; reflexivity|exact Hp]]);
      try (destruct H as [H|[H Hp]];
           [now left | inversion H; subst; right; split;
                       [reflexivity|exact Hp]]);
      try (now left);
      try (destruct H as [H|[H _]]; [assumption | discriminate]).
  - split; [now left|intros [H|[H _]]; [assumption|discriminate]].
Qed.

Lemma has_bucket_fold host : forall acc b name,
  Js.has (bucket b (fold_left parseHostBinding host acc)) name = true <->
  Js.has (bucket b acc) name = true
  \/ (name <> "__proto__"
      /\ exists key value,
          In (key, value) host /\ classifyKey key = Some (b, name)).
Proof.
  induction host as [|[k v] host IH]; cbn [fold_left In]; intros acc b name.
  - split; [now left|intros [H|(_ & k & v & [] & _)]; assumption].
  - rewrite IH, parseHostBinding_store, has_bucket_store. split.
    + intros [[H|[H Hp]]|(Hp & k' & v' & Hin & Hc)].
      * now left.
      * right. split; [exact Hp|]. exists k, v. split; [now left|assumption].
      * right. split; [exact Hp|].
        exists k', v'. split; [now right|assumption].
    + intros [H|(Hp & k' & v' & [Heq|Hin] & Hc)].
      * left. now left.
      * inversion Heq; subst. left. right. split; assumption.
      * right. split; [exact Hp|]. exists k', v'. split; assumption.
Qed.

Lemma delimited_other_first o c a r :
  Ascii.eqb a o = false -> delimited o c (String a r) = None.
Proof. intros H. unfold delimited. rewrite H. reflexivity. Qed.

Lemma word_not_delimiter a :
  isWordOrHyphen a = true ->
  Ascii.eqb a "[" = false /\ Ascii.eqb a "(" = false /\ Ascii.eqb a "@" = false.
Proof.
  intros H. repeat split.
  all: destruct (Ascii.eqb a _) eqn:E; [|reflexivity].
  all: apply Ascii.eqb_eq in E; subst; discriminate.
Qed.

(** C2 (amended).  [parseHostBindings] assigns every key of the host map to
    exactly one of its four outputs ([classifyKey] is a function and never
    undefined): a key of the form [[name]] to the properties under [name], a
    key [(name)] to the listeners under [name], a key [@name] to the
    animations under [@name], and a plain attribute name (letters, digits, [_]
    and [-]) to the attributes under itself.  Each output holds exactly the
    names extracted from the keys of its class, except the name
    ['__proto__']: the outputs are filled by assignment, which stores nothing
    under that name, so no output ever has it. *)
Theorem host_keys_classified :
  (forall key, classifyKey key <> None)
  /\ (forall name, name <> EmptyString -> lacks "]" name = true ->
        classifyKey (String "[" (name ++ "]")) = Some (Properties, name))
  /\ (forall name, name <> EmptyString -> lacks ")" name = true ->
        classifyKey (String "(" (name ++ ")")) = Some (Listeners, name))
  /\ (forall name, name <> EmptyString -> allWordOrHyphen name = true ->
        classifyKey (String "@" name) = Some (Animations, String "@" name))
  /\ (forall key, allWordOrHyphen key = true ->
        classifyKey key = Some (Attributes, key))
  /\ (forall host b name,
        Js.has (bucket b (parseHostBindings host)) name = true <->
        name <> "__proto__"
        /\ exists key value,
            In (key, value) host /\ classifyKey key = Some (b, name))
  /\ (forall host b, Js.has (bucket b (parseHostBindings host)) "__proto__"
                     = false).
Proof.
  split; [exact classifyKey_total|].
  split.
  { intros name Hne Hl. unfold classifyKey, HOST_REG_EXP_match.
    rewrite delimited_exact by assumption. reflexivity. }
  split.
  { intros name Hne Hl. unfold classifyKey, HOST_REG_EXP_match.
    rewrite delimited_other_first by reflexivity.
    rewrite delimited_exact by assumption. reflexivity. }
  split.
  { intros name Hne Hw. unfold classifyKey, HOST_REG_EXP_match.
    rewrite !delimited_other_first by reflexivity.
    cbn [searchAnimation animationHere]. rewrite Ascii.eqb_refl, Hw.
    destruct name; [congruence|reflexivity]. }
  split.
  { intros key Hw. unfold classifyKey, HOST_REG_EXP_match.
    rewrite allWordOrHyphen_no_at by assumption.
    destruct key as [|a r]; [reflexivity|].
    simpl in Hw. apply andb_true_iff in Hw as [Ha _].
    destruct (word_not_delimiter a Ha) as (H1 & H2 & _).
    rewrite !delimited_other_first by assumption. reflexivity. }
  assert (Hhas : forall host b name,
             Js.has (bucket b (parseHostBindings host)) name = true <->
             name <> "__proto__"
             /\ exists key value,
                 In (key, value) host /\ classifyKey key = Some (b, name)).
  { intros host b name. unfold parseHostBindings.
    rewrite has_bucket_fold. split.
    - intros [H|H]; [destruct b; discriminate|assumption].
    - intros H. now right. }
  split; [exact Hhas|].
  intros host b.
  destruct (Js.has (bucket b (parseHostBindings host)) "__proto__") eqn:E;
    [|reflexivity].
  apply Hhas in E as [Hp _]. congruence.
Qed.

(** C2 as stated fails: the keys "[a]" and "(a)" put the name "a" into both
    the properties and the listeners, here with the same value, so the outputs
    are not pairwise disjoint, and no output has the input key "[a]". *)
Lemma host_outputs_share_names :
  let r := parseHostBindings [("[a]", "x"); ("(a)", "x")] in
  hb_properties r = [("a", "x")]
  /\ hb_listeners r = [("a", "x")]
  /\ ~ disjointKeys (hb_properties r) (hb_listeners r)
  /\ (forall b, Js.has (bucket b r) "[a]" = false).
Proof.
  split; [reflexivity|]. split; [reflexivity|]. split.
  - intros H. apply (H "a"). split; reflexivity.
  - intros b. destruct b; reflexivity.
Qed.

(* ===================================================================== *)
(** ** Host variables *)
(* ===================================================================== *)

Section HostVariables.

Context {AST SourceSpan Dep TemplateNodes CssSelector R3Selector Reference
         Pool : Type}.
Variable ext : @Collaborators AST SourceSpan Dep TemplateNodes CssSelector
                              R3Selector Reference Pool.












End HostVariables.

(** the sample value conversion asks for no slot *)
Lemma sample_requests_no_slots : requestsNoSlots Sample.ext.
Proof.
  split.
  - intros value total pool r pool' H. inversion H; subst. reflexivity.
  - intros styleBuilder total pool r pool' H. inversion H; subst. reflexivity.
Qed.



(* ===================================================================== *)
(** ** The definition map *)
(* ===================================================================== *)

Section DefinitionMaps.

Context {AST SourceSpan Dep TemplateNodes CssSelector R3Selector Reference
         Pool : Type}.
Variable ext : @Collaborators AST SourceSpan Dep TemplateNodes CssSelector
                              R3Selector Reference Pool.

Local Abbreviation DM := (@DefinitionMap SourceSpan).

Lemma DefinitionMap_set_entry (dm : DM) key value :
  DefinitionMap_set dm key value = dm ++ entry key value.
Proof. destruct value; simpl; [reflexivity|rewrite app_nil_r; reflexivity]. Qed.

Lemma field_app (a b : DM) key :
  field (a ++ b) key
  = match field a key with
    | Some v => Some v
    | None => field b key
    end.
Proof.
  induction a as [|[[k q] v] a IH]; simpl; [reflexivity|].
  destruct (String.eqb k key); [reflexivity|exact IH].
Qed.

Lemma field_entry k (v : option (@Expr SourceSpan)) key :
  field (entry k v) key = if String.eqb k key then v else None.
Proof.
  destruct v; simpl; destruct (String.eqb k key); reflexivity.
Qed.

Lemma fieldsAmong_absent names (dm : DM) key :
  fieldsAmong names dm -> ~ In key names -> field dm key = None.
Proof.
  induction 1 as [|[[k q] v] dm Hk _ IH]; simpl; intros Hn; [reflexivity|].
  destruct (String.eqb k key) eqn:E; [|exact (IH Hn)].
  apply String.eqb_eq in E; subst. contradiction.
Qed.

Lemma fieldsAmong_set names (dm : DM) key value :
  fieldsAmong names dm -> In key names ->
  fieldsAmong names (DefinitionMap_set dm key value).
Proof.
  intros H Hin. rewrite DefinitionMap_set_entry. apply Forall_app.
  split; [exact H|]. destruct value; simpl; constructor; [exact Hin|constructor].
Qed.

Lemma fieldsAmong_weaken names names' (dm : DM) :
  fieldsAmong names dm -> incl names names' -> fieldsAmong names' dm.
Proof.
  intros H Hi. eapply Forall_impl; [|exact H]. intros e He. apply Hi, He.
Qed.

(** the definition map that [baseDirectiveFields] returns, field by field *)
Lemma baseDirectiveFields_fields meta pool dm stmts pool' :
  baseDirectiveFields ext meta pool = Ok ((dm, stmts), pool') ->
  exists contentQueries hostBindings,
    dm = [ ("type", false, m_type meta);
           ("selectors", false, createDirectiveSelector ext (m_selector meta));
           ("factory", false,
            fst (compileFactoryFunction ext
                   {| f_name := m_name meta; f_type := m_type meta;
                      f_deps := m_deps meta;
                      f_injectFn := R3.directiveInject |})) ]
         ++ entry "contentQueries" contentQueries
         ++ entry "contentQueriesRefresh"
                  (createContentQueriesRefreshFunction ext meta)
         ++ entry "attributes"
                  (createHostAttributesArray
                     (snd (splitHostAttributes ext meta)))
         ++ entry "hostBindings" hostBindings
         ++ entry "inputs"
                  (conditionallyCreateMapObjectLiteral ext (m_inputs meta) true)
         ++ entry "outputs"
                  (conditionallyCreateMapObjectLiteral ext
                     (map (fun kv => (fst kv, Plain (snd kv)))
                          (m_outputs meta)) false)
         ++ entry "exportAs"
                  (match m_exportAs meta with
                   | Some exportAs => Some (strLit exportAs)
                   | None => None
                   end).
Proof.
  unfold baseDirectiveFields, bind.
  destruct (createContentQueriesFunction ext meta pool) as [[cq p1]|];
    [|discriminate].
  destruct (splitHostAttributes ext meta) as [sb others] eqn:Hsplit.
  destruct (createHostBindingsFunction ext meta _ _ sb _ p1) as [[hb p2]|];
    [|discriminate].
  intros H. inversion H; subst. exists cq, hb.
  rewrite !DefinitionMap_set_entry.
  destruct (m_exportAs meta);
    rewrite ?DefinitionMap_set_entry; simpl entry at 1;
    rewrite ?app_nil_r, <- ?app_assoc; reflexivity.
Qed.

Lemma named_in names key :
  existsb (String.eqb key) names = true -> In key names.
Proof.
  intros H. apply existsb_exists in H as (k & Hin & E).
  apply String.eqb_eq in E; subst. exact Hin.
Qed.

Lemma fieldsAmong_entry names key (value : option (@Expr SourceSpan)) :
  existsb (String.eqb key) names = true -> fieldsAmong names (entry key value).
Proof.
  intros H. destruct value; simpl; constructor;
    [apply named_in, H|constructor].
Qed.

Lemma fieldsAmong_app names (a b : DM) :
  fieldsAmong names a -> fieldsAmong names b -> fieldsAmong names (a ++ b).
Proof. intros Ha Hb. apply Forall_app; split; assumption. Qed.

Lemma baseDirectiveFields_among meta pool dm stmts pool' :
  baseDirectiveFields ext meta pool = Ok ((dm, stmts), pool') ->
  fieldsAmong baseFieldNames dm.
Proof.
  intros H. apply baseDirectiveFields_fields in H as (cq & hb & ->).
  repeat apply fieldsAmong_app;
    try (apply fieldsAmong_entry; reflexivity).
  repeat constructor; apply named_in; reflexivity.
Qed.

Lemma addFeatures_entry (dm : DM)
      (meta : @AnyMetadata SourceSpan Dep TemplateNodes) :
  addFeatures dm meta = dm ++ entry "features" (featuresField meta).
Proof.
  unfold addFeatures, featuresField. destruct (featuresOf meta); simpl;
    [rewrite app_nil_r|]; reflexivity.
Qed.

(** [compileComponentFromMetadata] keeps the fields of
    [baseDirectiveFields] and adds [features] and fields of its own after
    them. *)
Lemma componentFieldsBeforeStyles_fields meta pool dm stmts pool' :
  componentFieldsBeforeStyles ext meta pool = Ok ((dm, stmts), pool') ->
  exists base pool1 added,
    baseDirectiveFields ext (c_directive meta) pool
    = Ok ((base, stmts), pool1)
    /\ dm = base ++ entry "features" (featuresField (OfComponent meta))
                 ++ added
    /\ fieldsAmong componentFieldNames added.
Proof.
  unfold componentFieldsBeforeStyles, bind.
  destruct (baseDirectiveFields ext (c_directive meta) pool)
    as [[[base stmts0] p1]|] eqn:Hbase; [|discriminate].
  rewrite addFeatures_entry.
  set (features := entry "features" (featuresField (OfComponent meta))).
  match goal with
  | |- context [match ?c p1 with _ => _ end] =>
      destruct (c p1) as [[dm1 p2]|] eqn:H1; [|discriminate]
  end.
  assert (Hdm1 : exists a1, dm1 = base ++ features ++ a1
                            /\ fieldsAmong componentFieldNames a1).
  { assert (Hnil : fieldsAmong componentFieldNames
                               (@nil (string * bool * @Expr SourceSpan)))
      by constructor.
    destruct (match m_selector (c_directive meta) with
              | Some s => if Js.truthy s
                          then Some (CssSelector_parse ext s) else None
              | None => None
              end) as [[|first rest]|];
      try (inversion H1; subst; exists []; rewrite app_nil_r;
           split; [reflexivity|exact Hnil]).
    destruct (getAttrs ext first);
      try (inversion H1; subst; exists []; rewrite app_nil_r;
           split; [reflexivity|exact Hnil]).
    unfold bind in H1.
    destruct (getConstLiteral ext _ true p1) as [[attrs p]|]; [|discriminate].
    inversion H1; subst. rewrite ?DefinitionMap_set_entry, <- app_assoc.
    eexists; split; [reflexivity|].
    apply (fieldsAmong_entry _ "attrs" (Some attrs)); reflexivity. }
  destruct Hdm1 as (a1 & -> & Ha1).
  match goal with
  | |- context [match ?c p2 with _ => _ end] =>
      destruct (c p2) as [[dm2 p3]|] eqn:H2; [|discriminate]
  end.
  assert (Hdm2 : exists a2, dm2 = base ++ features ++ a2
                            /\ fieldsAmong componentFieldNames a2).
  { destruct (c_viewQueries meta).
    - inversion H2; subst. eauto.
    - unfold bind in H2.
      destruct (createViewQueriesFunction ext meta p2) as [[vq p]|];
        [|discriminate].
      inversion H2; subst. rewrite ?DefinitionMap_set_entry, <- !app_assoc.
      eexists; split; [reflexivity|].
      apply fieldsAmong_app;
        [exact Ha1
        |apply (fieldsAmong_entry _ "viewQuery" (Some vq)); reflexivity]. }
  destruct Hdm2 as (a2 & -> & Ha2).
  destruct (buildTemplateFunction ext _ _ p3) as [[built p4]|];
    [|discriminate].
  intros H. inversion H; subst. exists base, p1.
  destruct (tr_directivesUsed built), (tr_pipesUsed built);
    rewrite <- ?app_assoc;
    (eexists; split; [reflexivity|]; split; [reflexivity|]);
    repeat apply fieldsAmong_app; try exact Ha2;
    (apply Forall_cons; [apply named_in; reflexivity|apply Forall_nil]).
Qed.

Lemma componentFieldsBeforeStyles_encapsulation meta mode :
  componentFieldsBeforeStyles ext (set_encapsulation meta mode)
  = componentFieldsBeforeStyles ext meta.
Proof. reflexivity. Qed.

End DefinitionMaps.

(* ===================================================================== *)
(** ** Encapsulation and the metadata object *)
(* ===================================================================== *)

Section Encapsulation.

Context {AST SourceSpan Dep TemplateNodes CssSelector R3Selector Reference
         Pool : Type}.
Variable ext : @Collaborators AST SourceSpan Dep TemplateNodes CssSelector
                              R3Selector Reference Pool.

Lemma compileStylesAndEncapsulation_meta dm
      (meta : @R3ComponentMetadata SourceSpan Dep TemplateNodes) :
  snd (compileStylesAndEncapsulation ext dm meta)
  = set_encapsulation meta
      (Some (resolvedEncapsulation (c_encapsulation meta) (c_styles meta))).
Proof.
  destruct meta as [d t vq ds ps w styles enc an vp rel i18n cd].
  unfold compileStylesAndEncapsulation, resolvedEncapsulation,
    encapsulationIs, set_encapsulation; cbn.
  destruct enc as [[| | |]|], styles; reflexivity.
Qed.

Lemma compileStylesAndEncapsulation_downgrade dm
      (meta : @R3ComponentMetadata SourceSpan Dep TemplateNodes) :
  c_encapsulation meta = Some Emulated -> c_styles meta = [] ->
  compileStylesAndEncapsulation ext dm meta
  = (dm ++ [("encapsulation", false, literal (LEncapsulation EncNone))],
     set_encapsulation meta (Some EncNone)).
Proof.
  intros Henc Hstyles.
  destruct meta as [d t vq ds ps w styles enc an vp rel i18n cd].
  simpl in Henc, Hstyles. subst. reflexivity.
Qed.

Lemma compileStylesAndEncapsulation_none dm
      (meta : @R3ComponentMetadata SourceSpan Dep TemplateNodes) :
  c_styles meta = [] ->
  compileStylesAndEncapsulation ext dm (set_encapsulation meta (Some EncNone))
  = (dm ++ [("encapsulation", false, literal (LEncapsulation EncNone))],
     set_encapsulation meta (Some EncNone)).
Proof.
  intros Hstyles.
  destruct meta as [d t vq ds ps w styles enc an vp rel i18n cd].
  simpl in Hstyles. subst. reflexivity.
Qed.

Lemma componentFieldsAfterStyles_app (dm : @DefinitionMap SourceSpan)
      (meta : @R3ComponentMetadata SourceSpan Dep TemplateNodes)
      changeDetection :
  componentFieldsAfterStyles dm meta changeDetection
  = dm ++ (entry "data"
                 (match c_animations meta with
                  | Some animations =>
                      Some (literalMap [("animation", false, animations)])
                  | None => None
                  end)
           ++ entry "changeDetection"
                    (match changeDetection with
                     | Some OnPush => Some (literal (LChangeDetection OnPush))
                     | _ => None
                     end)).
Proof.
  unfold componentFieldsAfterStyles.
  destruct (c_animations meta), changeDetection as [[|]|]; simpl;
    rewrite <- ?app_assoc, ?app_nil_r; reflexivity.
Qed.

Lemma set_encapsulation_same
      (meta : @R3ComponentMetadata SourceSpan Dep TemplateNodes) mode :
  set_encapsulation meta mode = meta <-> c_encapsulation meta = mode.
Proof.
  split.
  - intros H. rewrite <- H. reflexivity.
  - intros <-. destruct meta; reflexivity.
Qed.

Lemma resolvedEncapsulation_same mode styles :
  mode = Some (resolvedEncapsulation mode styles) <->
  exists m, mode = Some m /\ (m = Emulated -> styles <> []).
Proof.
  unfold resolvedEncapsulation. split.
  - intros H. destruct mode as [m|]; [|discriminate]. exists m.
    split; [reflexivity|]. intros -> ->. discriminate.
  - intros (m & -> & Hm). destruct m, styles; try reflexivity.
    exfalso. apply Hm; reflexivity.
Qed.

Lemma compileStylesAndEncapsulation_resolved dm
      (meta : @R3ComponentMetadata SourceSpan Dep TemplateNodes) :
  compileStylesAndEncapsulation
    ext dm
    (set_encapsulation meta
       (Some (resolvedEncapsulation (c_encapsulation meta) (c_styles meta))))
  = compileStylesAndEncapsulation ext dm meta.
Proof.
  destruct meta as [d t vq ds ps w styles enc an vp rel i18n cd].
  unfold compileStylesAndEncapsulation, resolvedEncapsulation,
    encapsulationIs, set_encapsulation; cbn.
  destruct enc as [[| | |]|], styles; reflexivity.
Qed.

(** C9 (amended).  When [compileComponentFromMetadata] returns, the metadata
    object is the input with [encapsulation] replaced by the resolved mode:
    Emulated when none was set, and None instead of Emulated when there is no
    style.  The input is therefore left as it was exactly when its mode was
    set and was not Emulated without styles.  The write is idempotent:
    compiling the object again, from the same constant pool, returns the same
    definition and leaves the object as it is. *)
Theorem component_metadata_after_compile
        (meta : R3ComponentMetadata) pool def meta' pool'
        (Hrun : compileComponentFromMetadata ext meta pool
                = Ok ((def, meta'), pool')) :
  meta' = set_encapsulation meta
            (Some (resolvedEncapsulation (c_encapsulation meta)
                                         (c_styles meta)))
  /\ (meta' = meta <->
      exists mode,
        c_encapsulation meta = Some mode
        /\ (mode = Emulated -> c_styles meta <> []))
  /\ compileComponentFromMetadata ext meta' pool = Ok ((def, meta'), pool').
Proof.
  assert (Hmeta' : meta' = set_encapsulation meta
                             (Some (resolvedEncapsulation
                                      (c_encapsulation meta) (c_styles meta)))).
  { unfold compileComponentFromMetadata, bind in Hrun.
    destruct (componentFieldsBeforeStyles ext meta pool)
      as [[[dm stmts] p]|]; [|discriminate].
    pose proof (compileStylesAndEncapsulation_meta dm meta) as Hmeta.
    destruct (compileStylesAndEncapsulation ext dm meta) as [dm' m'].
    simpl in Hmeta. inversion Hrun; subst. reflexivity. }
  split; [exact Hmeta'|]. split.
  - rewrite Hmeta', set_encapsulation_same.
    rewrite <- resolvedEncapsulation_same. split; intros H; congruence.
  - rewrite <- Hrun. rewrite Hmeta' at 1.
    unfold compileComponentFromMetadata, bind.
    rewrite componentFieldsBeforeStyles_encapsulation.
    destruct (componentFieldsBeforeStyles ext meta pool)
      as [[[dm stmts] p]|]; [|reflexivity].
    rewrite compileStylesAndEncapsulation_resolved.
    destruct (compileStylesAndEncapsulation ext dm meta) as [dm' m'].
    reflexivity.
Qed.

(** C3 (amended).  A component with encapsulation Emulated and no style is
    compiled with the mode None: the definition has the field
    [encapsulation] with the literal None, and the call returns what it
    returns when None is passed explicitly with no style. *)
Theorem emulated_without_styles_is_none
        (meta : R3ComponentMetadata) pool
        (Hmode : c_encapsulation meta = Some Emulated)
        (Hstyles : c_styles meta = []) :
  compileComponentFromMetadata ext meta pool
  = compileComponentFromMetadata ext (set_encapsulation meta (Some EncNone))
                                 pool
  /\ forall def meta' pool',
      compileComponentFromMetadata ext meta pool = Ok ((def, meta'), pool') ->
      c_encapsulation meta' = Some EncNone
      /\ exists entries,
          definitionOf def = Some entries
          /\ field entries "encapsulation"
             = Some (literal (LEncapsulation EncNone)).
Proof.
  split.
  - unfold compileComponentFromMetadata, bind.
    rewrite componentFieldsBeforeStyles_encapsulation.
    destruct (componentFieldsBeforeStyles ext meta pool)
      as [[[dm stmts] p]|]; [|reflexivity].
    rewrite compileStylesAndEncapsulation_downgrade by assumption.
    rewrite compileStylesAndEncapsulation_none by assumption.
    reflexivity.
  - intros def meta' pool' Hrun.
    unfold compileComponentFromMetadata, bind in Hrun.
    destruct (componentFieldsBeforeStyles ext meta pool)
      as [[[dm stmts] p]|] eqn:Hbefore; [|discriminate].
    rewrite compileStylesAndEncapsulation_downgrade in Hrun by assumption.
    inversion Hrun; subst. split; [reflexivity|].
    eexists. split; [reflexivity|].
    apply componentFieldsBeforeStyles_fields in Hbefore
      as (base & p1 & added & Hbase & -> & Hadded).
    apply baseDirectiveFields_among in Hbase.
    rewrite componentFieldsAfterStyles_app, !field_app, field_entry.
    cbn [String.eqb Ascii.eqb Bool.eqb].
    rewrite (fieldsAmong_absent baseFieldNames base) by
        (try assumption; intros Hin; simpl in Hin;
         repeat (destruct Hin as [Hin|Hin]; [discriminate|]); exact Hin).
    rewrite (fieldsAmong_absent componentFieldNames added) by
        (try assumption; intros Hin; simpl in Hin;
         repeat (destruct Hin as [Hin|Hin]; [discriminate|]); exact Hin).
    reflexivity.
Qed.

End Encapsulation.

Lemma component_metadata_after_compile_witness :
  let meta := Sample.component Sample.emptyDirective None ["h1 {}"] in
  exists def meta',
    compileComponentFromMetadata Sample.ext meta [] = Ok ((def, meta'), [])
    /\ c_encapsulation meta = None
    /\ c_encapsulation meta' = Some Emulated
    /\ meta' <> meta
    /\ compileComponentFromMetadata Sample.ext meta' []
       = Ok ((def, meta'), []).
Proof.
  intros meta.
  assert (E : exists def meta',
             compileComponentFromMetadata Sample.ext meta []
             = Ok ((def, meta'), [])) by (vm_compute; eauto).
  destruct E as (def & meta' & E). exists def, meta'. split; [exact E|].
  destruct (component_metadata_after_compile Sample.ext meta [] def meta'
                                             [] E) as (Hmeta' & Hsame & Hagain).
  split; [reflexivity|]. split; [rewrite Hmeta'; reflexivity|].
  split; [|exact Hagain].
  intros Heq. apply Hsame in Heq as (mode & Hmode & _). discriminate Hmode.
Defined.

(** C9 as stated fails: compiling a component with encapsulation Emulated and
    no style leaves None in the [encapsulation] field of the metadata. *)
Lemma compile_overwrites_encapsulation :
  let meta := Sample.component Sample.emptyDirective (Some Emulated) [] in
  exists def meta',
    compileComponentFromMetadata Sample.ext meta [] = Ok ((def, meta'), [])
    /\ c_encapsulation meta = Some Emulated
    /\ c_encapsulation meta' = Some EncNone
    /\ meta' <> meta.
Proof.
  intros meta. eexists. eexists.
  split; [vm_compute; reflexivity|].
  split; [reflexivity|]. split; [reflexivity|]. discriminate.
Qed.

Lemma emulated_without_styles_is_none_witness :
  let meta := Sample.component Sample.emptyDirective (Some Emulated) [] in
  c_encapsulation meta = Some Emulated
  /\ c_styles meta = []
  /\ compileComponentFromMetadata Sample.ext meta []
     = compileComponentFromMetadata
         Sample.ext (Sample.component Sample.emptyDirective (Some EncNone) [])
         [].
Proof.
  intros meta. split; [reflexivity|]. split; [reflexivity|].
  exact (proj1 (emulated_without_styles_is_none Sample.ext meta []
                                                eq_refl eq_refl)).
Defined.

(** C3 as stated fails: with encapsulation Emulated and no style the
    definition carries the field [encapsulation], it is not omitted. *)
Lemma emulated_without_styles_emits_field :
  let meta := Sample.component Sample.emptyDirective (Some Emulated) [] in
  exists def meta' entries,
    compileComponentFromMetadata Sample.ext meta [] = Ok ((def, meta'), [])
    /\ definitionOf def = Some entries
    /\ field entries "encapsulation" = Some (literal (LEncapsulation EncNone))
    /\ field entries "encapsulation" <> None.
Proof.
  intros meta. eexists. eexists. eexists.
  split; [vm_compute; reflexivity|].
  split; [reflexivity|]. split; [reflexivity|]. discriminate.
Qed.

(* ===================================================================== *)
(** ** Features *)
(* ===================================================================== *)

Section Features.

Context {AST SourceSpan Dep TemplateNodes CssSelector R3Selector Reference
         Pool : Type}.
Variable ext : @Collaborators AST SourceSpan Dep TemplateNodes CssSelector
                              R3Selector Reference Pool.

Lemma not_a_base_field key :
  existsb (String.eqb key) baseFieldNames = false -> ~ In key baseFieldNames.
Proof.
  intros H Hin. assert (existsb (String.eqb key) baseFieldNames = true).
  { apply existsb_exists. exists key. split; [exact Hin|apply String.eqb_refl]. }
  congruence.
Qed.

Lemma not_a_component_field key :
  existsb (String.eqb key) componentFieldNames = false ->
  ~ In key componentFieldNames.
Proof.
  intros H Hin. assert (existsb (String.eqb key) componentFieldNames = true).
  { apply existsb_exists. exists key. split; [exact Hin|apply String.eqb_refl]. }
  congruence.
Qed.

(** the definition of a directive: the base fields, then [features] *)
Lemma compileDirectiveFromMetadata_fields meta pool def pool' :
  compileDirectiveFromMetadata ext meta pool = Ok (def, pool') ->
  exists base stmts,
    baseDirectiveFields ext meta pool = Ok ((base, stmts), pool')
    /\ definitionOf def
       = Some (base ++ entry "features"
                             (featuresField
                                (@OfDirective SourceSpan Dep TemplateNodes
                                              meta))).
Proof.
  unfold compileDirectiveFromMetadata, bind.
  destruct (baseDirectiveFields ext meta pool) as [[[base stmts] p]|];
    [|discriminate].
  intros H. inversion H; subst. exists base, stmts.
  split; [reflexivity|]. simpl. rewrite addFeatures_entry. reflexivity.
Qed.

Lemma compileStylesAndEncapsulation_app (dm : @DefinitionMap SourceSpan)
      (meta : @R3ComponentMetadata SourceSpan Dep TemplateNodes) :
  exists styles encapsulation,
    fst (compileStylesAndEncapsulation ext dm meta)
    = dm ++ entry "styles" styles ++ entry "encapsulation" encapsulation.
Proof.
  destruct meta as [d t vq ds ps w styles enc an vp rel i18n cd].
  unfold compileStylesAndEncapsulation, encapsulationIs; cbn.
  destruct enc as [[| | |]|], styles; cbn;
    rewrite ?DefinitionMap_set_entry, <- ?app_assoc;
    first [ exists None, None; rewrite app_nil_r; reflexivity
          | eexists (Some _), None; reflexivity
          | exists None; eexists (Some _); reflexivity
          | eexists (Some _); eexists (Some _); reflexivity ].
Qed.

(** the definition of a component: the base fields, [features], and the
    fields of the component *)
Lemma compileComponentFromMetadata_fields meta pool def meta' pool' :
  compileComponentFromMetadata ext meta pool = Ok ((def, meta'), pool') ->
  exists base stmts pool1 added,
    baseDirectiveFields ext (c_directive meta) pool
    = Ok ((base, stmts), pool1)
    /\ definitionOf def
       = Some (base ++ entry "features" (featuresField (OfComponent meta))
                    ++ added)
    /\ fieldsAmong (componentFieldNames
                      ++ ["styles"; "encapsulation"; "data"; "changeDetection"])
                   added.
Proof.
  unfold compileComponentFromMetadata, bind.
  destruct (componentFieldsBeforeStyles ext meta pool)
    as [[[dm stmts] p]|] eqn:Hbefore; [|discriminate].
  apply componentFieldsBeforeStyles_fields in Hbefore
    as (base & p1 & added & Hbase & -> & Hadded).
  destruct (compileStylesAndEncapsulation ext _ meta) as [dm' m'] eqn:Hs.
  assert (Hdm' : exists more,
             dm' = (base ++ entry "features"
                                  (featuresField (OfComponent meta))
                         ++ added) ++ more
             /\ fieldsAmong ["styles"; "encapsulation"] more).
  { pose proof (compileStylesAndEncapsulation_app
                  (base ++ entry "features"
                                 (featuresField (OfComponent meta))
                        ++ added) meta) as (s & e & Happ).
    rewrite Hs in Happ. simpl in Happ. subst dm'.
    eexists. split; [reflexivity|].
    apply fieldsAmong_app; apply fieldsAmong_entry; reflexivity. }
  destruct Hdm' as (more & -> & Hmore). clear Hs.
  unfold ret. intros H. inversion H; subst. exists base, stmts, p1.
  cbn [definitionOf def_expression callFn toLiteralMap literalMap].
  rewrite componentFieldsAfterStyles_app.
  eexists. split; [exact Hbase|]. split.
  - rewrite <- !app_assoc. reflexivity.
  - repeat apply fieldsAmong_app.
    + eapply fieldsAmong_weaken; [exact Hadded|].
      intros k Hk. apply in_or_app. now left.
    + eapply fieldsAmong_weaken; [exact Hmore|].
      intros k Hk. apply in_or_app. right. simpl in *. tauto.
    + apply fieldsAmong_entry; reflexivity.
    + apply fieldsAmong_entry; reflexivity.
Qed.

(** C4 (amended).  The [features] field of a definition is the composition,
    in this order, of the providers feature (only if providers or
    viewProviders is present; viewProviders, whenever it is present, is the
    second argument, after providers or, when providers is absent, after an
    empty array literal), the inheritance feature (only if
    [usesInheritance]) and the on-changes feature (only if the lifecycle
    flag is set); the field is omitted when the list is empty. *)
Theorem features_in_order
        (meta : @AnyMetadata SourceSpan Dep TemplateNodes) :
  featuresOf meta
  = expectedFeatures (m_providers (directivePart meta))
                     (viewProvidersOf meta)
                     (m_usesInheritance (directivePart meta))
                     (m_usesOnChanges (directivePart meta))
  /\ (forall dm,
        addFeatures dm meta = dm ++ entry "features" (featuresField meta))
  /\ (featuresField meta = None <-> featuresOf meta = [])
  /\ (forall features,
        featuresField meta = Some features ->
        features = literalArr (featuresOf meta))
  /\ (forall d pool def pool',
        meta = OfDirective d ->
        compileDirectiveFromMetadata ext d pool = Ok (def, pool') ->
        exists entries,
          definitionOf def = Some entries
          /\ field entries "features" = featuresField meta)
  /\ (forall c pool def meta' pool',
        meta = OfComponent c ->
        compileComponentFromMetadata ext c pool = Ok ((def, meta'), pool') ->
        exists entries,
          definitionOf def = Some entries
          /\ field entries "features" = featuresField meta).
Proof.
  split.
  { unfold featuresOf, expectedFeatures, providersFeature.
    destruct (m_providers (directivePart meta)), (viewProvidersOf meta),
      (m_usesInheritance (directivePart meta)),
      (m_usesOnChanges (directivePart meta)); reflexivity. }
  split; [intros dm; apply addFeatures_entry|].
  split.
  { unfold featuresField. destruct (featuresOf meta);
      split; intros H; try reflexivity; discriminate. }
  split.
  { unfold featuresField. intros features H.
    destruct (featuresOf meta); inversion H; reflexivity. }
  split.
  - intros d pool def pool' -> Hrun.
    apply compileDirectiveFromMetadata_fields in Hrun
      as (base & stmts & Hbase & Hdef).
    eexists. split; [exact Hdef|].
    apply baseDirectiveFields_among in Hbase.
    rewrite field_app, field_entry.
    rewrite (fieldsAmong_absent baseFieldNames base)
      by (try assumption; apply not_a_base_field; reflexivity).
    reflexivity.
  - intros c pool def meta' pool' -> Hrun.
    apply compileComponentFromMetadata_fields in Hrun
      as (base & stmts & p1 & added & Hbase & Hdef & Hadded).
    eexists. split; [exact Hdef|].
    apply baseDirectiveFields_among in Hbase.
    rewrite !field_app, field_entry.
    rewrite (fieldsAmong_absent baseFieldNames base)
      by (try assumption; apply not_a_base_field; reflexivity).
    rewrite (fieldsAmong_absent _ added "features" Hadded).
    + cbn. destruct (featuresField _); reflexivity.
    + intros Hin. simpl in Hin.
      repeat (destruct Hin as [Hin|Hin]; [discriminate|]). exact Hin.
Qed.

End Features.

(** two directives with [usesInheritance] and [usesOnChanges]: the inheritance
    feature comes before the on-changes feature *)
Example features_of_inheriting_directive :
  forall d : @R3DirectiveMetadata Datatypes.unit Datatypes.unit,
    m_providers d = None -> m_usesInheritance d = true ->
    m_usesOnChanges d = true ->
    featuresOf (@OfDirective Datatypes.unit Datatypes.unit Datatypes.unit d)
    = [importExpr R3.InheritDefinitionFeature;
       importExpr R3.NgOnChangesFeature].
Proof.
  intros d Hp Hi Hc. unfold featuresOf. simpl. rewrite Hp, Hi, Hc. reflexivity.
Qed.

(** C4 as stated fails: viewProviders is attached although no providers are:
    an empty array literal takes their place. *)
Lemma viewProviders_without_providers :
  let meta := OfComponent Sample.componentWithViewProviders in
  m_providers (directivePart meta) = None
  /\ viewProvidersOf meta = Some (variable "vp")
  /\ featuresOf meta
     = [callFn (importExpr R3.ProvidersFeature)
               [LiteralArrayExpr []; variable "vp"]].
Proof. repeat split. Qed.

(* ===================================================================== *)
(** ** Content queries *)
(* ===================================================================== *)

Section ContentQueries.

Context {AST SourceSpan Dep TemplateNodes CssSelector R3Selector Reference
         Pool : Type}.
Variable ext : @Collaborators AST SourceSpan Dep TemplateNodes CssSelector
                              R3Selector Reference Pool.

Lemma expressionStatements_app (a b : list (@Stmt SourceSpan)) :
  expressionStatements (a ++ b)
  = expressionStatements a ++ expressionStatements b.
Proof.
  induction a as [|s a IH]; simpl; [reflexivity|].
  destruct s; simpl; rewrite IH; reflexivity.
Qed.

Lemma refreshQuery_statements query idx statements declared :
  expressionStatements
    (fst (refreshQuery ext (variable "instance") query idx
                       (statements, declared)))
  = expressionStatements statements
    ++ [refreshExpression (TEMPORARY_NAME ext) (q_propertyName query)
                          (q_first query) idx].
Proof.
  unfold refreshQuery, temporary.
  destruct declared; cbn; rewrite !expressionStatements_app; cbn;
    rewrite ?app_nil_r; destruct (q_first query); reflexivity.
Qed.

Lemma refreshQueries_statements queries : forall idx st,
  expressionStatements
    (fst (refreshQueries ext (variable "instance") queries idx st))
  = expressionStatements (fst st) ++ refreshExpressions (TEMPORARY_NAME ext) queries idx.
Proof.
  induction queries as [|query rest IH]; intros idx [statements declared];
    cbn [refreshQueries refreshExpressions].
  - rewrite app_nil_r. reflexivity.
  - rewrite IH.
    destruct (refreshQuery ext (variable "instance") query idx
                           (statements, declared)) as [s d] eqn:E.
    pose proof (refreshQuery_statements query idx statements declared) as H.
    rewrite E in H. cbn [fst] in *. rewrite H, <- app_assoc. reflexivity.
Qed.

Lemma refreshExpressions_nth (queries : list (@R3QueryMetadata SourceSpan)) :
  forall idx k query,
  nth_error queries k = Some query ->
  nth_error (refreshExpressions (TEMPORARY_NAME ext) queries idx) k
  = Some (refreshExpression (TEMPORARY_NAME ext) (q_propertyName query)
                            (q_first query) (idx + k)).
Proof.
  induction queries as [|q rest IH]; intros idx k query H.
  - destruct k; discriminate.
  - destruct k as [|k]; cbn in *.
    + inversion H; subst. rewrite Nat.add_0_r. reflexivity.
    + rewrite (IH (S idx) k query H), Nat.add_succ_r. reflexivity.
Qed.

Lemma refreshExpressions_length (queries : list (@R3QueryMetadata SourceSpan)) :
  forall idx,
  length (refreshExpressions (TEMPORARY_NAME ext) queries idx) = length queries.
Proof.
  induction queries as [|q rest IH]; intros idx; cbn;
    [reflexivity|rewrite IH; reflexivity].
Qed.

Lemma queryListIndex_value (start : Z) k :
  indexValue (SourceSpan := SourceSpan) start (queryListIndex k)
  = Some (start + Z.of_nat k)%Z.
Proof.
  unfold queryListIndex. destruct k as [|k].
  - cbn. rewrite Z.add_0_r. reflexivity.
  - reflexivity.
Qed.

(** C5.  For directive metadata with at least one query, the content-queries
    refresh function declares [instance] as the loaded directive and holds,
    for the query at declaration position k, the statement that loads the
    query list at index queryStartIndex + k, calls the refresh primitive on
    it, and assigns to the property [propertyName] of the instance the
    [.first] element when [first] is set and the full list otherwise. *)
Theorem content_queries_refresh (meta : R3DirectiveMetadata)
        (Hqueries : m_queries meta <> []) :
  exists statements,
    createContentQueriesRefreshFunction ext meta
    = Some (fn [ mkFnParam "dirIndex" (Some (BuiltinType NUMBER_TYPE));
                 mkFnParam "queryStartIndex"
                           (Some (BuiltinType NUMBER_TYPE)) ]
               statements (Some (BuiltinType INFERRED_TYPE))
               (suffixedName (m_name meta) "_ContentQueriesRefresh"))
    /\ In (DeclareVarStmt "instance"
             (Some (callFn (importExpr R3.load) [variable "dirIndex"]))
             (Some (BuiltinType INFERRED_TYPE)) [Final])
          statements
    /\ length (expressionStatements statements) = length (m_queries meta)
    /\ forall k query,
        nth_error (m_queries meta) k = Some query ->
        nth_error (expressionStatements statements) k
        = Some (BinaryOperatorExpr And
                  (callFn (importExpr R3.queryRefresh)
                     [WriteVarExpr (TEMPORARY_NAME ext)
                        (callFn (importExpr R3.loadQueryList)
                                [queryListIndex k])])
                  (WritePropExpr (variable "instance")
                     (q_propertyName query)
                     (if q_first query
                      then ReadPropExpr (variable (TEMPORARY_NAME ext))
                                        "first"
                      else variable (TEMPORARY_NAME ext))))
        /\ forall start,
            indexValue start (@queryListIndex SourceSpan k)
            = Some (start + Z.of_nat k)%Z.
Proof.
  unfold createContentQueriesRefreshFunction.
  destruct (m_queries meta) as [|q0 rest] eqn:Hq; [congruence|].
  cbn [length Nat.ltb Nat.leb].
  match goal with
  | |- context [refreshQueries ext ?i ?qs 0 ?st] =>
      pose proof (refreshQueries_statements qs 0 st) as Hstmts;
      assert (Hin : In (DeclareVarStmt "instance"
                          (Some (callFn (importExpr R3.load)
                                        [variable "dirIndex"]))
                          (Some (BuiltinType INFERRED_TYPE)) [Final])
                       (fst (refreshQueries ext i qs 0 st)));
      [|destruct (refreshQueries ext i qs 0 st) as [statements declared]]
  end.
  { clear Hstmts.
    assert (Hkeep : forall qs idx st x,
               In x (fst st) ->
               In x (fst (refreshQueries ext (variable "instance") qs idx st))).
    { induction qs as [|q qs IH]; intros idx [s d] x Hx; [exact Hx|].
      cbn [refreshQueries]. apply IH.
      unfold refreshQuery, temporary. destruct d; cbn in *;
        repeat (apply in_or_app; left); exact Hx. }
    apply Hkeep. left. reflexivity. }
  cbn [fst] in *. exists statements.
  split; [reflexivity|]. split; [exact Hin|].
  rewrite Hstmts. cbn [expressionStatements toDeclStmt set variable app].
  split; [apply refreshExpressions_length|].
  intros k query Hk. split; [|intros start; apply queryListIndex_value].
  rewrite (refreshExpressions_nth _ 0 k query Hk). reflexivity.
Qed.

End ContentQueries.

Lemma content_queries_refresh_witness :
  m_queries Sample.itemsDirective <> []
  /\ exists statements,
      createContentQueriesRefreshFunction Sample.ext Sample.itemsDirective
      = Some (fn [ mkFnParam "dirIndex" (Some (BuiltinType NUMBER_TYPE));
                   mkFnParam "queryStartIndex"
                             (Some (BuiltinType NUMBER_TYPE)) ]
                 statements (Some (BuiltinType INFERRED_TYPE))
                 (Some "Dir_ContentQueriesRefresh"))
      /\ nth_error (expressionStatements statements) 0
         = Some (BinaryOperatorExpr And
                   (callFn (importExpr R3.queryRefresh)
                      [WriteVarExpr "_t"
                         (callFn (importExpr R3.loadQueryList)
                                 [variable "queryStartIndex"])])
                   (WritePropExpr (variable "instance") "items"
                                  (variable "_t"))).
Proof.
  assert (Hne : m_queries Sample.itemsDirective <> []) by (cbn; discriminate).
  split; [exact Hne|].
  destruct (content_queries_refresh Sample.ext Sample.itemsDirective Hne)
    as (statements & Hfn & _ & _ & Hnth).
  exists statements. split; [exact Hfn|].
  exact (proj1 (Hnth 0 Sample.itemsQuery eq_refl)).
Defined.

(* ===================================================================== *)
(** ** Inputs and outputs *)
(* ===================================================================== *)

Section InputsOutputs.

Context {AST SourceSpan Dep TemplateNodes CssSelector R3Selector Reference
         Pool : Type}.
Variable ext : @Collaborators AST SourceSpan Dep TemplateNodes CssSelector
                              R3Selector Reference Pool.

(** the fields of the base that a directive or a component definition
    keeps: the fields added later have other names *)
Lemma base_field_kept (base added : @DefinitionMap SourceSpan) names key :
  fieldsAmong names added -> ~ In key names ->
  field (base ++ added) key = field base key.
Proof.
  intros Hadded Hkey. rewrite field_app.
  rewrite (fieldsAmong_absent names added key Hadded Hkey).
  destruct (field base key); reflexivity.
Qed.

Lemma directive_keeps_base_field meta pool def pool' key :
  compileDirectiveFromMetadata ext meta pool = Ok (def, pool') ->
  existsb (String.eqb key) ["features"] = false ->
  exists base stmts entries,
    baseDirectiveFields ext meta pool = Ok ((base, stmts), pool')
    /\ definitionOf def = Some entries
    /\ field entries key = field base key.
Proof.
  intros Hrun Hkey.
  apply compileDirectiveFromMetadata_fields in Hrun
    as (base & stmts & Hbase & Hdef).
  exists base, stmts. eexists. split; [exact Hbase|]. split; [exact Hdef|].
  apply (base_field_kept _ _ ["features"]).
  - apply fieldsAmong_entry. reflexivity.
  - intros Hin. assert (existsb (String.eqb key) ["features"] = true);
      [|congruence].
    apply existsb_exists. exists key. split; [exact Hin|apply String.eqb_refl].
Qed.

Lemma component_keeps_base_field meta pool def meta' pool' key :
  compileComponentFromMetadata ext meta pool = Ok ((def, meta'), pool') ->
  existsb (String.eqb key)
          ("features"
             :: componentFieldNames
             ++ ["styles"; "encapsulation"; "data"; "changeDetection"])
  = false ->
  exists base stmts pool1 entries,
    baseDirectiveFields ext (c_directive meta) pool
    = Ok ((base, stmts), pool1)
    /\ definitionOf def = Some entries
    /\ field entries key = field base key.
Proof.
  intros Hrun Hkey.
  apply compileComponentFromMetadata_fields in Hrun
    as (base & stmts & p1 & added & Hbase & Hdef & Hadded).
  exists base, stmts, p1. eexists.
  split; [exact Hbase|]. split; [exact Hdef|].
  apply (base_field_kept _ _
           ("features"
              :: componentFieldNames
              ++ ["styles"; "encapsulation"; "data"; "changeDetection"])).
  - apply fieldsAmong_app.
    + apply fieldsAmong_entry. reflexivity.
    + eapply fieldsAmong_weaken; [exact Hadded|].
      intros k Hk. right. exact Hk.
  - intros Hin.
    assert (existsb (String.eqb key)
                    ("features"
                       :: componentFieldNames
                       ++ ["styles"; "encapsulation"; "data";
                           "changeDetection"]) = true); [|congruence].
    apply existsb_exists. exists key. split; [exact Hin|apply String.eqb_refl].
Qed.

(** C7 (amended).  The field [inputs], like the field [outputs], is emitted
    only for a non-empty map.  This holds for the base fields and for the
    directive and component definitions built on them. *)
Theorem inputs_and_outputs_when_present
        (meta : R3DirectiveMetadata) pool base stmts pool1
        (Hbase : baseDirectiveFields ext meta pool
                 = Ok ((base, stmts), pool1)) :
  field base "inputs"
  = match m_inputs meta with
    | [] => None
    | inputs => Some (mapToExpression ext inputs true)
    end
  /\ field base "outputs"
     = match m_outputs meta with
       | [] => None
       | outputs =>
           Some (mapToExpression ext
                   (map (fun kv => (fst kv, Plain (snd kv))) outputs) false)
       end
  /\ (forall def pool',
        compileDirectiveFromMetadata ext meta pool = Ok (def, pool') ->
        exists entries,
          definitionOf def = Some entries
          /\ field entries "inputs" = field base "inputs"
          /\ field entries "outputs" = field base "outputs")
  /\ (forall cmeta def meta' pool',
        c_directive cmeta = meta ->
        compileComponentFromMetadata ext cmeta pool
        = Ok ((def, meta'), pool') ->
        exists entries,
          definitionOf def = Some entries
          /\ field entries "inputs" = field base "inputs"
          /\ field entries "outputs" = field base "outputs").
Proof.
  pose proof (baseDirectiveFields_fields ext meta pool base stmts pool1 Hbase)
    as (cq & hb & Hfields).
  split.
  { rewrite Hfields, !field_app, !field_entry. cbn.
    destruct (m_inputs meta); reflexivity. }
  split.
  { rewrite Hfields, !field_app, !field_entry. cbn.
    destruct (m_inputs meta), (m_outputs meta); reflexivity. }
  split.
  - intros def pool' Hrun.
    destruct (directive_keeps_base_field meta pool def pool' "inputs" Hrun
                                         eq_refl)
      as (b1 & s1 & entries & Hb1 & Hdef & Hin).
    destruct (directive_keeps_base_field meta pool def pool' "outputs" Hrun
                                         eq_refl)
      as (b2 & s2 & entries2 & Hb2 & Hdef2 & Hout).
    rewrite Hbase in Hb1, Hb2. inversion Hb1; inversion Hb2; subst.
    rewrite Hdef in Hdef2. inversion Hdef2; subst.
    exists entries2. repeat split; assumption.
  - intros cmeta def meta' pool' Hc Hrun. subst meta.
    destruct (component_keeps_base_field cmeta pool def meta' pool' "inputs"
                                         Hrun eq_refl)
      as (b1 & s1 & p1 & entries & Hb1 & Hdef & Hin).
    destruct (component_keeps_base_field cmeta pool def meta' pool' "outputs"
                                         Hrun eq_refl)
      as (b2 & s2 & p2 & entries2 & Hb2 & Hdef2 & Hout).
    rewrite Hbase in Hb1, Hb2. inversion Hb1; inversion Hb2; subst.
    rewrite Hdef in Hdef2. inversion Hdef2; subst.
    exists entries2. repeat split; assumption.
Qed.

End InputsOutputs.

Lemma inputs_and_outputs_when_present_witness :
  exists base stmts,
    baseDirectiveFields Sample.ext Sample.fooDirective [] = Ok ((base, stmts), [])
    /\ field base "inputs" = Some (literalMap [("foo", false, strLit "foo")])
    /\ field base "outputs" = None.
Proof.
  assert (E : exists base stmts,
             baseDirectiveFields Sample.ext Sample.fooDirective []
             = Ok ((base, stmts), [])) by (vm_compute; eauto).
  destruct E as (base & stmts & E). exists base, stmts.
  destruct (inputs_and_outputs_when_present Sample.ext Sample.fooDirective
                                            [] base stmts [] E)
    as (Hin & Hout & _).
  split; [exact E|]. split; [exact Hin|exact Hout].
Defined.

(** C7 as stated fails: for an empty inputs map the field [inputs] is
    omitted. *)
Lemma empty_inputs_are_omitted :
  m_inputs Sample.emptyDirective = []
  /\ exists base stmts,
      baseDirectiveFields Sample.ext Sample.emptyDirective []
      = Ok ((base, stmts), [])
      /\ field base "inputs" = None.
Proof.
  split; [reflexivity|]. eexists. eexists.
  split; [vm_compute; reflexivity|reflexivity].
Qed.

(* ===================================================================== *)
(** ** Static host attributes *)
(* ===================================================================== *)

Section HostAttributes.

Context {AST SourceSpan Dep TemplateNodes CssSelector R3Selector Reference
         Pool : Type}.
Variable ext : @Collaborators AST SourceSpan Dep TemplateNodes CssSelector
                              R3Selector Reference Pool.

Lemma define_fresh {V} (o : Js.Obj V) k v :
  Js.get o k = None -> Js.define o k v = o ++ [(k, v)].
Proof.
  induction o as [|[k0 v0] o IH]; simpl; intros H; [reflexivity|].
  destruct (String.eqb k0 k); [discriminate|]. rewrite IH by assumption.
  reflexivity.
Qed.

Lemma set_fresh {V} (o : Js.Obj V) k v :
  k <> "__proto__" -> Js.get o k = None -> Js.set o k v = o ++ [(k, v)].
Proof.
  intros Hp H. unfold Js.set. apply String.eqb_neq in Hp. rewrite Hp.
  apply define_fresh, H.
Qed.

Lemma get_app {V} (a b : Js.Obj V) k :
  Js.get (a ++ b) k
  = match Js.get a k with
    | Some v => Some v
    | None => Js.get b k
    end.
Proof.
  induction a as [|[k0 v0] a IH]; simpl; [reflexivity|].
  destruct (String.eqb k0 k); [reflexivity|exact IH].
Qed.







End HostAttributes.



(* ===================================================================== *)
(** ** Query predicates from legacy selector tokens *)
(* ===================================================================== *)

Section QueryPredicates.

Context {AST SourceSpan Dep TemplateNodes CssSelector R3Selector Reference
         Pool : Type}.
Variable ext : @Collaborators AST SourceSpan Dep TemplateNodes CssSelector
                              R3Selector Reference Pool.

Lemma all_strings_no_type (strings : list string) :
  forallb Js.truthy strings = true ->
  existsb (fun value => negb (Js.truthyOpt value)) (map Some strings) = false.
Proof.
  induction strings as [|s rest IH]; simpl; intros H; [reflexivity|].
  apply andb_true_iff in H as [Hs Hrest]. rewrite Hs, IH by assumption.
  reflexivity.
Qed.

Lemma string_literals (strings : list string) :
  map (fun value : option string =>
         match value with
         | Some s => @strLit SourceSpan s
         | None => literal LUndefined
         end) (map Some strings)
  = map strLit strings.
Proof. rewrite map_map. reflexivity. Qed.

(** C8 (amended).  Two or more selectors whose string values are all
    non-empty, or one selector with a non-empty string value: the string
    array is pooled as a constant literal.  One selector with a type
    reference and no string value: the type expression is used.  Any other
    shape of one selector, and the empty list, throws "Unexpected query
    form"; among two or more selectors, one whose string value is missing or
    empty throws "Found a type among the string selectors expected". *)
Theorem query_predicate_resolution :
  (forall (selectors : list (@CompileTokenMetadata Reference)) strings pool,
      map tok_value selectors = map Some strings ->
      forallb Js.truthy strings = true ->
      1 <= length selectors ->
      selectorsFromGlobalMetadata ext selectors pool
      = getConstLiteral ext (literalArr (map strLit strings)) false pool)
  /\ (forall (first : @CompileTokenMetadata Reference) reference pool,
         Js.truthyOpt (tok_value first) = false ->
         tok_identifier first = Some reference ->
         selectorsFromGlobalMetadata ext [first] pool
         = Ok (outputCtx_importExpr ext reference, pool))
  /\ (forall pool,
         selectorsFromGlobalMetadata ext [] pool
         = Thrown "Unexpected query form")
  /\ (forall (first : @CompileTokenMetadata Reference) pool,
         Js.truthyOpt (tok_value first) = false ->
         tok_identifier first = None ->
         selectorsFromGlobalMetadata ext [first] pool
         = Thrown "Unexpected query form")
  /\ (forall (selectors : list (@CompileTokenMetadata Reference)) pool,
         2 <= length selectors ->
         existsb (fun t => negb (Js.truthyOpt (tok_value t))) selectors = true ->
         selectorsFromGlobalMetadata ext selectors pool
         = Thrown "Found a type among the string selectors expected").
Proof.
  split.
  { intros selectors strings pool Hvalues Hstrings Hlen.
    unfold selectorsFromGlobalMetadata.
    assert (Hcond : ((1 <? length selectors)%nat
                     || match selectors with
                        | [first] => Js.truthyOpt (tok_value first)
                        | _ => false
                        end) = true).
    { destruct selectors as [|t [|t' rest]]; [simpl in Hlen; lia| |reflexivity].
      destruct strings as [|s [|s' strings]]; try discriminate.
      simpl in Hvalues, Hstrings. inversion Hvalues as [Hv].
      rewrite Hv. simpl. rewrite andb_true_r in Hstrings. exact Hstrings. }
    rewrite Hcond, Hvalues, all_strings_no_type, string_literals
      by assumption.
    reflexivity. }
  split.
  { intros first reference pool Hvalue Hid.
    unfold selectorsFromGlobalMetadata. cbn. rewrite Hvalue, Hid.
    reflexivity. }
  split; [reflexivity|].
  split.
  { intros first pool Hvalue Hid.
    unfold selectorsFromGlobalMetadata. cbn. rewrite Hvalue, Hid.
    reflexivity. }
  intros selectors pool Hlen Htype.
  unfold selectorsFromGlobalMetadata.
  destruct selectors as [|t [|t' rest]]; [simpl in Hlen; lia..|].
  change ((1 <? length (t :: t' :: rest))%nat) with true. cbn [orb].
  assert (Hsome : existsb (fun value => negb (Js.truthyOpt value))
                          (map tok_value (t :: t' :: rest)) = true).
  { revert Htype. generalize (t :: t' :: rest). intros l.
    induction l as [|x l IH]; simpl; [discriminate|].
    destruct (negb (Js.truthyOpt (tok_value x))); [reflexivity|exact IH]. }
  rewrite Hsome. reflexivity.
Qed.

End QueryPredicates.

(** one selector of each shape *)
Example query_predicate_shapes :
  let str := {| tok_value := Some "app-item"; tok_identifier := None |} in
  let typ := {| tok_value := None; tok_identifier := Some "Item" |} in
  let neither := {| tok_value := None; tok_identifier := @None string |} in
  selectorsFromGlobalMetadata Sample.ext [str] []
  = Ok (literalArr [strLit "app-item"], [literalArr [strLit "app-item"]])
  /\ selectorsFromGlobalMetadata Sample.ext [typ] [] = Ok (variable "Item", [])
  /\ selectorsFromGlobalMetadata Sample.ext [neither] []
     = Thrown "Unexpected query form"
  /\ selectorsFromGlobalMetadata Sample.ext [str; typ] []
     = Thrown "Found a type among the string selectors expected".
Proof. repeat split. Qed.

(** C8 as stated fails: two string selectors, one of them the empty string,
    are not pooled; the conversion throws, although no selector is a type. *)
Lemma empty_string_selector_is_rejected :
  let item := {| tok_value := Some "app-item"; tok_identifier := @None string |} in
  let empty := {| tok_value := Some ""; tok_identifier := @None string |} in
  map tok_value [item; empty] = map Some ["app-item"; ""]
  /\ selectorsFromGlobalMetadata Sample.ext [item; empty] []
     = Thrown "Found a type among the string selectors expected"
  /\ selectorsFromGlobalMetadata Sample.ext [item; empty] []
     <> getConstLiteral Sample.ext
          (literalArr [strLit "app-item"; strLit ""]) false [].
Proof.
  intros item empty. split; [reflexivity|]. split; [reflexivity|].
  discriminate.
Qed.

(* ===================================================================== *)
(** ** Further properties: names of bindings *)
(* ===================================================================== *)

(** X1.  [parseNamedProperty] splits at the first and at the last dot: what
    lies between them is the property, dots included, and what follows the
    last dot is the unit. *)
Theorem parseNamedProperty_first_and_last_dot (a middle u : string)
        (Ha : a <> EmptyString) (Hdot : noDot a = true) (Hu : noDot u = true) :
  parseNamedProperty (a ++ String "." (middle ++ String "." u))
  = {| np_propertyName := middle; np_unit := u |}.
Proof.
  unfold parseNamedProperty, Js.indexOf, Js.lastIndexOf.
  rewrite indexOfFrom_first by assumption.
  replace (a ++ String "." (middle ++ String "." u))%string
    with ((a ++ String "." middle) ++ String "." u)%string
    by (rewrite app_assoc_str; reflexivity).
  rewrite lastIndexOfFrom_last by assumption.
  assert (0 < Js.len a)%Z
    by (destruct a as [|x a']; [congruence|
        rewrite len_cons; pose proof (len_nonneg a'); lia]).
  pose proof (len_nonneg middle).
  replace (0 <? 0 + Js.len a)%Z with true by (symmetry; apply Z.ltb_lt; lia).
  rewrite len_append, len_cons.
  replace (0 + (Js.len a + (1 + Js.len middle)) =? 0 + Js.len a)%Z with false
    by (symmetry; apply Z.eqb_neq; lia).
  simpl negb. cbv iota. f_equal.
  - rewrite app_assoc_str. simpl String.append.
    replace (0 + Js.len a + 1)%Z with (Js.len a + 1)%Z by lia.
    replace (0 + (Js.len a + (1 + Js.len middle)))%Z
      with (Js.len a + 1 + Js.len middle)%Z by lia.
    apply js_substring_middle.
  - replace (0 + (Js.len a + (1 + Js.len middle)) + 1)%Z
      with (Js.len (a ++ String "." middle) + 1)%Z
      by (rewrite len_append, len_cons; lia).
    apply js_substring_tail.
Qed.

Lemma parseNamedProperty_first_and_last_dot_witness :
  parseNamedProperty "style.a.b.px"
  = {| np_propertyName := "a.b"; np_unit := "px" |}.
Proof.
  refine (parseNamedProperty_first_and_last_dot "style" "a.b" "px" _ eq_refl
                                                eq_refl).
  discriminate.
Defined.

(** X2.  A name that begins with a dot is parsed like a name without a dot:
    the property and the unit are empty. *)
Theorem parseNamedProperty_leading_dot (name : string)
        (Hname : noDot name = true \/ exists rest, name = String "." rest) :
  parseNamedProperty name = {| np_propertyName := ""; np_unit := "" |}.
Proof.
  destruct Hname as [H|[rest ->]]; [apply parseNamedProperty_noDot, H|].
  reflexivity.
Qed.

Lemma parseNamedProperty_leading_dot_witness :
  parseNamedProperty ".width.px" = {| np_propertyName := ""; np_unit := "" |}.
Proof.
  apply parseNamedProperty_leading_dot. right. exists "width.px". reflexivity.
Defined.

Lemma split_at_last_dot rest :
  noDot rest = false ->
  exists middle u,
    rest = (middle ++ String "." u)%string /\ noDot u = true.
Proof.
  induction rest as [|c rest IH]; simpl; intros H; [discriminate|].
  destruct (noDot rest) eqn:Hrest.
  - rewrite andb_true_r in H. apply negb_false_iff in H.
    apply Ascii.eqb_eq in H. subst c. exists EmptyString, rest.
    split; [reflexivity|exact Hrest].
  - destruct (IH eq_refl) as (middle & u & -> & Hu).
    exists (String c middle), u. split; [reflexivity|exact Hu].
Qed.

(** X3.  Round trip: for a name with a non-empty first segment, what follows
    the first dot is the parsed property, followed by a dot and the parsed unit
    when there is a further dot; the unit never contains a dot. *)
Theorem parseNamedProperty_rejoin (a rest : string)
        (Ha : a <> EmptyString) (Hdot : noDot a = true) :
  let parsed := parseNamedProperty (a ++ String "." rest) in
  rest = (if noDot rest then np_propertyName parsed
          else np_propertyName parsed ++ String "." (np_unit parsed))%string
  /\ noDot (np_unit parsed) = true
  /\ (noDot rest = true -> np_unit parsed = EmptyString).
Proof.
  cbv zeta. destruct (noDot rest) eqn:Hrest.
  - rewrite parseNamedProperty_two by assumption. simpl. auto.
  - destruct (split_at_last_dot rest Hrest) as (middle & u & -> & Hu).
    rewrite parseNamedProperty_first_and_last_dot by assumption. simpl.
    repeat split; [exact Hu|discriminate].
Qed.

Lemma parseNamedProperty_rejoin_witness :
  let parsed := parseNamedProperty "style.width.px" in
  "width.px" = (np_propertyName parsed ++ String "." (np_unit parsed))%string.
Proof.
  assert (Ha : "style" <> EmptyString) by discriminate.
  exact (proj1 (parseNamedProperty_rejoin "style" "width.px" Ha eq_refl)).
Defined.

(* ===================================================================== *)
(** ** Further properties: host binding keys *)
(* ===================================================================== *)

Lemma spanNot_split c s : forall body rest,
  spanNot c s = (body, rest) ->
  s = (body ++ rest)%string /\ lacks c body = true.
Proof.
  induction s as [|a s IH]; simpl; intros body rest H.
  - inversion H; subst. split; reflexivity.
  - destruct (Ascii.eqb a c) eqn:E.
    + inversion H; subst. split; reflexivity.
    + destruct (spanNot c s) as [b r]. inversion H; subst.
      destruct (IH b rest eq_refl) as [-> Hl]. split; [reflexivity|].
      simpl. rewrite E, Hl. reflexivity.
Qed.

Lemma delimited_shape o c key name :
  delimited o c key = Some name ->
  exists rest,
    key = String o (name ++ String c rest)
    /\ name <> EmptyString /\ lacks c name = true.
Proof.
  unfold delimited. destruct key as [|a r]; [discriminate|].
  destruct (Ascii.eqb a o) eqn:Ea; [|discriminate].
  apply Ascii.eqb_eq in Ea. subst a.
  destruct (spanNot c r) as [body rest] eqn:Hspan.
  destruct body as [|b body]; [discriminate|].
  destruct rest as [|x rest]; [discriminate|].
  destruct (Ascii.eqb x c) eqn:Ex; [|discriminate].
  apply Ascii.eqb_eq in Ex. subst x. intros H. inversion H; subst.
  apply spanNot_split in Hspan as [-> Hl].
  exists rest. repeat split; [discriminate|exact Hl].
Qed.

(** X4.  A key is a property binding exactly when it begins with [[name]],
    and, failing that, an event listener exactly when it begins with
    [(name)], for a non-empty [name] without the closing delimiter; whatever
    follows the closing delimiter is ignored. *)
Theorem bracketed_keys (key name : string) :
  (classifyKey key = Some (Properties, name) <->
   exists rest,
     key = String "[" (name ++ String "]" rest)
     /\ name <> EmptyString /\ lacks "]" name = true)
  /\ (classifyKey key = Some (Listeners, name) <->
      exists rest,
        key = String "(" (name ++ String ")" rest)
        /\ name <> EmptyString /\ lacks ")" name = true).
Proof.
  split; split.
  - unfold classifyKey, HOST_REG_EXP_match.
    destruct (delimited "[" "]" key) as [g|] eqn:Hd.
    + simpl. intros H. inversion H; subst. apply delimited_shape, Hd.
    + destruct (delimited "(" ")" key); [discriminate|].
      destruct (searchAnimation key); discriminate.
  - intros (rest & -> & Hne & Hl). unfold classifyKey, HOST_REG_EXP_match.
    rewrite delimited_exact by assumption. reflexivity.
  - unfold classifyKey, HOST_REG_EXP_match.
    destruct (delimited "[" "]" key) as [g|] eqn:Hd; [discriminate|].
    destruct (delimited "(" ")" key) as [g|] eqn:Hp.
    + simpl. intros H. inversion H; subst. apply delimited_shape, Hp.
    + destruct (searchAnimation key); discriminate.
  - intros (rest & -> & Hne & Hl). unfold classifyKey, HOST_REG_EXP_match.
    rewrite delimited_other_first by reflexivity.
    rewrite delimited_exact by assumption. reflexivity.
Qed.

Lemma allWordOrHyphen_app_at pre w :
  allWordOrHyphen (pre ++ String "@" w) = false.
Proof.
  induction pre as [|c pre IH]; simpl; [reflexivity|].
  rewrite IH. apply andb_false_r.
Qed.

Lemma searchAnimation_suffix pre w :
  w <> EmptyString -> allWordOrHyphen w = true ->
  searchAnimation (pre ++ String "@" w) = Some (String "@" w).
Proof.
  intros Hne Hw. induction pre as [|c pre IH].
  - cbn [String.append searchAnimation animationHere].
    rewrite Ascii.eqb_refl, Hw. destruct w; [congruence|reflexivity].
  - cbn [String.append searchAnimation animationHere].
    rewrite allWordOrHyphen_app_at, andb_false_r. exact IH.
Qed.

(** X5.  A key that does not begin with an opening bracket or parenthesis and
    ends with [@name] is an animation trigger, whatever precedes the [@]; it
    is written under [@name]. *)
Theorem animation_suffix_keys (pre w : string)
        (Hpre : startsWithDelimiter (pre ++ String "@" w) = false)
        (Hne : w <> EmptyString) (Hw : allWordOrHyphen w = true) :
  classifyKey (pre ++ String "@" w) = Some (Animations, String "@" w).
Proof.
  unfold classifyKey, HOST_REG_EXP_match.
  assert (Hd : forall c, (c = "["%char \/ c = "("%char) ->
                         forall c', delimited c c' (pre ++ String "@" w) = None).
  { intros c Hc c'. unfold startsWithDelimiter in Hpre.
    destruct (pre ++ String "@" w)%string as [|a r]; [reflexivity|].
    apply orb_false_iff in Hpre as [H1 H2].
    apply delimited_other_first. destruct Hc; subst; assumption. }
  rewrite (Hd "["%char (or_introl eq_refl)), (Hd "("%char (or_intror eq_refl)).
  rewrite searchAnimation_suffix by assumption. reflexivity.
Qed.

Lemma animation_suffix_keys_witness :
  classifyKey "pre@fade" = Some (Animations, "@fade")
  /\ hb_animations (parseHostBindings [("pre@fade", "open")])
     = [("@fade", "open")].
Proof.
  assert (Hne : "fade" <> EmptyString) by discriminate.
  split; [exact (animation_suffix_keys "pre" "fade" eq_refl Hne eq_refl)|].
  reflexivity.
Defined.

Lemma searchAnimation_inv s : forall g,
  searchAnimation s = Some g ->
  exists pre w,
    s = (pre ++ String "@" w)%string /\ w <> EmptyString
    /\ allWordOrHyphen w = true /\ g = String "@" w.
Proof.
  induction s as [|a s IH]; intros g H; [discriminate|].
  cbn [searchAnimation] in H.
  destruct (animationHere (String a s)) as [g0|] eqn:Hhere.
  - inversion H; subst g0. unfold animationHere in Hhere.
    destruct (Ascii.eqb a "@") eqn:Ea; [|discriminate].
    destruct (Js.truthy s) eqn:Ht; [|discriminate].
    destruct (allWordOrHyphen s) eqn:Hw; [|discriminate].
    apply Ascii.eqb_eq in Ea. subst a. inversion Hhere; subst g.
    exists EmptyString, s. repeat split; try assumption.
    intros ->. discriminate.
  - destruct (IH g H) as (pre & w & -> & Hne & Hw & ->).
    exists (String a pre), w. repeat split; assumption.
Qed.

(** X6.  A key is kept as a static attribute, under the key itself, exactly
    when it is none of the three other forms: it does not begin with
    [[name]] or with [(name)], and it does not end with [@name]. *)
Theorem attribute_keys (key : string) :
  classifyKey key = Some (Attributes, key) <->
  (forall name rest,
      name <> EmptyString -> lacks "]" name = true ->
      key <> String "[" (name ++ String "]" rest))
  /\ (forall name rest,
         name <> EmptyString -> lacks ")" name = true ->
         key <> String "(" (name ++ String ")" rest))
  /\ (forall pre w,
         w <> EmptyString -> allWordOrHyphen w = true ->
         key <> (pre ++ String "@" w)%string).
Proof.
  split.
  - intros H. repeat split.
    + intros name rest Hne Hl ->. revert H.
      unfold classifyKey, HOST_REG_EXP_match.
      rewrite delimited_exact by assumption. discriminate.
    + intros name rest Hne Hl ->. revert H.
      unfold classifyKey, HOST_REG_EXP_match.
      rewrite delimited_other_first by reflexivity.
      rewrite delimited_exact by assumption. discriminate.
    + intros pre w Hne Hw ->. revert H.
      unfold classifyKey, HOST_REG_EXP_match.
      destruct (delimited "[" "]" _); [discriminate|].
      destruct (delimited "(" ")" _); [discriminate|].
      rewrite searchAnimation_suffix by assumption. discriminate.
  - intros (Hprop & Hev & Hanim).
    unfold classifyKey, HOST_REG_EXP_match.
    destruct (delimited "[" "]" key) as [g|] eqn:Hd.
    { apply delimited_shape in Hd as (rest & Hk & Hne & Hl).
      exfalso. exact (Hprop g rest Hne Hl Hk). }
    destruct (delimited "(" ")" key) as [g|] eqn:Hp.
    { apply delimited_shape in Hp as (rest & Hk & Hne & Hl).
      exfalso. exact (Hev g rest Hne Hl Hk). }
    destruct (searchAnimation key) as [g|] eqn:Hs; [|reflexivity].
    apply searchAnimation_inv in Hs as (pre & w & Hk & Hne & Hw & _).
    exfalso. exact (Hanim pre w Hne Hw Hk).
Qed.

Lemma get_set_same {V} (o : Js.Obj V) k v :
  k <> "__proto__" -> Js.get (Js.set o k v) k = Some v.
Proof.
  intros Hp. unfold Js.set. apply String.eqb_neq in Hp. rewrite Hp.
  induction o as [|[k0 v0] o IH]; simpl.
  - rewrite String.eqb_refl. reflexivity.
  - destruct (String.eqb k0 k) eqn:E; simpl; rewrite E; [reflexivity|exact IH].
Qed.

Lemma get_set_other {V} (o : Js.Obj V) k v k' :
  k <> k' -> Js.get (Js.set o k v) k' = Js.get o k'.
Proof.
  intros Hne. unfold Js.set.
  destruct (String.eqb k "__proto__"); [reflexivity|].
  induction o as [|[k0 v0] o IH]; simpl.
  - apply String.eqb_neq in Hne. rewrite Hne. reflexivity.
  - destruct (String.eqb k0 k) eqn:E; simpl.
    + apply String.eqb_eq in E. subst k0.
      apply String.eqb_neq in Hne. rewrite Hne. reflexivity.
    + destruct (String.eqb k0 k'); [reflexivity|exact IH].
Qed.

Lemma get_bucket_store_same b name value acc :
  name <> "__proto__" ->
  Js.get (bucket b (store (Some (b, name)) value acc)) name = Some value.
Proof. intros Hp. destruct b; simpl; apply get_set_same, Hp. Qed.

Lemma get_bucket_store_other b name target value acc :
  target <> Some (b, name) ->
  Js.get (bucket b (store target value acc)) name = Js.get (bucket b acc) name.
Proof.
  intros Hne. destruct target as [[b' n]|]; [|reflexivity].
  destruct b, b'; simpl; try reflexivity;
    apply get_set_other; intros ->; apply Hne; reflexivity.
Qed.

Lemma get_bucket_fold_other b name post : forall acc,
  (forall key value, In (key, value) post ->
                     classifyKey key <> Some (b, name)) ->
  Js.get (bucket b (fold_left parseHostBinding post acc)) name
  = Js.get (bucket b acc) name.
Proof.
  induction post as [|[k v] post IH]; intros acc H; [reflexivity|].
  cbn [fold_left]. rewrite IH.
  - rewrite parseHostBinding_store. apply get_bucket_store_other.
    apply (H k v). now left.
  - intros key value Hin. apply (H key value). now right.
Qed.

(** X7.  The last write wins: the value under a name other than
    ['__proto__'] in an output of [parseHostBindings] is the value of the
    last key of the host map that is written to that output under that name.
    Under the name ['__proto__'] an output holds nothing, whatever the host
    map is. *)
Theorem host_binding_last_write_wins
        (pre post : Js.Obj string) (key value : string) (b : Bucket)
        (name : string)
        (Hkey : classifyKey key = Some (b, name))
        (Hpost : forall key' value', In (key', value') post ->
                                     classifyKey key' <> Some (b, name)) :
  (name <> "__proto__" ->
   Js.get (bucket b (parseHostBindings (pre ++ (key, value) :: post))) name
   = Some value)
  /\ forall host b',
      Js.get (bucket b' (parseHostBindings host)) "__proto__" = None.
Proof.
  split.
  - intros Hp. unfold parseHostBindings. rewrite fold_left_app.
    cbn [fold_left].
    rewrite get_bucket_fold_other by assumption.
    rewrite parseHostBinding_store, Hkey.
    apply get_bucket_store_same, Hp.
  - intros host b'.
    assert (Hfold : forall acc,
               Js.get (bucket b' acc) "__proto__" = None ->
               Js.get (bucket b' (fold_left parseHostBinding host acc))
                      "__proto__" = None).
    { induction host as [|[k v] host IH]; intros acc Hacc; [exact Hacc|].
      cbn [fold_left]. apply IH. rewrite parseHostBinding_store.
      destruct (classifyKey k) as [[b0 n]|]; [|exact Hacc].
      destruct (String.eqb n "__proto__") eqn:E.
      - apply String.eqb_eq in E. subst n.
        destruct b0, b'; simpl; unfold Js.set; simpl; exact Hacc.
      - apply String.eqb_neq in E.
        destruct b0, b'; simpl; try exact Hacc;
          rewrite get_set_other by exact E; exact Hacc. }
    unfold parseHostBindings. apply Hfold. destruct b'; reflexivity.
Qed.

Lemma host_binding_last_write_wins_witness :
  Js.get (hb_properties
            (parseHostBindings [("[title]", "a"); ("[title]x", "b");
                                ("role", "c")])) "title"
  = Some "b"
  /\ Js.get (hb_properties (parseHostBindings [("[__proto__]", "a")]))
            "__proto__"
     = None.
Proof.
  assert (Hpost : forall key' value',
             In (key', value') [("role", "c")] ->
             classifyKey key' <> Some (Properties, "title")).
  { intros key' value' [H|[]]. inversion H; subst. discriminate. }
  pose proof (host_binding_last_write_wins [("[title]", "a")] [("role", "c")]
                                           "[title]x" "b" Properties "title"
                                           eq_refl Hpost) as [Hlast Hproto].
  split.
  - apply Hlast. discriminate.
  - exact (Hproto [("[__proto__]", "a")] Properties).
Defined.

Lemma parseHostBindings_attributes_fold host : forall acc,
  NoDup (Js.keys host) ->
  (forall key, In key (Js.keys host) ->
               classifyKey key = Some (Attributes, key)) ->
  (forall key, In key (Js.keys host) -> Js.get (hb_attributes acc) key = None) ->
  fold_left parseHostBinding host acc
  = {| hb_attributes :=
         hb_attributes acc
         ++ filter (fun kv => negb (String.eqb (fst kv) "__proto__")) host;
       hb_listeners := hb_listeners acc;
       hb_properties := hb_properties acc;
       hb_animations := hb_animations acc |}.
Proof.
  induction host as [|[k v] host IH]; intros acc Hnd Hplain Hfresh.
  - simpl. rewrite app_nil_r. destruct acc; reflexivity.
  - simpl in Hnd. inversion Hnd as [|? ? Hk Hrest]; subst.
    cbn [fold_left filter fst]. rewrite parseHostBinding_store.
    rewrite (Hplain k) by (now left). cbn [store].
    destruct (String.eqb k "__proto__") eqn:Ep.
    + unfold Js.set. rewrite Ep. cbn [negb].
      rewrite IH; cbn [hb_attributes hb_listeners hb_properties hb_animations].
      * reflexivity.
      * exact Hrest.
      * intros key Hin. apply Hplain. now right.
      * intros key Hin. apply Hfresh. now right.
    + cbn [negb].
      rewrite set_fresh;
        [|apply String.eqb_neq, Ep|apply Hfresh; now left].
      rewrite IH; cbn [hb_attributes hb_listeners hb_properties hb_animations].
      * rewrite <- app_assoc. reflexivity.
      * exact Hrest.
      * intros key Hin. apply Hplain. now right.
      * intros key Hin. rewrite get_app, Hfresh by (now right). simpl.
        destruct (String.eqb k key) eqn:E; [|reflexivity].
        apply String.eqb_eq in E. subst. contradiction.
Qed.

(** X8.  A host map whose keys are all static attributes comes back as the
    attributes, in the same order, without the key ['__proto__'] when it has
    one (assignment stores nothing under that name); the other three outputs
    are empty.  So a host map of static attributes without that key comes
    back unchanged. *)
Theorem static_attributes_pass_through (host : Js.Obj string)
        (Hkeys : NoDup (Js.keys host))
        (Hplain : forall key, In key (Js.keys host) ->
                              classifyKey key = Some (Attributes, key)) :
  parseHostBindings host
  = {| hb_attributes :=
         filter (fun kv => negb (String.eqb (fst kv) "__proto__")) host;
       hb_listeners := []; hb_properties := []; hb_animations := [] |}
  /\ (~ In "__proto__" (Js.keys host) ->
      hb_attributes (parseHostBindings host) = host).
Proof.
  assert (H : parseHostBindings host
              = {| hb_attributes :=
                     filter (fun kv => negb (String.eqb (fst kv) "__proto__"))
                            host;
                   hb_listeners := []; hb_properties := [];
                   hb_animations := [] |}).
  { unfold parseHostBindings.
    rewrite parseHostBindings_attributes_fold; try assumption; reflexivity. }
  split; [exact H|]. intros Hno. rewrite H. cbn [hb_attributes].
  clear H Hkeys Hplain. induction host as [|[k v] host IH]; [reflexivity|].
  cbn [filter fst]. destruct (String.eqb k "__proto__") eqn:E.
  - apply String.eqb_eq in E. subst k. exfalso. apply Hno. now left.
  - cbn [negb]. rewrite IH; [reflexivity|].
    intros Hin. apply Hno. now right.
Qed.

Lemma static_attributes_pass_through_witness :
  parseHostBindings [("role", "listbox"); ("__proto__", "x");
                     ("aria-label", "y")]
  = {| hb_attributes := [("role", "listbox"); ("aria-label", "y")];
       hb_listeners := []; hb_properties := []; hb_animations := [] |}.
Proof.
  refine (proj1 (static_attributes_pass_through
                   [("role", "listbox"); ("__proto__", "x");
                    ("aria-label", "y")] _ _)).
  - repeat constructor; simpl; intros H;
      repeat (destruct H as [H|H]; [discriminate|]); exact H.
  - intros key [<-|[<-|[<-|[]]]]; reflexivity.
Defined.

(* ===================================================================== *)
(** ** Further properties: styling prefixes and attribute bindings *)
(* ===================================================================== *)

Lemma substring_0_app p rest :
  String.substring 0 (String.length p) (p ++ rest) = p.
Proof.
  induction p as [|c p IH]; simpl.
  - destruct rest; reflexivity.
  - rewrite IH. reflexivity.
Qed.

Lemma substring_0_prefix n : forall s,
  exists rest, s = (String.substring 0 n s ++ rest)%string.
Proof.
  induction n as [|n IH]; intros s.
  - exists s. destruct s; reflexivity.
  - destruct s as [|c s]; [exists EmptyString; reflexivity|].
    destruct (IH s) as [rest Hr]. exists rest. simpl. rewrite <- Hr.
    reflexivity.
Qed.

Lemma substring_0_length n : forall s,
  String.length (String.substring 0 n s) = Nat.min n (String.length s).
Proof.
  induction n as [|n IH]; intros s.
  - destruct s; reflexivity.
  - destruct s as [|c s]; [reflexivity|]. simpl. rewrite IH. reflexivity.
Qed.

Lemma toLowerCase_length s :
  String.length (Js.toLowerCase s) = String.length s.
Proof. induction s; simpl; congruence. Qed.

Lemma js_substring_0 s n :
  (0 <= n)%Z ->
  Js.substring s 0 n
  = String.substring 0 (Nat.min (Z.to_nat n) (String.length s)) s.
Proof.
  intros Hn. unfold Js.substring, Js.clamp, Js.len.
  replace (Z.min (Z.max 0 (Z.min 0 (Z.of_nat (String.length s))))
                 (Z.max 0 (Z.min n (Z.of_nat (String.length s)))))
    with 0%Z by lia.
  replace (Z.max (Z.max 0 (Z.min 0 (Z.of_nat (String.length s))))
                 (Z.max 0 (Z.min n (Z.of_nat (String.length s)))) - 0)%Z
    with (Z.min n (Z.of_nat (String.length s))) by lia.
  f_equal. lia.
Qed.

Lemma getStylingPrefix_app p rest :
  String.length p = 5 -> getStylingPrefix (p ++ rest) = Js.toLowerCase p.
Proof.
  intros Hp. unfold getStylingPrefix. rewrite js_substring_0 by lia.
  rewrite length_app, Hp.
  replace (Nat.min (Z.to_nat 5) (5 + String.length rest)) with (String.length p)
    by (rewrite Hp; lia).
  rewrite substring_0_app. reflexivity.
Qed.

Lemma getStylingPrefix_inv name prefix :
  String.length prefix = 5 -> getStylingPrefix name = prefix ->
  exists p rest,
    name = (p ++ rest)%string /\ String.length p = 5
    /\ Js.toLowerCase p = prefix.
Proof.
  intros Hlen H. unfold getStylingPrefix in H.
  rewrite js_substring_0 in H by lia.
  set (k := Nat.min (Z.to_nat 5) (String.length name)) in H.
  destruct (substring_0_prefix k name) as [rest Hrest].
  exists (String.substring 0 k name), rest.
  split; [exact Hrest|]. split; [|exact H].
  rewrite <- Hlen, <- H, toLowerCase_length. reflexivity.
Qed.

(** X9.  Only the first five characters of a host property name decide
    whether it is a styling binding, and their letter case does not matter:
    a name is a styling name (and is not counted as a host variable) exactly
    when it is at least five characters long and its first five, lower-cased,
    are 'style' or 'class'. *)
Theorem styling_names_by_first_five (name : string) :
  isStylingName name = true <->
  exists p rest,
    name = (p ++ rest)%string /\ String.length p = 5
    /\ (Js.toLowerCase p = "style" \/ Js.toLowerCase p = "class").
Proof.
  unfold isStylingName, allocatesHostVar. split.
  - intros H. apply negb_true_iff, andb_false_iff in H.
    destruct H as [H|H]; apply negb_false_iff, String.eqb_eq in H;
      apply getStylingPrefix_inv in H as (p & rest & Hn & Hp & Hl);
      try reflexivity; exists p, rest; auto.
  - intros (p & rest & -> & Hp & Hl).
    rewrite getStylingPrefix_app by assumption.
    destruct Hl as [-> | ->]; reflexivity.
Qed.

Section BindingNames.

Context {SourceSpan : Type}.

Lemma stripPrefix_app p s : stripPrefix p (p ++ s) = Some s.
Proof.
  induction p as [|c p IH]; simpl; [reflexivity|].
  rewrite Ascii.eqb_refl. exact IH.
Qed.

Lemma spanNot_all c body : lacks c body = true -> spanNot c body = (body, EmptyString).
Proof.
  induction body as [|a body IH]; simpl; intros H; [reflexivity|].
  apply andb_true_iff in H as [H1 H2]. apply negb_true_iff in H1.
  rewrite H1, IH by assumption. reflexivity.
Qed.

Lemma stripPrefix_inv p : forall s r,
  stripPrefix p s = Some r -> s = (p ++ r)%string.
Proof.
  induction p as [|a p IH]; intros s r H.
  - simpl in H. inversion H. reflexivity.
  - destruct s as [|b s]; [discriminate|]. simpl in H.
    destruct (Ascii.eqb a b) eqn:E; [|discriminate].
    apply Ascii.eqb_eq in E. subst b. simpl. f_equal. apply IH, H.
Qed.

Lemma attrHere_noDot s : noDot s = true -> attrHere s = None.
Proof.
  unfold attrHere. intros H.
  destruct (stripPrefix "attr." s) as [r|] eqn:Hs; [|reflexivity].
  apply stripPrefix_inv in Hs. subst s. simpl in H. discriminate.
Qed.

Lemma ATTR_REGEX_match_noDot s : noDot s = true -> ATTR_REGEX_match s = None.
Proof.
  induction s as [|c s IH]; intros H.
  - reflexivity.
  - cbn [ATTR_REGEX_match]. rewrite attrHere_noDot by assumption.
    simpl in H. apply andb_true_iff in H as [_ H]. apply IH, H.
Qed.

(** X10.  A host property named [attr.x] is written with the
    [elementAttribute] instruction under the name [x] and with no further
    argument; the name ends before the first closing bracket.  A host
    property whose name has no dot is written with [elementProperty] under
    its own name, with the two further arguments [null] and [true]. *)
Theorem attribute_and_property_bindings (name : string) :
  (forall tail,
      name <> EmptyString -> lacks "]" name = true ->
      tail = EmptyString \/ (exists t, tail = String "]" t) ->
      @getBindingNameAndInstruction SourceSpan ("attr." ++ name ++ tail)
      = (name, R3.elementAttribute, []))
  /\ (noDot name = true ->
      @getBindingNameAndInstruction SourceSpan name
      = (name, R3.elementProperty, [literal LNull; literal (LBool true)])).
Proof.
  split.
  - intros tail Hne Hl Htail. unfold getBindingNameAndInstruction.
    assert (H : ATTR_REGEX_match ("attr." ++ name ++ tail) = Some name).
    { change ("attr." ++ name ++ tail)%string
        with (String "a" ("ttr." ++ name ++ tail)).
      cbn [ATTR_REGEX_match]. unfold attrHere.
      change (String "a" ("ttr." ++ name ++ tail))
        with ("attr." ++ (name ++ tail))%string.
      rewrite stripPrefix_app.
      destruct Htail as [->|[t ->]].
      - replace (name ++ "")%string with name
          by (clear; induction name; simpl; congruence).
        rewrite spanNot_all by assumption.
        destruct name; [congruence|reflexivity].
      - rewrite spanNot_lacks by assumption.
        destruct name; [congruence|reflexivity]. }
    rewrite H. reflexivity.
  - intros H. unfold getBindingNameAndInstruction.
    rewrite ATTR_REGEX_match_noDot by assumption. reflexivity.
Qed.

End BindingNames.

(* ===================================================================== *)
(** ** Further properties: the loop over the host property bindings *)
(* ===================================================================== *)

Section HostBindingLoop.

Context {AST SourceSpan Dep TemplateNodes CssSelector R3Selector Reference
         Pool : Type}.
Variable ext : @Collaborators AST SourceSpan Dep TemplateNodes CssSelector
                              R3Selector Reference Pool.

Lemma compileHostBinding_builder elVarExp bindingContext st binding pool
      st' pool' :
  compileHostBinding ext elVarExp bindingContext st binding pool
  = Ok (st', pool') ->
  sb_styleInputs (hs_styleBuilder st')
  = sb_styleInputs (hs_styleBuilder st)
    ++ map styleInputOf (filter (hasPrefix "style") [binding])
  /\ sb_classInputs (hs_styleBuilder st')
     = sb_classInputs (hs_styleBuilder st)
       ++ map classInputOf (filter (hasPrefix "class") [binding])
  /\ sb_styleAttr (hs_styleBuilder st') = sb_styleAttr (hs_styleBuilder st)
  /\ sb_classAttr (hs_styleBuilder st') = sb_classAttr (hs_styleBuilder st).
Proof.
  unfold compileHostBinding. cbn [filter]. unfold hasPrefix.
  destruct (String.eqb (getStylingPrefix (pp_name binding)) "style") eqn:Es.
  { apply String.eqb_eq in Es. rewrite Es.
    intros H; inversion H; subst; simpl. rewrite app_nil_r. auto. }
  destruct (String.eqb (getStylingPrefix (pp_name binding)) "class") eqn:Ec.
  { intros H; inversion H; subst; simpl. rewrite app_nil_r. auto. }
  unfold bind.
  destruct (visit ext _ _ pool) as [[[value numSlots] p1]|]; [|discriminate].
  unfold liftResult.
  destruct (bindingFn ext bindingContext value) as [[stmts cur]|];
    [|discriminate].
  destruct (getBindingNameAndInstruction _) as [[bn ins] extra].
  intros H; inversion H; subst; simpl. rewrite !app_nil_r. auto.
Qed.

(** X11.  The loop over the host property bindings hands the styling builder
    one dynamic style input for every binding with the prefix 'style' and one
    dynamic class input for every binding with the prefix 'class', in the
    order of the bindings, with the property (and unit) parsed from the
    binding's name; it leaves the static style and class values of the builder
    as they were. *)
Theorem styling_bindings_registered elVarExp bindingContext
        (bindings : list ParsedProperty) (st : HostBindingsState) pool st' pool'
        (Hloop : foldM (compileHostBinding ext elVarExp bindingContext)
                       bindings st pool = Ok (st', pool')) :
  sb_styleInputs (hs_styleBuilder st')
  = sb_styleInputs (hs_styleBuilder st)
    ++ map styleInputOf (filter (hasPrefix "style") bindings)
  /\ sb_classInputs (hs_styleBuilder st')
     = sb_classInputs (hs_styleBuilder st)
       ++ map classInputOf (filter (hasPrefix "class") bindings)
  /\ sb_styleAttr (hs_styleBuilder st') = sb_styleAttr (hs_styleBuilder st)
  /\ sb_classAttr (hs_styleBuilder st') = sb_classAttr (hs_styleBuilder st).
Proof.
  revert st pool Hloop.
  induction bindings as [|b bindings IH]; intros st pool Hloop.
  - inversion Hloop; subst. simpl. rewrite !app_nil_r. auto.
  - cbn [foldM] in Hloop. unfold bind in Hloop.
    destruct (compileHostBinding ext _ _ st b pool) as [[st1 p1]|] eqn:Hb;
      [|discriminate].
    apply compileHostBinding_builder in Hb as (H1 & H2 & H3 & H4).
    apply IH in Hloop as (K1 & K2 & K3 & K4).
    rewrite K1, K2, K3, K4, H1, H2, H3, H4.
    change (b :: bindings) with ([b] ++ bindings).
    rewrite !filter_app, !map_app, !app_assoc. auto.
Qed.

End HostBindingLoop.

Lemma styling_bindings_registered_witness :
  exists st' pool',
    foldM (compileHostBinding Sample.ext (variable "elIndex") (variable "ctx"))
          [ {| pp_name := "title"; pp_expression := "t"; pp_sourceSpan := tt |};
            {| pp_name := "style.width.px"; pp_expression := "w";
               pp_sourceSpan := tt |};
            {| pp_name := "class.on"; pp_expression := "c";
               pp_sourceSpan := tt |} ]
          {| hs_styleBuilder :=
               newStylingBuilder (variable "elIndex") (variable "ctx");
             hs_updateStatements := []; hs_totalHostVarsCount := 1 |} []
    = Ok (st', pool')
    /\ sb_styleInputs (hs_styleBuilder st')
       = [ {| sty_propertyName := "width"; sty_value := "w"; sty_unit := "px";
              sty_sourceSpan := tt |} ]
    /\ sb_classInputs (hs_styleBuilder st')
       = [ {| cls_className := "on"; cls_value := "c"; cls_sourceSpan := tt |} ].
Proof.
  eexists. eexists. refine ((fun H => conj H _) eq_refl).
  pose proof (styling_bindings_registered Sample.ext _ _ _ _ _ _ _ H)
    as (H1 & H2 & _).
  split; [exact H1|exact H2].
Defined.

(* ===================================================================== *)
(** ** Further properties: the hostBindings function *)
(* ===================================================================== *)

Section HostBindingsFunction.

Context {AST SourceSpan Dep TemplateNodes CssSelector R3Selector Reference
         Pool : Type}.
Variable ext : @Collaborators AST SourceSpan Dep TemplateNodes CssSelector
                              R3Selector Reference Pool.

(** X12.  A directive for which the binding parser finds no host event and
    no bound host property, and whose host attributes hold no static style or
    class, gets no hostBindings function when no host variable is reserved;
    the constant pool is left as it was. *)
Theorem no_host_bindings_no_function (meta : R3DirectiveMetadata)
        elVarName bindingContext styleBuilder pool
        (Hevents : hostEventAsts ext meta = None \/ hostEventAsts ext meta = Some [])
        (Hbindings : boundHostProperties ext meta = None
                     \/ (boundHostProperties ext meta = Some []
                         /\ hasBindingsOrInitialValues styleBuilder = false)) :
  createHostBindingsFunction ext meta elVarName bindingContext styleBuilder 0
                             pool
  = Ok (None, pool).
Proof.
  unfold createHostBindingsFunction, hostBindingsStatements, bind.
  unfold hostEventAsts in Hevents. unfold boundHostProperties in Hbindings.
  destruct Hevents as [-> | ->];
    destruct Hbindings as [-> | [-> Hsb]]; cbn; rewrite ?Hsb; reflexivity.
Qed.

Lemma createHostListeners_names bindingContext meta events : forall pool ls pool',
  createHostListeners ext bindingContext events meta pool = Ok (ls, pool') ->
  map listenerEventName ls = map (fun e => Some (ev_name e)) events
  /\ pool' = pool.
Proof.
  unfold createHostListeners.
  induction events as [|e events IH]; intros pool ls pool' H.
  - inversion H; subst. split; reflexivity.
  - cbn [mapM] in H. unfold bind at 1 2 in H. unfold liftResult in H.
    destruct (convertActionBinding ext bindingContext (ev_handler e) "b")
      as [stmts|]; [|discriminate].
    cbn [ret] in H. unfold bind in H at 1.
    match type of H with
    | match ?c with _ => _ end = _ =>
        destruct c as [[ls0 p0]|] eqn:Hrest; [|discriminate]
    end.
    apply IH in Hrest as [Hnames ->]. inversion H; subst.
    split; [|reflexivity]. cbn. rewrite Hnames. reflexivity.
Qed.


End HostBindingsFunction.

Lemma no_host_bindings_no_function_witness :
  createHostBindingsFunction Sample.ext Sample.emptyDirective "elIndex"
    (variable "ctx") (newStylingBuilder (variable "elIndex") (variable "ctx"))
    0 []
  = Ok (None, []).
Proof.
  apply no_host_bindings_no_function.
  - right. reflexivity.
  - right. split; reflexivity.
Defined.


(* ===================================================================== *)
(** ** Further properties: the query functions *)
(* ===================================================================== *)

Section QueryFunctions.

Context {AST SourceSpan Dep TemplateNodes CssSelector R3Selector Reference
         Pool : Type}.
Variable ext : @Collaborators AST SourceSpan Dep TemplateNodes CssSelector
                              R3Selector Reference Pool.

Lemma mapM_nth {A B} (f : A -> @M Pool B) l : forall pool bs pool',
  mapM f l pool = Ok (bs, pool') ->
  length bs = length l
  /\ forall k a, nth_error l k = Some a ->
                 exists b p p', f a p = Ok (b, p') /\ nth_error bs k = Some b.
Proof.
  induction l as [|a l IH]; intros pool bs pool' H.
  - inversion H; subst. split; [reflexivity|].
    intros [|k] a Hk; discriminate.
  - cbn [mapM] in H. unfold bind at 1 in H.
    destruct (f a pool) as [[b p1]|] eqn:Hf; [|discriminate].
    unfold bind in H.
    destruct (mapM f l p1) as [[bs0 p2]|] eqn:Hrest; [|discriminate].
    inversion H; subst. apply IH in Hrest as [Hlen Hnth].
    split; [simpl; congruence|].
    intros [|k] a' Hk; simpl in Hk.
    + inversion Hk; subst. exists b, pool, p1. split; [exact Hf|reflexivity].
    + apply Hnth, Hk.
Qed.

Lemma createQueryDefinition_call query idx pool e pool' :
  createQueryDefinition ext query idx pool = Ok (e, pool') ->
  exists predicate,
    getQueryPredicate ext query pool = Ok (predicate, pool')
    /\ e = queryCall idx query predicate.
Proof.
  unfold createQueryDefinition, bind.
  destruct (getQueryPredicate ext query pool) as [[predicate p]|];
    [|discriminate].
  intros H. inversion H; subst. exists predicate. split; [reflexivity|].
  unfold queryCall. destruct (q_read query); reflexivity.
Qed.

(** X14.  The contentQueries function exists exactly when the directive has
    a query.  It takes the directive index and holds one statement per query,
    in the order of the queries: the registration, for that directive index,
    of a query definition whose slot index is [null], whose predicate is the
    one resolved for the query, followed by its [descendants] flag and, only
    when the query has one, its [read] token. *)
Theorem content_queries_registered (meta : R3DirectiveMetadata)
        pool result pool'
        (Hrun : createContentQueriesFunction ext meta pool
                = Ok (result, pool')) :
  (result = None <-> m_queries meta = [])
  /\ forall f, result = Some f ->
       exists statements,
         f = fn [mkFnParam "dirIndex" (Some (BuiltinType NUMBER_TYPE))]
                statements (Some (BuiltinType INFERRED_TYPE))
                (suffixedName (m_name meta) "_ContentQueries")
         /\ length statements = length (m_queries meta)
         /\ forall k query,
             nth_error (m_queries meta) k = Some query ->
             exists predicate p p',
               getQueryPredicate ext query p = Ok (predicate, p')
               /\ nth_error statements k
                  = Some (toStmt
                            (callFn (importExpr R3.registerContentQuery)
                                    [ queryCall None query predicate;
                                      variable "dirIndex" ])).
Proof.
  unfold createContentQueriesFunction in Hrun.
  destruct (m_queries meta) as [|q0 qs] eqn:Hq.
  { inversion Hrun; subst. split; [split; reflexivity|discriminate]. }
  unfold bind in Hrun.
  match type of Hrun with
  | match mapM ?f ?l pool with _ => _ end = _ =>
      destruct (mapM f l pool) as [[statements p1]|] eqn:Hmap; [|discriminate];
      apply (mapM_nth f l) in Hmap as [Hlen Hnth]
  end.
  inversion Hrun; subst. split; [split; discriminate|].
  intros f Hf. inversion Hf; subst. exists statements.
  split; [reflexivity|]. split; [exact Hlen|].
  intros k query Hk. destruct (Hnth k query Hk) as (b & p & p' & Hb & Hkb).
  unfold bind in Hb.
  destruct (createQueryDefinition ext query None p) as [[e p2]|] eqn:He;
    [|discriminate].
  apply createQueryDefinition_call in He as (predicate & Hp & ->).
  inversion Hb; subst. exists predicate, p, p'. split; assumption.
Qed.

Lemma compileViewQuery_step cs us d i query pool acc pool' :
  compileViewQuery ext (cs, (us, d), i) query pool = Ok (acc, pool') ->
  exists predicate,
    getQueryPredicate ext query pool = Ok (predicate, pool')
    /\ acc
       = (cs ++ [toStmt (queryCall (Some i) query predicate)],
          (us ++ (if d then []
                  else [DeclareVarStmt (TEMPORARY_NAME ext) None
                                       (Some (BuiltinType DYNAMIC_TYPE)) []])
              ++ [viewRefreshStatement (TEMPORARY_NAME ext) (CONTEXT_NAME ext)
                                       query i],
           true),
          S i).
Proof.
  unfold compileViewQuery, bind.
  destruct (createQueryDefinition ext query (Some i) pool) as [[e p]|] eqn:He;
    [|discriminate].
  apply createQueryDefinition_call in He as (predicate & Hp & ->).
  intros H. exists predicate. split.
  - destruct d; cbn in H; inversion H; subst; exact Hp.
  - destruct d; cbn in H; inversion H; subst.
    + reflexivity.
    + rewrite <- app_assoc. reflexivity.
Qed.

Lemma compileViewQueries_fold queries : forall cs us d i pool acc pool',
  foldM (compileViewQuery ext) queries (cs, (us, d), i) pool
  = Ok (acc, pool') ->
  exists creates,
    acc = (cs ++ creates,
           (us ++ (match queries with
                   | [] => []
                   | _ => if d then []
                          else [DeclareVarStmt (TEMPORARY_NAME ext) None
                                  (Some (BuiltinType DYNAMIC_TYPE)) []]
                   end)
               ++ viewRefreshStatements (TEMPORARY_NAME ext) (CONTEXT_NAME ext)
                                        queries i,
            match queries with [] => d | _ => true end),
           i + length queries)
    /\ length creates = length queries
    /\ forall k query,
        nth_error queries k = Some query ->
        exists predicate p p',
          getQueryPredicate ext query p = Ok (predicate, p')
          /\ nth_error creates k
             = Some (toStmt (queryCall (Some (i + k)) query predicate)).
Proof.
  induction queries as [|q queries IH]; intros cs us d i pool acc pool' H.
  - inversion H; subst. exists []. rewrite !app_nil_r, Nat.add_0_r.
    split; [reflexivity|]. split; [reflexivity|].
    intros [|k] query Hk; discriminate.
  - cbn [foldM] in H. unfold bind in H.
    destruct (compileViewQuery ext (cs, (us, d), i) q pool)
      as [[acc1 p1]|] eqn:Hstep; [|discriminate].
    apply compileViewQuery_step in Hstep as (predicate & Hp & ->).
    apply IH in H as (creates & -> & Hlen & Hnth).
    exists (toStmt (queryCall (Some i) q predicate) :: creates).
    split; [|split].
    + cbn [viewRefreshStatements length].
      rewrite <- !app_assoc. cbn [app].
      replace (i + S (length queries)) with (S i + length queries) by lia.
      destruct queries; reflexivity.
    + simpl. congruence.
    + intros [|k] query Hk; simpl in Hk.
      * inversion Hk; subst. exists predicate, pool, p1.
        rewrite Nat.add_0_r. split; [exact Hp|reflexivity].
      * destruct (Hnth k query Hk) as (pr & p & p' & Hpr & Hc).
        exists pr, p, p'. split; [exact Hpr|].
        replace (i + S k) with (S i + k) by lia. exact Hc.
Qed.

Lemma viewRefreshStatements_nth (queries : list (@R3QueryMetadata SourceSpan))
      temporaryName contextName :
  forall i k query,
    nth_error queries k = Some query ->
    nth_error (viewRefreshStatements temporaryName contextName queries i) k
    = Some (viewRefreshStatement temporaryName contextName query (i + k)).
Proof.
  induction queries as [|q queries IH]; intros i [|k] query Hk;
    try discriminate; simpl in Hk |- *.
  - inversion Hk; subst. rewrite Nat.add_0_r. reflexivity.
  - rewrite (IH (S i) k query Hk). do 2 f_equal. lia.
Qed.

(** X15.  The viewQuery function has a create block and an update block, both
    always present.  The view query at position k is created in slot k and
    refreshed from slot k: the k-th create statement is the query definition
    with index k, and the update block first declares the one temporary
    variable (when there is a query at all) and then holds, for the query at
    position k, the statement that refreshes the query loaded from slot k
    and assigns the result, or its first element, to the property of the
    context. *)
Theorem view_queries_by_slot (meta : R3ComponentMetadata) pool f pool'
        (Hrun : createViewQueriesFunction ext meta pool = Ok (f, pool')) :
  exists creates refreshes,
    f = fn [ mkFnParam (RENDER_FLAGS ext) (Some (BuiltinType NUMBER_TYPE));
             mkFnParam (CONTEXT_NAME ext) None ]
           [ renderFlagCheckIfStmt ext Create creates;
             renderFlagCheckIfStmt ext Update
               (match c_viewQueries meta with
                | [] => []
                | _ => DeclareVarStmt (TEMPORARY_NAME ext) None
                                      (Some (BuiltinType DYNAMIC_TYPE)) []
                       :: refreshes
                end) ]
           (Some (BuiltinType INFERRED_TYPE))
           (suffixedName (m_name (c_directive meta)) "_Query")
    /\ length creates = length (c_viewQueries meta)
    /\ length refreshes = length (c_viewQueries meta)
    /\ forall k query,
        nth_error (c_viewQueries meta) k = Some query ->
        (exists predicate p p',
            getQueryPredicate ext query p = Ok (predicate, p')
            /\ nth_error creates k
               = Some (toStmt (queryCall (Some k) query predicate)))
        /\ nth_error refreshes k
           = Some (viewRefreshStatement (TEMPORARY_NAME ext) (CONTEXT_NAME ext)
                                        query k).
Proof.
  unfold createViewQueriesFunction, bind in Hrun.
  destruct (foldM (compileViewQuery ext) (c_viewQueries meta)
                  ([], ([], false), 0) pool) as [[acc p1]|] eqn:Hfold;
    [|discriminate].
  apply compileViewQueries_fold in Hfold as (creates & -> & Hlen & Hnth).
  cbn in Hrun. inversion Hrun; subst.
  exists creates,
    (viewRefreshStatements (TEMPORARY_NAME ext) (CONTEXT_NAME ext)
                           (c_viewQueries meta) 0).
  split; [|split; [exact Hlen|split]].
  - destruct (c_viewQueries meta); reflexivity.
  - clear. generalize 0.
    induction (c_viewQueries meta) as [|q l IH]; intros n; simpl;
      [reflexivity|]. rewrite IH. reflexivity.
  - intros k query Hk. split.
    + exact (Hnth k query Hk).
    + exact (viewRefreshStatements_nth _ _ _ 0 k query Hk).
Qed.

End QueryFunctions.

Lemma content_queries_registered_witness :
  exists result pool',
    createContentQueriesFunction Sample.ext Sample.itemsDirective []
    = Ok (result, pool')
    /\ result <> None.
Proof.
  do 2 eexists. refine ((fun H => conj H _) eq_refl).
  intros Hnone.
  apply (proj1 (content_queries_registered Sample.ext _ _ _ _ H)) in Hnone.
  discriminate.
Defined.

Lemma view_queries_by_slot_witness :
  exists f pool',
    createViewQueriesFunction Sample.ext queryComponent [] = Ok (f, pool')
    /\ exists creates refreshes,
        f = fn [ mkFnParam "rf" (Some (BuiltinType NUMBER_TYPE));
                 mkFnParam "ctx" None ]
               [ renderFlagCheckIfStmt Sample.ext Create creates;
                 renderFlagCheckIfStmt Sample.ext Update
                   (DeclareVarStmt "_t" None
                                   (Some (BuiltinType DYNAMIC_TYPE)) []
                    :: refreshes) ]
               (Some (BuiltinType INFERRED_TYPE)) (Some "Dir_Query")
        /\ nth_error refreshes 1
           = Some (viewRefreshStatement "_t" "ctx" headerQuery 1).
Proof.
  do 2 eexists. refine ((fun H => conj H _) eq_refl).
  destruct (view_queries_by_slot Sample.ext _ _ _ _ H)
    as (creates & refreshes & Hf & _ & _ & Hnth).
  exists creates, refreshes. split; [exact Hf|].
  exact (proj2 (Hnth 1 headerQuery eq_refl)).
Defined.

(* ===================================================================== *)
(** ** Further properties: the fields of a definition *)
(* ===================================================================== *)

Lemma isSubsequence_nil canon : isSubsequence [] canon = true.
Proof. destruct canon; reflexivity. Qed.

Lemma isSubsequence_tail canon : forall x l,
  isSubsequence (x :: l) canon = true -> isSubsequence l canon = true.
Proof.
  induction canon as [|c canon IH]; intros x l H; [discriminate|].
  assert (Hskip : forall l', isSubsequence l' canon = true ->
                             isSubsequence l' (c :: canon) = true).
  { intros [|y l'] Hl; [reflexivity|]. simpl.
    destruct (String.eqb y c); [exact (IH _ _ Hl)|exact Hl]. }
  simpl in H. destruct (String.eqb x c); apply Hskip; [exact H|].
  exact (IH _ _ H).
Qed.

Lemma isSubsequence_skip k canon l :
  isSubsequence l canon = true -> isSubsequence l (k :: canon) = true.
Proof.
  destruct l as [|y l]; intros H; [reflexivity|]. simpl.
  destruct (String.eqb y k); [exact (isSubsequence_tail _ _ _ H)|exact H].
Qed.

Lemma isSubsequence_cons k canon l :
  isSubsequence l canon = true -> isSubsequence (k :: l) (k :: canon) = true.
Proof. intros H. simpl. rewrite String.eqb_refl. exact H. Qed.

Lemma isSubsequence_in canon : forall l x,
  isSubsequence l canon = true -> In x l -> In x canon.
Proof.
  induction canon as [|c canon IH]; intros [|y l] x H Hin;
    try contradiction; try discriminate.
  simpl in H. destruct (String.eqb y c) eqn:E.
  - apply String.eqb_eq in E. subst y. destruct Hin as [->|Hin];
      [now left|right; exact (IH _ _ H Hin)].
  - right. exact (IH _ _ H Hin).
Qed.

Lemma isSubsequence_NoDup canon : forall l,
  isSubsequence l canon = true -> NoDup canon -> NoDup l.
Proof.
  induction canon as [|c canon IH]; intros [|y l] H Hc;
    try constructor; try discriminate.
  - inversion Hc as [|? ? Hnotin Hrest]; subst. simpl in H.
    destruct (String.eqb y c) eqn:E.
    + apply String.eqb_eq in E. subst y. intros Hin.
      apply Hnotin. exact (isSubsequence_in _ _ _ H Hin).
    + assert (Hy : NoDup (y :: l)) by exact (IH _ H Hrest).
      inversion Hy; assumption.
  - inversion Hc as [|? ? Hnotin Hrest]; subst. simpl in H.
    destruct (String.eqb y c) eqn:E.
    + exact (IH _ H Hrest).
    + assert (Hy : NoDup (y :: l)) by exact (IH _ H Hrest).
      inversion Hy; assumption.
Qed.

Lemma distinct_NoDup l : distinct l = true -> NoDup l.
Proof.
  induction l as [|x l IH]; intros H; constructor;
    simpl in H; apply andb_true_iff in H as [Hx Hl].
  - intros Hin. apply negb_true_iff in Hx.
    assert (existsb (String.eqb x) l = true).
    { apply existsb_exists. exists x. split; [exact Hin|apply String.eqb_refl]. }
    congruence.
  - exact (IH Hl).
Qed.

Section DefinitionFields.

Context {AST SourceSpan Dep TemplateNodes CssSelector R3Selector Reference
         Pool : Type}.
Variable ext : @Collaborators AST SourceSpan Dep TemplateNodes CssSelector
                              R3Selector Reference Pool.

Local Abbreviation DM := (@DefinitionMap SourceSpan).

Lemma fieldNames_app (a b : DM) :
  fieldNames (a ++ b) = fieldNames a ++ fieldNames b.
Proof. apply map_app. Qed.

Lemma fieldNames_cons e (l : DM) :
  fieldNames (e :: l) = fst (fst e) :: fieldNames l.
Proof. reflexivity. Qed.

Lemma fieldNames_nil : fieldNames (@nil (string * bool * @Expr SourceSpan)) = [].
Proof. reflexivity. Qed.

Lemma isSubsequence_entry k (v : option (@Expr SourceSpan)) canon l :
  isSubsequence l canon = true ->
  isSubsequence (fieldNames (entry k v) ++ l) (k :: canon) = true.
Proof.
  intros H. destruct v; simpl.
  - rewrite String.eqb_refl. exact H.
  - apply isSubsequence_skip, H.
Qed.

(** the definition map of a component before [styles], field by field *)
Lemma componentFieldsBeforeStyles_shape meta pool dm stmts pool' :
  componentFieldsBeforeStyles ext meta pool = Ok ((dm, stmts), pool') ->
  exists base pool1 attrs viewQuery built,
    baseDirectiveFields ext (c_directive meta) pool
    = Ok ((base, stmts), pool1)
    /\ (viewQuery = None <-> c_viewQueries meta = [])
    /\ dm = base ++ entry "features" (featuresField (OfComponent meta))
                 ++ entry "attrs" attrs
                 ++ entry "viewQuery" viewQuery
                 ++ [ ("consts", false, literal (LNum (tr_constCount built)));
                      ("vars", false, literal (LNum (tr_varCount built)));
                      ("template", false, tr_template built) ]
                 ++ entry "directives"
                      (match tr_directivesUsed built with
                       | [] => None
                       | used =>
                           Some (usedExpr
                                   (c_wrapDirectivesAndPipesInClosure meta)
                                   used)
                       end)
                 ++ entry "pipes"
                      (match tr_pipesUsed built with
                       | [] => None
                       | used =>
                           Some (usedExpr
                                   (c_wrapDirectivesAndPipesInClosure meta)
                                   used)
                       end)
    /\ attrsResolved ext (m_selector (c_directive meta)) attrs.
Proof.
  unfold componentFieldsBeforeStyles, bind.
  destruct (baseDirectiveFields ext (c_directive meta) pool)
    as [[[base stmts0] p1]|] eqn:Hbase; [|discriminate].
  rewrite addFeatures_entry.
  set (features := entry "features" (featuresField (OfComponent meta))).
  match goal with
  | |- context [match ?c p1 with _ => _ end] =>
      destruct (c p1) as [[dm1 p2]|] eqn:H1; [|discriminate]
  end.
  assert (Hdm1 : exists attrs,
             dm1 = base ++ features ++ entry "attrs" attrs
             /\ attrsResolved ext (m_selector (c_directive meta)) attrs).
  { unfold attrsResolved, selectorAttributes.
    destruct (m_selector (c_directive meta)) as [s|].
    2:{ inversion H1; subst. exists None. simpl. rewrite app_nil_r.
        split; reflexivity. }
    destruct (Js.truthy s).
    2:{ inversion H1; subst. exists None. simpl. rewrite app_nil_r.
        split; reflexivity. }
    destruct (CssSelector_parse ext s) as [|first rest].
    { inversion H1; subst. exists None. simpl. rewrite app_nil_r.
      split; reflexivity. }
    destruct (getAttrs ext first) as [|v vs].
    { inversion H1; subst. exists None. simpl. rewrite app_nil_r.
      split; reflexivity. }
    unfold bind in H1.
    destruct (getConstLiteral ext _ true p1) as [[attrs p]|] eqn:Hc;
      [|discriminate].
    inversion H1; subst. exists (Some attrs).
    rewrite ?DefinitionMap_set_entry, <- app_assoc.
    split; [reflexivity|]. exists attrs, p1, p2. split; [reflexivity|exact Hc]. }
  destruct Hdm1 as (attrs & -> & Hattrs).
  match goal with
  | |- context [match ?c p2 with _ => _ end] =>
      destruct (c p2) as [[dm2 p3]|] eqn:H2; [|discriminate]
  end.
  assert (Hdm2 : exists viewQuery,
             dm2 = base ++ features ++ entry "attrs" attrs
                        ++ entry "viewQuery" viewQuery
             /\ (viewQuery = None <-> c_viewQueries meta = [])).
  { destruct (c_viewQueries meta).
    - inversion H2; subst. exists None. simpl. rewrite app_nil_r.
      split; [reflexivity|split; reflexivity].
    - unfold bind in H2.
      destruct (createViewQueriesFunction ext meta p2) as [[vq p]|];
        [|discriminate].
      inversion H2; subst. exists (Some vq).
      rewrite ?DefinitionMap_set_entry, <- !app_assoc.
      split; [reflexivity|split; discriminate]. }
  destruct Hdm2 as (viewQuery & -> & Hvq).
  destruct (buildTemplateFunction ext _ _ p3) as [[built p4]|];
    [|discriminate].
  intros H. inversion H; subst. exists base, p1, attrs, viewQuery, built.
  split; [reflexivity|]. split; [exact Hvq|]. split; [|exact Hattrs].
  destruct (tr_directivesUsed built), (tr_pipesUsed built);
    rewrite ?DefinitionMap_set_entry; simpl entry;
    rewrite <- ?app_assoc, ?app_nil_r; reflexivity.
Qed.

Lemma compileStylesAndEncapsulation_fields (dm : DM)
      (meta : @R3ComponentMetadata SourceSpan Dep TemplateNodes) :
  fst (compileStylesAndEncapsulation ext dm meta)
  = dm ++ entry "styles" (stylesField ext meta)
       ++ entry "encapsulation" (encapsulationField meta).
Proof.
  destruct meta as [d t vq ds ps w styles enc an vp rel i18n cd].
  unfold compileStylesAndEncapsulation, stylesField, encapsulationField,
    resolvedEncapsulation, encapsulationIs, compileStyles; cbn.
  destruct enc as [[| | |]|], styles; cbn;
    rewrite ?DefinitionMap_set_entry, <- ?app_assoc, ?app_nil_r; reflexivity.
Qed.

(** the definition of a component, field by field *)
Lemma compileComponentFromMetadata_shape meta pool def meta' pool' :
  compileComponentFromMetadata ext meta pool = Ok ((def, meta'), pool') ->
  exists base stmts pool1 attrs viewQuery built,
    baseDirectiveFields ext (c_directive meta) pool
    = Ok ((base, stmts), pool1)
    /\ (viewQuery = None <-> c_viewQueries meta = [])
    /\ def_expression def
       = callFn (importExpr R3.defineComponent)
           [literalMap
              (base ++ entry "features" (featuresField (OfComponent meta))
                 ++ entry "attrs" attrs
                 ++ entry "viewQuery" viewQuery
                 ++ [ ("consts", false, literal (LNum (tr_constCount built)));
                      ("vars", false, literal (LNum (tr_varCount built)));
                      ("template", false, tr_template built) ]
                 ++ entry "directives"
                      (match tr_directivesUsed built with
                       | [] => None
                       | used =>
                           Some (usedExpr
                                   (c_wrapDirectivesAndPipesInClosure meta)
                                   used)
                       end)
                 ++ entry "pipes"
                      (match tr_pipesUsed built with
                       | [] => None
                       | used =>
                           Some (usedExpr
                                   (c_wrapDirectivesAndPipesInClosure meta)
                                   used)
                       end)
                 ++ entry "styles" (stylesField ext meta)
                 ++ entry "encapsulation" (encapsulationField meta)
                 ++ entry "data"
                      (match c_animations meta with
                       | Some animations =>
                           Some (literalMap [("animation", false, animations)])
                       | None => None
                       end)
                 ++ entry "changeDetection"
                      (match c_changeDetection meta with
                       | Some OnPush =>
                           Some (literal (LChangeDetection OnPush))
                       | _ => None
                       end))]
    /\ def_type def
       = createTypeForDef ext (c_directive meta) R3.ComponentDefWithMeta
    /\ def_statements def = stmts
    /\ attrsResolved ext (m_selector (c_directive meta)) attrs.
Proof.
  unfold compileComponentFromMetadata, bind.
  destruct (componentFieldsBeforeStyles ext meta pool)
    as [[[dm stmts] p]|] eqn:Hbefore; [|discriminate].
  apply componentFieldsBeforeStyles_shape in Hbefore
    as (base & p1 & attrs & viewQuery & built & Hbase & Hvq & -> & Hattrs).
  pose proof (compileStylesAndEncapsulation_fields
                (base ++ entry "features" (featuresField (OfComponent meta))
                   ++ entry "attrs" attrs
                   ++ entry "viewQuery" viewQuery
                   ++ [ ("consts", false,
                         literal (LNum (tr_constCount built)));
                        ("vars", false, literal (LNum (tr_varCount built)));
                        ("template", false, tr_template built) ]
                   ++ entry "directives"
                        (match tr_directivesUsed built with
                         | [] => None
                         | used =>
                             Some (usedExpr
                                     (c_wrapDirectivesAndPipesInClosure meta)
                                     used)
                         end)
                   ++ entry "pipes"
                        (match tr_pipesUsed built with
                         | [] => None
                         | used =>
                             Some (usedExpr
                                     (c_wrapDirectivesAndPipesInClosure meta)
                                     used)
                         end)) meta) as Hfields.
  pose proof (compileStylesAndEncapsulation_meta ext
                (base ++ entry "features" (featuresField (OfComponent meta))
                   ++ entry "attrs" attrs
                   ++ entry "viewQuery" viewQuery
                   ++ [ ("consts", false,
                         literal (LNum (tr_constCount built)));
                        ("vars", false, literal (LNum (tr_varCount built)));
                        ("template", false, tr_template built) ]
                   ++ entry "directives"
                        (match tr_directivesUsed built with
                         | [] => None
                         | used =>
                             Some (usedExpr
                                     (c_wrapDirectivesAndPipesInClosure meta)
                                     used)
                         end)
                   ++ entry "pipes"
                        (match tr_pipesUsed built with
                         | [] => None
                         | used =>
                             Some (usedExpr
                                     (c_wrapDirectivesAndPipesInClosure meta)
                                     used)
                         end)) meta) as Hmeta.
  destruct (compileStylesAndEncapsulation ext _ meta) as [dm' m'].
  cbn [fst snd] in Hfields, Hmeta. subst dm' m'.
  unfold ret. intros H. inversion H; subst.
  exists base, stmts, p1, attrs, viewQuery, built.
  split; [exact Hbase|]. split; [exact Hvq|].
  cbn [def_expression def_type def_statements].
  rewrite componentFieldsAfterStyles_app.
  split; [|split; [reflexivity|split; [reflexivity|exact Hattrs]]].
  unfold toLiteralMap. rewrite <- !app_assoc. cbn [app].
  rewrite <- !app_assoc. reflexivity.
Qed.

End DefinitionFields.

Section DefinitionProperties.

Context {AST SourceSpan Dep TemplateNodes CssSelector R3Selector Reference
         Pool : Type}.
Variable ext : @Collaborators AST SourceSpan Dep TemplateNodes CssSelector
                              R3Selector Reference Pool.

Local Abbreviation DM := (@DefinitionMap SourceSpan).

Lemma regroup_names (a1 a2 a3 a4 a5 a6 a7 a8 a9 a10 l : list string) :
  a1 ++ a2 ++ a3 ++ a4 ++ a5 ++ a6 ++ a7 ++ a8 ++ a9 ++ a10 ++ l
  = (a1 ++ a2 ++ a3 ++ a4 ++ a5 ++ a6 ++ a7 ++ a8 ++ a9 ++ a10) ++ l.
Proof. rewrite <- !app_assoc. reflexivity. Qed.

Lemma isSubsequence_entry_last k (v : option (@Expr SourceSpan)) canon :
  isSubsequence (fieldNames (entry k v)) (k :: canon) = true.
Proof.
  destruct v; simpl; rewrite ?String.eqb_refl; [apply isSubsequence_nil|].
  reflexivity.
Qed.

Lemma field_skip_entry k (v : option (@Expr SourceSpan)) key (rest : DM) :
  String.eqb k key = false -> field (entry k v ++ rest) key = field rest key.
Proof. intros H. destruct v; simpl; rewrite ?H; reflexivity. Qed.

Lemma field_skip_cons k q (e : @Expr SourceSpan) key (rest : DM) :
  String.eqb k key = false -> field ((k, q, e) :: rest) key = field rest key.
Proof. intros H. simpl. rewrite H. reflexivity. Qed.

Lemma field_hit_entry k (v : option (@Expr SourceSpan)) (rest : DM) :
  field (entry k v ++ rest) k
  = match v with
    | Some e => Some e
    | None => field rest k
    end.
Proof. destruct v; simpl; rewrite ?String.eqb_refl; reflexivity. Qed.

Lemma field_last_entry k (v : option (@Expr SourceSpan)) :
  field (entry k v) k = v.
Proof. destruct v; simpl; rewrite ?String.eqb_refl; reflexivity. Qed.


(** X17.  The fields of a component definition come in one fixed order, each
    at most once: the fields of a directive definition and then attrs,
    viewQuery, consts, vars, template, directives, pipes, styles,
    encapsulation, data, changeDetection.  The fields type, selectors and
    factory come first, and consts, vars and template are always there, in
    this order. *)
Theorem component_fields_in_order (meta : R3ComponentMetadata)
        pool def meta' pool'
        (Hrun : compileComponentFromMetadata ext meta pool
                = Ok ((def, meta'), pool')) :
  exists entries,
    definitionOf def = Some entries
    /\ isSubsequence (fieldNames entries) componentFieldOrder = true
    /\ NoDup (fieldNames entries)
    /\ exists early late,
        fieldNames entries
        = ["type"; "selectors"; "factory"] ++ early
          ++ ["consts"; "vars"; "template"] ++ late.
Proof.
  apply compileComponentFromMetadata_shape in Hrun
    as (base & stmts & p1 & attrs & viewQuery & built & Hbase & _ & Hdef & _).
  apply baseDirectiveFields_fields in Hbase as (cq & hb & ->).
  unfold definitionOf. rewrite Hdef. cbn [callFn literalMap].
  eexists. split; [reflexivity|].
  rewrite <- !app_assoc.
  rewrite !fieldNames_app, !fieldNames_cons, !fieldNames_nil. cbn [fst app].
  match goal with
  | |- isSubsequence ?l _ = true /\ _ =>
      assert (Hsub : isSubsequence l componentFieldOrder = true)
  end.
  { unfold componentFieldOrder, directiveFieldOrder, baseFieldNames,
      componentFieldNames. cbn [app].
    repeat first [ apply isSubsequence_cons
                 | apply isSubsequence_entry
                 | apply isSubsequence_entry_last ]. }
  split; [exact Hsub|]. split.
  - apply (isSubsequence_NoDup componentFieldOrder); [exact Hsub|].
    apply distinct_NoDup. reflexivity.
  - eexists. eexists. cbn [app]. do 3 f_equal. apply regroup_names.
Qed.

End DefinitionProperties.

Section ComponentFields.

Context {AST SourceSpan Dep TemplateNodes CssSelector R3Selector Reference
         Pool : Type}.
Variable ext : @Collaborators AST SourceSpan Dep TemplateNodes CssSelector
                              R3Selector Reference Pool.

Ltac lookup_field :=
  rewrite <- ?app_assoc; cbn [app];
  repeat first [ rewrite field_skip_cons by reflexivity
               | rewrite field_skip_entry by reflexivity ];
  rewrite ?field_hit_entry;
  repeat first [ rewrite field_skip_cons by reflexivity
               | rewrite field_skip_entry by reflexivity ];
  rewrite ?field_entry; cbn [String.eqb Ascii.eqb Bool.eqb field].

(** the fields that a component definition adds, looked up by name *)
Lemma component_field_values meta pool def meta' pool' :
  compileComponentFromMetadata ext meta pool = Ok ((def, meta'), pool') ->
  exists entries viewQuery,
    definitionOf def = Some entries
    /\ (viewQuery = None <-> c_viewQueries meta = [])
    /\ attrsResolved ext (m_selector (c_directive meta))
                     (field entries "attrs")
    /\ field entries "viewQuery" = viewQuery
    /\ field entries "styles" = stylesField ext meta
    /\ field entries "encapsulation" = encapsulationField meta
    /\ field entries "data"
       = match c_animations meta with
         | Some animations =>
             Some (literalMap [("animation", false, animations)])
         | None => None
         end
    /\ field entries "changeDetection"
       = match c_changeDetection meta with
         | Some OnPush => Some (literal (LChangeDetection OnPush))
         | _ => None
         end.
Proof.
  intros Hrun.
  apply compileComponentFromMetadata_shape in Hrun
    as (base & stmts & p1 & attrs & viewQuery & built & Hbase & Hvq & Hdef
        & _ & _ & Hattrs).
  apply baseDirectiveFields_fields in Hbase as (cq & hb & ->).
  unfold definitionOf. rewrite Hdef. cbn [callFn literalMap].
  eexists. exists viewQuery. split; [reflexivity|]. split; [exact Hvq|].
  split; [|repeat split].
  - lookup_field. destruct attrs; exact Hattrs.
  - lookup_field. destruct viewQuery; reflexivity.
  - lookup_field. destruct (stylesField ext meta); reflexivity.
  - lookup_field. destruct (encapsulationField meta); reflexivity.
  - lookup_field. destruct (c_animations meta); reflexivity.
  - lookup_field. destruct (c_changeDetection meta) as [[|]|]; reflexivity.
Qed.

(** X18.  The styles of a component are shimmed with the content and host
    attributes exactly in the mode Emulated, which is also the mode of a
    component that sets none, and the definition then has no field
    [encapsulation]; in every other mode the styles are emitted as they are
    and the field [encapsulation] holds the mode.  Without styles there is no
    field [styles], and an Emulated or unset mode is emitted as None. *)
Theorem component_styles_by_mode (meta : R3ComponentMetadata)
        pool def meta' pool'
        (Hrun : compileComponentFromMetadata ext meta pool
                = Ok ((def, meta'), pool')) :
  exists entries,
    definitionOf def = Some entries
    /\ (c_styles meta <> [] ->
        c_encapsulation meta = None \/ c_encapsulation meta = Some Emulated ->
        field entries "styles"
        = Some (literalArr
                  (map strLit
                       (compileStyles ext (c_styles meta) (CONTENT_ATTR ext)
                                      (HOST_ATTR ext))))
        /\ field entries "encapsulation" = None)
    /\ (forall mode,
           c_encapsulation meta = Some mode -> mode <> Emulated ->
           field entries "styles"
           = match c_styles meta with
             | [] => None
             | styles => Some (literalArr (map strLit styles))
             end
           /\ field entries "encapsulation"
              = Some (literal (LEncapsulation mode)))
    /\ (c_styles meta = [] ->
        c_encapsulation meta = None \/ c_encapsulation meta = Some Emulated ->
        field entries "styles" = None
        /\ field entries "encapsulation"
           = Some (literal (LEncapsulation EncNone))).
Proof.
  apply component_field_values in Hrun
    as (entries & vq & Hdef & _ & _ & _ & Hstyles & Henc & _).
  exists entries. split; [exact Hdef|].
  rewrite Hstyles, Henc.
  unfold stylesField, encapsulationField, resolvedEncapsulation, compileStyles.
  split; [|split].
  - intros Hne [-> | ->]; destruct (c_styles meta); try congruence;
      split; reflexivity.
  - intros mode -> Hmode.
    destruct mode, (c_styles meta); try congruence; split; reflexivity.
  - intros -> [-> | ->]; split; reflexivity.
Qed.

(** X19.  A component definition has the field [viewQuery] exactly when the
    component has a view query; the field [data], holding the animations
    under [animation], exactly when animations are given; and the field
    [changeDetection] exactly for the strategy OnPush: the default strategy
    is left out like an unset one. *)
Theorem component_optional_fields (meta : R3ComponentMetadata)
        pool def meta' pool'
        (Hrun : compileComponentFromMetadata ext meta pool
                = Ok ((def, meta'), pool')) :
  exists entries,
    definitionOf def = Some entries
    /\ (field entries "viewQuery" = None <-> c_viewQueries meta = [])
    /\ field entries "data"
       = match c_animations meta with
         | Some animations =>
             Some (literalMap [("animation", false, animations)])
         | None => None
         end
    /\ (c_changeDetection meta = Some OnPush ->
        field entries "changeDetection"
        = Some (literal (LChangeDetection OnPush)))
    /\ (c_changeDetection meta <> Some OnPush ->
        field entries "changeDetection" = None).
Proof.
  apply component_field_values in Hrun
    as (entries & vq & Hdef & Hvq & _ & Hfield & _ & _ & Hdata & Hcd).
  exists entries. split; [exact Hdef|]. rewrite Hfield, Hdata, Hcd.
  split; [exact Hvq|]. split; [reflexivity|]. split.
  - intros ->. reflexivity.
  - intros Hne. destruct (c_changeDetection meta) as [[|]|];
      congruence.
Qed.




End ComponentFields.


Lemma component_fields_in_order_witness :
  exists def meta' pool',
    compileComponentFromMetadata Sample.ext nativeComponent []
    = Ok ((def, meta'), pool')
    /\ exists entries,
        definitionOf def = Some entries
        /\ isSubsequence (fieldNames entries) componentFieldOrder = true.
Proof.
  do 3 eexists. refine ((fun H => conj H _) eq_refl).
  destruct (component_fields_in_order Sample.ext _ _ _ _ _ H)
    as (entries & Hdef & Hsub & _).
  exists entries. split; assumption.
Defined.

Lemma component_styles_by_mode_witness :
  exists def meta' pool',
    compileComponentFromMetadata Sample.ext nativeComponent []
    = Ok ((def, meta'), pool')
    /\ exists entries,
        definitionOf def = Some entries
        /\ field entries "styles"
           = Some (literalArr [strLit "a { color: red }"])
        /\ field entries "encapsulation"
           = Some (literal (LEncapsulation Native)).
Proof.
  do 3 eexists. refine ((fun H => conj H _) eq_refl).
  destruct (component_styles_by_mode Sample.ext _ _ _ _ _ H)
    as (entries & Hdef & _ & Hmode & _).
  exists entries. split; [exact Hdef|].
  refine (Hmode Native eq_refl _). discriminate.
Defined.

Lemma component_optional_fields_witness :
  exists def meta' pool',
    compileComponentFromMetadata Sample.ext nativeComponent []
    = Ok ((def, meta'), pool')
    /\ exists entries,
        definitionOf def = Some entries
        /\ field entries "changeDetection"
           = Some (literal (LChangeDetection OnPush)).
Proof.
  do 3 eexists. refine ((fun H => conj H _) eq_refl).
  destruct (component_optional_fields Sample.ext _ _ _ _ _ H)
    as (entries & Hdef & _ & _ & Hcd & _).
  exists entries. split; [exact Hdef|]. exact (Hcd eq_refl).
Defined.


(* ===================================================================== *)
(** ** Further properties: the base definition *)
(* ===================================================================== *)

Section BaseDefinition.

Context {SourceSpan : Type}.

(** X21.  The base definition has the field [inputs] exactly when the
    metadata has an inputs map, also an empty one, and the field [outputs]
    exactly when it has an outputs map; [inputs] comes first.  Each field is
    a literal map with one unquoted entry per key of the metadata map, in the
    order of its keys: a string for a plain value, and for an input given as
    a pair the array of its two strings. *)
Theorem base_definition_fields (meta : R3BaseRefMetaData) :
  exists entries,
    base_expression (@compileBaseDefFromMetadata SourceSpan meta)
    = callFn (importExpr R3.defineBase) [literalMap entries]
    /\ fieldNames entries
       = (match b_inputs meta with Some _ => ["inputs"] | None => [] end)
         ++ (match b_outputs meta with Some _ => ["outputs"] | None => [] end)
    /\ (forall inputs,
           b_inputs meta = Some inputs ->
           exists values,
             field entries "inputs" = Some (literalMap values)
             /\ fieldNames values = Js.keys inputs
             /\ forall k key value,
                 nth_error inputs k = Some (key, value) ->
                 nth_error values k
                 = Some (key, false,
                         match value with
                         | Plain s => strLit s
                         | Renamed bindingName propName =>
                             literalArr [strLit bindingName; strLit propName]
                         end))
    /\ (forall outputs,
           b_outputs meta = Some outputs ->
           exists values,
             field entries "outputs" = Some (literalMap values)
             /\ fieldNames values = Js.keys outputs
             /\ forall k key value,
                 nth_error outputs k = Some (key, value) ->
                 nth_error values k = Some (key, false, strLit value)).
Proof.
  unfold compileBaseDefFromMetadata. cbn [base_expression].
  eexists. split; [reflexivity|].
  destruct (b_inputs meta) as [inputs|], (b_outputs meta) as [outputs|];
    cbn; (split; [reflexivity|]); split; intros m Hm; inversion Hm; subst.
  all: rewrite ?String.eqb_refl.
  all: eexists; split; [reflexivity|]; split;
    [unfold fieldNames, Js.keys; rewrite map_map; reflexivity|].
  all: intros k key value Hk; rewrite nth_error_map, Hk; cbn;
    try destruct value; reflexivity.
Qed.

End BaseDefinition.

(* ===================================================================== *)
(** ** Further properties: the wrappers that start from render2 data *)
(* ===================================================================== *)

Section Render2Properties.

Context {AST SourceSpan Dep TemplateNodes CssSelector R3Selector Reference
         Pool : Type}
        {CompileType Provider LifecycleHook : Type}.
Variable ext : @Collaborators AST SourceSpan Dep TemplateNodes CssSelector
                              R3Selector Reference Pool.
Variable r2 : @Render2Collaborators SourceSpan Dep Reference Pool CompileType
                                    Provider LifecycleHook.

(** X22.  The queries of a directive are converted one by one, in order:
    the converted list is as long as the given one and the query at each
    position keeps its property name and its [first] and [descendants]
    flags; its predicate is the expression resolved from its selectors, and
    its [read] is the imported type of the read token, and null when there
    is no read token or the token has no type.  A conversion that succeeds
    had no query without selectors. *)
Theorem queries_converted_in_order
        (queries : list (@CompileQueryMetadata Reference)) pool result pool'
        (Hrun : queriesFromGlobalMetadata ext queries pool
                = Ok (result, pool')) :
  length result = length queries
  /\ (forall k query,
         nth_error queries k = Some query ->
         exists predicate p p',
           selectorsFromGlobalMetadata ext (cq_selectors query) p
           = Ok (predicate, p')
           /\ nth_error result k
              = Some {| q_propertyName := cq_propertyName query;
                        q_first := cq_first query;
                        q_predicate := PredicateExpr predicate;
                        q_descendants := cq_descendants query;
                        q_read :=
                          match cq_read query with
                          | Some token =>
                              match tok_identifier token with
                              | Some reference =>
                                  Some (outputCtx_importExpr ext reference)
                              | None => None
                              end
                          | None => None
                          end |})
  /\ forall query, In query queries -> cq_selectors query <> [].
Proof.
  unfold queriesFromGlobalMetadata in Hrun.
  apply mapM_nth in Hrun as [Hlen Hnth].
  assert (Hconv : forall k query,
             nth_error queries k = Some query ->
             exists predicate p p',
               selectorsFromGlobalMetadata ext (cq_selectors query) p
               = Ok (predicate, p')
               /\ nth_error result k
                  = Some {| q_propertyName := cq_propertyName query;
                            q_first := cq_first query;
                            q_predicate := PredicateExpr predicate;
                            q_descendants := cq_descendants query;
                            q_read :=
                              match cq_read query with
                              | Some token =>
                                  match tok_identifier token with
                                  | Some reference =>
                                      Some (outputCtx_importExpr ext reference)
                                  | None => None
                                  end
                              | None => None
                              end |}).
  { intros k query Hk. destruct (Hnth k query Hk) as (b & p & p' & Hb & Hkb).
    unfold bind in Hb.
    destruct (selectorsFromGlobalMetadata ext (cq_selectors query) p)
      as [[predicate p1]|] eqn:Hs; [|discriminate].
    inversion Hb; subst. exists predicate, p, p'. split; [exact Hs|exact Hkb]. }
  split; [exact Hlen|]. split; [exact Hconv|].
  intros query Hin Hnil. apply In_nth_error in Hin as [k Hk].
  destruct (Hconv k query Hk) as (predicate & p & p' & Hs & _).
  rewrite Hnil in Hs. discriminate.
Qed.

Lemma resolveName_ok type pool name pool' :
  resolveName r2 type pool = Ok (name, pool') ->
  identifierName r2 type = Some name /\ Js.truthy name = true /\ pool' = pool.
Proof.
  unfold resolveName.
  destruct (identifierName r2 type) as [n|]; [|discriminate].
  destruct (Js.truthy n) eqn:Hn; [|discriminate].
  intros H. inversion H; subst. auto.
Qed.

Lemma resolveName_fails type pool :
  Js.truthyOpt (identifierName r2 type) = false ->
  resolveName r2 type pool
  = Thrown ("Cannot resolver the name of " ++ typeText r2 type).
Proof.
  unfold resolveName. destruct (identifierName r2 type) as [n|]; simpl;
    [intros ->|]; reflexivity.
Qed.

(** X23.  A directive or component whose type has no name, or an empty one,
    is rejected with the error "Cannot resolver the name of ..." before
    anything else is looked at: neither wrapper adds a statement, whatever
    the rest of the metadata is. *)
Theorem unnamed_type_is_rejected
        (directive : @CompileDirectiveMetadata Reference CompileType Provider)
        (Hname : Js.truthyOpt (identifierName r2 (cd_type directive)) = false) :
  let message :=
    ("Cannot resolver the name of " ++ typeText r2 (cd_type directive))%string
  in
  (forall pool,
      directiveMetadataFromGlobalMetadata ext r2 directive pool
      = Thrown message)
  /\ (forall statements pool,
         compileDirectiveFromRender2 ext r2 statements directive pool
         = Thrown message)
  /\ (forall statements (nodes : TemplateNodes) pipeTypeByName pool,
         compileComponentFromRender2 ext r2 statements directive nodes
                                     pipeTypeByName pool
         = Thrown message).
Proof.
  cbn zeta. repeat split; intros.
  - unfold directiveMetadataFromGlobalMetadata, bind.
    rewrite resolveName_fails by assumption. reflexivity.
  - unfold compileDirectiveFromRender2, bind.
    rewrite resolveName_fails by assumption. reflexivity.
  - unfold compileComponentFromRender2, bind.
    rewrite resolveName_fails by assumption. reflexivity.
Qed.

End Render2Properties.

Lemma queries_converted_in_order_witness :
  exists result pool',
    queriesFromGlobalMetadata Sample.ext [Render2Sample.itemsQuery] []
    = Ok (result, pool')
    /\ length result = 1.
Proof.
  do 2 eexists. refine ((fun H => conj H _) eq_refl).
  exact (proj1 (queries_converted_in_order Sample.ext _ _ _ _ H)).
Defined.

Lemma unnamed_type_is_rejected_witness :
  compileDirectiveFromRender2 Sample.ext Render2Sample.r2 []
                              (Render2Sample.directive "") []
  = Thrown "Cannot resolver the name of [object Object]".
Proof.
  exact (proj1 (proj2 (unnamed_type_is_rejected
                         Sample.ext Render2Sample.r2
                         (TemplateNodes := Datatypes.unit)
                         (Render2Sample.directive "") eq_refl)) [] []).
Defined.

Section Render2Wrappers.

Context {AST SourceSpan Dep TemplateNodes CssSelector R3Selector Reference
         Pool : Type}
        {CompileType Provider LifecycleHook : Type}.
Variable ext : @Collaborators AST SourceSpan Dep TemplateNodes CssSelector
                              R3Selector Reference Pool.
Variable r2 : @Render2Collaborators SourceSpan Dep Reference Pool CompileType
                                    Provider LifecycleHook.

Ltac lookup_base_field :=
  rewrite <- ?app_assoc; cbn [app];
  repeat first [ rewrite field_skip_cons by reflexivity
               | rewrite field_skip_entry by reflexivity ];
  rewrite ?field_hit_entry;
  repeat first [ rewrite field_skip_cons by reflexivity
               | rewrite field_skip_entry by reflexivity ];
  rewrite ?field_entry; cbn [String.eqb Ascii.eqb Bool.eqb field].

(** the fields [type], [exportAs] and [features] of the definition map that
    starts with the base fields *)
Lemma base_field_values meta pool base stmts pool'
      (features : option (@Expr SourceSpan))
      (added : @DefinitionMap SourceSpan) :
  baseDirectiveFields ext meta pool = Ok ((base, stmts), pool') ->
  fieldsAmong (componentFieldNames
                 ++ ["styles"; "encapsulation"; "data"; "changeDetection"])
              added ->
  field (base ++ entry "features" features ++ added) "type"
  = Some (m_type meta)
  /\ field (base ++ entry "features" features ++ added) "exportAs"
     = match m_exportAs meta with
       | Some exportAs => Some (strLit exportAs)
       | None => None
       end
  /\ field (base ++ entry "features" features ++ added) "features" = features.
Proof.
  intros Hbase Hadded.
  apply baseDirectiveFields_fields in Hbase as (cq & hb & ->).
  assert (Hno : forall key,
             existsb (String.eqb key)
                     (componentFieldNames
                        ++ ["styles"; "encapsulation"; "data";
                            "changeDetection"]) = false ->
             field added key = None).
  { intros key Hkey. eapply fieldsAmong_absent; [exact Hadded|].
    intros Hin. assert (existsb (String.eqb key)
                                (componentFieldNames
                                   ++ ["styles"; "encapsulation"; "data";
                                       "changeDetection"]) = true).
    { apply existsb_exists. exists key.
      split; [exact Hin|apply String.eqb_refl]. }
    congruence. }
  split; [|split].
  - reflexivity.
  - lookup_base_field. rewrite (Hno "exportAs") by reflexivity.
    destruct (m_exportAs meta); reflexivity.
  - lookup_base_field. rewrite (Hno "features") by reflexivity.
    destruct features; reflexivity.
Qed.

Lemma directiveMetadataFromGlobalMetadata_ok directive pool meta pool' :
  directiveMetadataFromGlobalMetadata ext r2 directive pool
  = Ok (meta, pool') ->
  identifierName r2 (cd_type directive) = Some (m_name meta)
  /\ m_type meta
     = outputCtx_importExpr ext (typeReference r2 (cd_type directive))
  /\ m_typeArgumentCount meta = 0
  /\ m_selector meta = cd_selector directive
  /\ m_deps meta <> None
  /\ m_usesInheritance meta = false
  /\ m_exportAs meta = None
  /\ m_providers meta = wrapProviders r2 (cd_providers directive)
  /\ m_usesOnChanges meta
     = existsb (isOnChanges r2) (lifecycleHooks r2 (cd_type directive))
  /\ h_attributes (m_host meta) = cd_hostAttributes directive.
Proof.
  unfold directiveMetadataFromGlobalMetadata, bind.
  destruct (resolveName r2 (cd_type directive) pool) as [[name p0]|] eqn:Hn;
    [|discriminate].
  apply resolveName_ok in Hn as (Hname & _ & ->).
  destruct (dependenciesFromGlobalMetadata r2 _ pool) as [[deps p1]|];
    [|discriminate].
  destruct (queriesFromGlobalMetadata ext _ p1) as [[queries p2]|];
    [|discriminate].
  intros H. inversion H; subst. cbn. repeat split; auto. discriminate.
Qed.

Lemma no_inheritance_feature
      (meta : @AnyMetadata SourceSpan Dep TemplateNodes) features :
  m_usesInheritance (directivePart meta) = false ->
  featuresField meta = Some (literalArr features) ->
  ~ In (importExpr R3.InheritDefinitionFeature) features.
Proof.
  unfold featuresField, featuresOf. intros -> H.
  destruct (m_providers (directivePart meta)), (viewProvidersOf meta),
    (m_usesOnChanges (directivePart meta)); cbn in H;
    inversion H; subst; cbn;
    intros Hin; repeat (destruct Hin as [Hin|Hin]; [discriminate|]);
    exact Hin.
Qed.

(** X24.  When [compileDirectiveFromRender2] succeeds, it has added exactly
    one statement after the statements that were there: the partial class of
    the directive's name, whose static field, named as the constant pool
    names directive definitions, holds the definition.  The statements of
    the factory are not added.  The definition is made for the imported type
    of the directive, has no field [exportAs], and its features never include
    the inheritance feature. *)
Theorem directive_from_render2
        (statements : list Stmt)
        (directive : @CompileDirectiveMetadata Reference CompileType Provider)
        pool result pool'
        (Hrun : compileDirectiveFromRender2 ext r2 statements directive pool
                = Ok (result, pool')) :
  exists name res entries,
    identifierName r2 (cd_type directive) = Some name
    /\ result
       = statements
         ++ [partialClassStmt r2 name (propertyNameOf r2 DirectiveKind)
                              (def_expression res)]
    /\ definitionOf res = Some entries
    /\ field entries "type"
       = Some (outputCtx_importExpr ext (typeReference r2 (cd_type directive)))
    /\ field entries "exportAs" = None
    /\ forall features,
        field entries "features" = Some (literalArr features) ->
        ~ In (importExpr R3.InheritDefinitionFeature) features.
Proof.
  unfold compileDirectiveFromRender2, bind in Hrun.
  destruct (resolveName r2 (cd_type directive) pool) as [[name p0]|] eqn:Hn;
    [|discriminate].
  apply resolveName_ok in Hn as (Hname & _ & ->).
  destruct (directiveMetadataFromGlobalMetadata ext r2 directive pool)
    as [[meta p1]|] eqn:Hmeta; [|discriminate].
  apply directiveMetadataFromGlobalMetadata_ok in Hmeta
    as (_ & Htype & _ & _ & _ & Hinh & Hexp & _).
  destruct (compileDirectiveFromMetadata ext meta p1) as [[res p2]|] eqn:Hres;
    [|discriminate].
  inversion Hrun; subst.
  apply compileDirectiveFromMetadata_fields in Hres
    as (base & stmts & Hbase & Hdef).
  exists name, res. eexists. split; [exact Hname|].
  split; [reflexivity|]. split; [exact Hdef|].
  assert (Hnil : fieldsAmong
                   (componentFieldNames
                      ++ ["styles"; "encapsulation"; "data";
                          "changeDetection"])
                   (@nil (string * bool * @Expr SourceSpan)))
    by constructor.
  pose proof (base_field_values meta _ _ _ _
                (featuresField (@OfDirective SourceSpan Dep TemplateNodes meta))
                [] Hbase Hnil) as (Ht & He & Hf).
  rewrite app_nil_r in Ht, He, Hf.
  rewrite Ht, He, Hf, Htype, Hexp.
  split; [reflexivity|]. split; [reflexivity|].
  intros features Hfeatures.
  exact (no_inheritance_feature (OfDirective meta) features Hinh Hfeatures).
Qed.

Lemma componentMetadataFromRender2_ok component nodes pipes pool meta pool' :
  componentMetadataFromRender2 ext r2 component nodes pipes pool
  = Ok (meta, pool') ->
  m_type (c_directive meta)
  = outputCtx_importExpr ext (typeReference r2 (cd_type component))
  /\ m_usesInheritance (c_directive meta) = false
  /\ m_exportAs (c_directive meta) = None
  /\ c_directives meta = []
  /\ c_animations meta = None
  /\ c_changeDetection meta = None
  /\ c_styles meta
     = match cd_summaryTemplate component with
       | Some t => ts_styles t
       | None => []
       end
  /\ c_encapsulation meta
     = Some (render2Encapsulation r2 (cd_summaryTemplate component)).
Proof.
  unfold componentMetadataFromRender2, bind.
  destruct (directiveMetadataFromGlobalMetadata ext r2 component pool)
    as [[dmeta p1]|] eqn:Hmeta; [|discriminate].
  apply directiveMetadataFromGlobalMetadata_ok in Hmeta
    as (_ & Htype & _ & _ & _ & Hinh & Hexp & _).
  destruct (queriesFromGlobalMetadata ext _ p1) as [[vq p2]|];
    [|discriminate].
  intros H. inversion H; subst. cbn. repeat split; auto.
Qed.

(** X25.  When [compileComponentFromRender2] succeeds, it has added exactly
    one statement after the statements that were there: the partial class of
    the component's name, whose static field, named as the constant pool
    names component definitions, holds the definition.  The definition is
    made for the imported type of the component and has none of the fields
    [exportAs], [data] and [changeDetection]; its features never include the
    inheritance feature.  A component without a template summary has no
    styles and is emitted with the encapsulation None. *)
Theorem component_from_render2
        (statements : list Stmt)
        (component : @CompileDirectiveMetadata Reference CompileType Provider)
        (nodes : TemplateNodes) pipeTypeByName pool result pool'
        (Hrun : compileComponentFromRender2 ext r2 statements component nodes
                                            pipeTypeByName pool
                = Ok (result, pool')) :
  exists name res entries,
    identifierName r2 (cd_type component) = Some name
    /\ result
       = statements
         ++ [partialClassStmt r2 name (propertyNameOf r2 ComponentKind)
                              (def_expression res)]
    /\ definitionOf res = Some entries
    /\ field entries "type"
       = Some (outputCtx_importExpr ext (typeReference r2 (cd_type component)))
    /\ field entries "exportAs" = None
    /\ field entries "data" = None
    /\ field entries "changeDetection" = None
    /\ (forall features,
           field entries "features" = Some (literalArr features) ->
           ~ In (importExpr R3.InheritDefinitionFeature) features)
    /\ (cd_summaryTemplate component = None ->
        field entries "styles" = None
        /\ field entries "encapsulation"
           = Some (literal (LEncapsulation EncNone))).
Proof.
  unfold compileComponentFromRender2, bind in Hrun.
  destruct (resolveName r2 (cd_type component) pool) as [[name p0]|] eqn:Hn;
    [|discriminate].
  apply resolveName_ok in Hn as (Hname & _ & ->).
  destruct (componentMetadataFromRender2 ext r2 component nodes
                                         pipeTypeByName pool)
    as [[meta p1]|] eqn:Hmeta; [|discriminate].
  apply componentMetadataFromRender2_ok in Hmeta
    as (Htype & Hinh & Hexp & _ & Hanim & Hcd & Hstyles & Henc).
  destruct (compileComponentFromMetadata ext meta p1)
    as [[[res meta'] p2]|] eqn:Hres; [|discriminate].
  inversion Hrun; subst.
  pose proof (component_field_values ext _ _ _ _ _ Hres)
    as (entries & vq & Hdef & _ & _ & _ & Hs & He & Hdata & Hchange).
  pose proof (compileComponentFromMetadata_fields ext _ _ _ _ _ Hres)
    as (base & stmts & pool1 & added & Hbase & Hdef' & Hadded).
  rewrite Hdef in Hdef'. inversion Hdef' as [Hentries].
  pose proof (base_field_values _ _ _ _ _
                (featuresField (OfComponent meta)) added Hbase Hadded)
    as (Ht & Hx & Hf).
  rewrite <- Hentries in Ht, Hx, Hf.
  exists name, res, entries. split; [exact Hname|].
  split; [reflexivity|]. split; [exact Hdef|].
  rewrite Ht, Hx, Hf, Hdata, Hchange, Hs, He, Htype, Hexp, Hanim, Hcd.
  repeat split.
  - intros features Hfeatures.
    exact (no_inheritance_feature (OfComponent meta) features Hinh Hfeatures).
  - unfold stylesField. rewrite Hstyles, H. reflexivity.
  - unfold encapsulationField. rewrite Hstyles, Henc, H. reflexivity.
Qed.

End Render2Wrappers.

Lemma directive_from_render2_witness :
  exists result pool',
    compileDirectiveFromRender2 Sample.ext Render2Sample.r2 []
                                (Render2Sample.directive "Dir") []
    = Ok (result, pool')
    /\ length result = 1.
Proof.
  do 2 eexists. refine ((fun H => conj H _) eq_refl).
  destruct (directive_from_render2 Sample.ext Render2Sample.r2 _ _ _ _ _ H)
    as (name & res & entries & _ & Hresult & _).
  rewrite Hresult. reflexivity.
Defined.

Lemma component_from_render2_witness :
  exists result pool',
    compileComponentFromRender2 Sample.ext Render2Sample.r2 []
                                (Render2Sample.directive "Cmp") tt [] []
    = Ok (result, pool')
    /\ length result = 1.
Proof.
  do 2 eexists. refine ((fun H => conj H _) eq_refl).
  destruct (component_from_render2 Sample.ext Render2Sample.r2 _ _ _ _ _ _ _ H)
    as (name & res & entries & _ & Hresult & _).
  rewrite Hresult. reflexivity.
Defined.

(* ===================================================================== *)
(** ** Further properties: selector attributes and listener handlers *)
(* ===================================================================== *)

Section SelectorsAndHandlers.

Context {AST SourceSpan Dep TemplateNodes CssSelector R3Selector Reference
         Pool : Type}.
Variable ext : @Collaborators AST SourceSpan Dep TemplateNodes CssSelector
                              R3Selector Reference Pool.

(** X26.  The field [attrs] of a component definition is made of the
    attributes of the first selector only: it is absent when the selector is
    null or empty, when it parses to no selector, or when its first selector
    has no attribute; otherwise it is the constant that the pool returns, in
    shared form, for the array of these attributes. *)
Theorem component_attrs_of_first_selector (meta : R3ComponentMetadata)
        pool def meta' pool'
        (Hrun : compileComponentFromMetadata ext meta pool
                = Ok ((def, meta'), pool')) :
  exists entries,
    definitionOf def = Some entries
    /\ (selectorAttributes ext (m_selector (c_directive meta)) = [] ->
        field entries "attrs" = None)
    /\ (selectorAttributes ext (m_selector (c_directive meta)) <> [] ->
        exists attrs p p',
          field entries "attrs" = Some attrs
          /\ getConstLiteral ext
               (literalArr
                  (map (fun value =>
                          match value with
                          | Some v => strLit v
                          | None => literal LUndefined
                          end)
                       (selectorAttributes ext
                          (m_selector (c_directive meta)))))
               true p
             = Ok (attrs, p'))
    /\ (m_selector (c_directive meta) = None
        \/ m_selector (c_directive meta) = Some EmptyString ->
        field entries "attrs" = None).
Proof.
  apply component_field_values in Hrun
    as (entries & vq & Hdef & _ & Hattrs & _).
  exists entries. split; [exact Hdef|].
  unfold attrsResolved in Hattrs.
  assert (Hnone : selectorAttributes ext (m_selector (c_directive meta)) = [] ->
                  field entries "attrs" = None).
  { intros Hnil. rewrite Hnil in Hattrs. exact Hattrs. }
  split; [exact Hnone|]. split.
  - intros Hne.
    destruct (selectorAttributes ext (m_selector (c_directive meta)))
      as [|v vs]; [congruence|]. exact Hattrs.
  - intros [Hsel|Hsel]; apply Hnone; unfold selectorAttributes;
      rewrite Hsel; reflexivity.
Qed.

Lemma handlerName_eq typeName eventName :
  (let bindingName :=
     if Js.truthy eventName then sanitizeIdentifier ext eventName
     else eventName in
   if Js.truthy typeName && Js.truthy bindingName
   then Some (typeName ++ "_" ++ bindingName ++ "_HostBindingHandler")%string
   else None)
  = handlerName ext typeName eventName.
Proof.
  unfold handlerName. destruct typeName, eventName; cbn; try reflexivity.
  destruct (sanitizeIdentifier ext _); reflexivity.
Qed.

(** X27.  Every host event gets one [listener] instruction, in the order of
    the events, and the constant pool is not touched.  The instruction
    registers the event under its name as given, with a handler that takes
    [$event] and whose body is the converted handler expression; the handler
    is named after the type and the sanitized event name, and is anonymous
    when the type has no name or the event name is empty. *)
Theorem host_listener_handlers bindingContext
        (events : list ParsedEvent) (meta : R3DirectiveMetadata)
        pool stmts pool'
        (Hrun : createHostListeners ext bindingContext events meta pool
                = Ok (stmts, pool')) :
  pool' = pool
  /\ length stmts = length events
  /\ forall k event,
      nth_error events k = Some event ->
      exists body,
        convertActionBinding ext bindingContext (ev_handler event) "b"
        = Ok body
        /\ nth_error stmts k
           = Some (toStmt
                     (callFn (importExpr R3.listener)
                        [ strLit (ev_name event);
                          fn [mkFnParam "$event"
                                        (Some (BuiltinType DYNAMIC_TYPE))]
                             body (Some (BuiltinType INFERRED_TYPE))
                             (handlerName ext (m_name meta)
                                          (ev_name event)) ])).
Proof.
  pose proof (createHostListeners_names ext _ _ _ _ _ _ Hrun) as [_ Hpool].
  unfold createHostListeners in Hrun.
  apply mapM_nth in Hrun as [Hlen Hnth].
  split; [exact Hpool|]. split; [exact Hlen|].
  intros k event Hk. destruct (Hnth k event Hk) as (b & p & p' & Hb & Hkb).
  unfold bind, liftResult in Hb.
  destruct (convertActionBinding ext bindingContext (ev_handler event) "b")
    as [body|]; [|discriminate].
  exists body. split; [reflexivity|].
  rewrite Hkb. cbn in Hb. inversion Hb; subst.
  rewrite <- handlerName_eq. reflexivity.
Qed.

End SelectorsAndHandlers.

Lemma component_attrs_of_first_selector_witness :
  exists def meta' pool',
    compileComponentFromMetadata countingExt nativeComponent []
    = Ok ((def, meta'), pool')
    /\ selectorAttributes countingExt (m_selector (c_directive nativeComponent))
       = [Some "dir"; Some ""]
    /\ exists entries,
        definitionOf def = Some entries
        /\ field entries "attrs"
           = Some (literalArr [strLit "dir"; strLit ""]).
Proof.
  do 3 eexists. refine ((fun H => conj H _) eq_refl).
  split; [reflexivity|].
  destruct (component_attrs_of_first_selector countingExt _ _ _ _ _ H)
    as (entries & Hdef & _ & Hsome & _).
  exists entries. split; [exact Hdef|].
  destruct Hsome as (attrs & p & p' & Hfield & Hget); [discriminate|].
  rewrite Hfield. vm_compute in Hget. inversion Hget; subst. reflexivity.
Defined.

Lemma host_listener_handlers_witness :
  exists stmts,
    createHostListeners Sample.ext (variable "ctx")
      [{| ev_name := "click"; ev_handler := "onClick" |}] clickDirective []
    = Ok (stmts, [])
    /\ nth_error stmts 0
       = Some (toStmt
                 (callFn (importExpr R3.listener)
                    [ strLit "click";
                      fn [mkFnParam "$event" (Some (BuiltinType DYNAMIC_TYPE))]
                         [ReturnStatement
                            (callFn (prop (variable "ctx") "onClick") [])]
                         (Some (BuiltinType INFERRED_TYPE))
                         (Some "Dir_click_HostBindingHandler") ])).
Proof.
  eexists. refine ((fun H => conj H _) eq_refl).
  destruct (host_listener_handlers Sample.ext _ _ _ _ _ _ H)
    as (_ & _ & Hnth).
  destruct (Hnth 0 _ eq_refl) as (body & Hbody & Hstmt).
  inversion Hbody; subst. exact Hstmt.
Defined.
